(** * Tenant routing core of echo-core

    A shallow embedding of the multi-tenant request-routing layer:

    - [ContextVars]     backend/shared_configs/contextvars.py
    - [TenantRegistry]  backend/onyx/db/tenant_registry.py
    - [VespaPool]       backend/onyx/document_index/vespa/tenant_vespa_client.py
    - [TenantTracking]  backend/ee/onyx/server/middleware/tenant_tracking.py
    - [PoseidonHooks]   backend/onyx/connectors/poseidon/hooks.py (rate limit)

    Python values of type [str | None] are [option string] ([None] is
    Python's [None]); dictionaries with string keys are [gmap string _],
    except where iteration order matters (the client pool), where an
    insertion-ordered association list is used.  Mutable objects are
    threaded explicitly; a raised exception is a value of [Exception]. *)

From stdpp Require Import gmap strings list fin_maps pretty.
From Stdlib Require Import ZArith Lia Sorted.

Open Scope Z_scope.

(** ** Python prelude *)

Module Py.

Inductive Exception :=
| RuntimeError (msg : string)
| ValueError (msg : string)
| TenantNotProvisionedError (tenant_id : string)
| TenantSuspendedError (tenant_id : string)
| HTTPException (status_code : Z) (detail : string)
| OtherError (msg : string).

(** [Result A]: the call raised ([inl]) or returned ([inr]). *)
Definition Result (A : Type) : Type := Exception + A.

(** Truth value of a [str | None]: [None] and the empty string are falsy. *)
Definition truthy (v : option string) : bool :=
  match v with
  | Some s => negb (bool_decide (s = ""))
  | None => false
  end.

(** [a or b] on [str | None]. *)
Definition or_ (a b : option string) : option string :=
  if truthy a then a else b.

(** [d.get(key, dflt)] on a dictionary whose values are [str | None]. *)
Definition dict_get (d : gmap string (option string)) (key : string)
    (dflt : option string) : option string :=
  match d !! key with
  | Some v => v
  | None => dflt
  end.

(** [isinstance(e, HTTPException)] *)
Definition is_HTTPException (e : Exception) : bool :=
  match e with
  | HTTPException _ _ => true
  | _ => false
  end.

End Py.
Import Py.

(** ** Context store (shared_configs/contextvars.py) *)

Module ContextVars.

(** A [contextvars.ContextVar]: its name and its default. *)
Record ContextVar := { name : string; var_default : option string }.

(** The current [contextvars.Context]: the variables that hold a value.
    A variable that is absent is unset and reads as its default. *)
Abbreviation Context := (gmap string (option string)).

(** A [contextvars.Token]: the variable it was created by, the value the
    variable held before the [set] ([None] is [Token.MISSING]), and whether
    the token has been consumed by a [reset]. *)
Record Token := {
  tok_var : string;
  tok_old_value : option (option string);
  tok_used : bool
}.

Definition ContextVar_get (v : ContextVar) (ctx : Context) : option string :=
  match ctx !! name v with
  | Some x => x
  | None => var_default v
  end.

Definition ContextVar_set (v : ContextVar) (x : option string) (ctx : Context)
    : Token * Context :=
  ({| tok_var := name v; tok_old_value := ctx !! name v; tok_used := false |},
   <[name v := x]> ctx).

(** The context with variable [k] put back to [old]: removed from the
    context when [old] is [Token.MISSING]. *)
Definition restore_value (k : string) (old : option (option string)) (ctx : Context)
    : Context :=
  match old with
  | Some x => <[k := x]> ctx
  | None => delete k ctx
  end.

(** [var.reset(token)]: raises on a consumed token or a token of another
    variable; otherwise restores the old value and consumes the token. *)
Definition ContextVar_reset (v : ContextVar) (tok : Token) (ctx : Context)
    : Result (Token * Context) :=
  if tok_used tok then
    inl (RuntimeError "Token has already been used once")
  else if negb (bool_decide (tok_var tok = name v)) then
    inl (ValueError "Token was created by a different ContextVar")
  else
    inr ({| tok_var := tok_var tok; tok_old_value := tok_old_value tok;
            tok_used := true |},
         restore_value (name v) (tok_old_value tok) ctx).

Section WithConfigs.

(** shared_configs.configs *)
Variable MULTI_TENANT : bool.
Variable POSTGRES_DEFAULT_SCHEMA : string.

Definition CURRENT_TENANT_ID_CONTEXTVAR : ContextVar :=
  {| name := "current_tenant_id";
     var_default := if MULTI_TENANT then None else Some POSTGRES_DEFAULT_SCHEMA |}.

Definition CURRENT_DB_URL_CONTEXTVAR : ContextVar :=
  {| name := "current_db_url"; var_default := None |}.

Definition CURRENT_VESPA_URL_CONTEXTVAR : ContextVar :=
  {| name := "current_vespa_url"; var_default := None |}.

Definition CURRENT_ORG_ID_CONTEXTVAR : ContextVar :=
  {| name := "current_org_id"; var_default := None |}.

Definition TENANT_ISOLATION_MODE_CONTEXTVAR : ContextVar :=
  {| name := "tenant_isolation_mode"; var_default := Some "schema" |}.

(** The stack trace appended to the message is left out. *)
Definition get_current_tenant_id (ctx : Context) : Result string :=
  let tenant_id := ContextVar_get CURRENT_TENANT_ID_CONTEXTVAR ctx in
  match tenant_id with
  | None =>
      if negb MULTI_TENANT then inr POSTGRES_DEFAULT_SCHEMA
      else inl (RuntimeError "Tenant ID is not set. This should never happen.")
  | Some t => inr t
  end.

Definition get_current_db_url (ctx : Context) : option string :=
  ContextVar_get CURRENT_DB_URL_CONTEXTVAR ctx.

Definition get_current_vespa_url (ctx : Context) : option string :=
  ContextVar_get CURRENT_VESPA_URL_CONTEXTVAR ctx.

Definition get_current_org_id (ctx : Context) : option string :=
  ContextVar_get CURRENT_ORG_ID_CONTEXTVAR ctx.

Definition get_tenant_isolation_mode (ctx : Context) : option string :=
  ContextVar_get TENANT_ISOLATION_MODE_CONTEXTVAR ctx.

Definition is_full_database_isolation (ctx : Context) : bool :=
  bool_decide (get_tenant_isolation_mode ctx = Some "database").

(** [if x is not None: tokens[key] = VAR.set(x)] *)
Definition set_if_not_None (key : string) (v : ContextVar) (x : option string)
    (st : gmap string Token * Context) : gmap string Token * Context :=
  match x with
  | Some _ =>
      let '(tok, ctx') := ContextVar_set v x st.2 in
      (<[key := tok]> st.1, ctx')
  | None => st
  end.

Definition set_tenant_context (tenant_id org_id db_url vespa_url : option string)
    (isolation_mode : string) (ctx : Context) : gmap string Token * Context :=
  let st := (∅, ctx) in
  let st := set_if_not_None "tenant_id" CURRENT_TENANT_ID_CONTEXTVAR tenant_id st in
  let st := set_if_not_None "org_id" CURRENT_ORG_ID_CONTEXTVAR org_id st in
  let st := set_if_not_None "db_url" CURRENT_DB_URL_CONTEXTVAR db_url st in
  let st := set_if_not_None "vespa_url" CURRENT_VESPA_URL_CONTEXTVAR vespa_url st in
  let '(tok, ctx') :=
    ContextVar_set TENANT_ISOLATION_MODE_CONTEXTVAR (Some isolation_mode) st.2 in
  (<["isolation_mode" := tok]> st.1, ctx').

(** Binding of the keyword parameter [isolation_mode: str = "schema"]:
    [None] stands for a call that omits the argument. *)
Definition isolation_mode_arg (kw : option string) : string :=
  match kw with
  | Some m => m
  | None => "schema"
  end.

(** [if key in tokens: VAR.reset(tokens[key])]; a raised exception
    leaves the state as it was at the failing [reset]. *)
Definition reset_if_in (key : string) (v : ContextVar)
    (r : option Exception * (gmap string Token * Context))
    : option Exception * (gmap string Token * Context) :=
  match r with
  | (Some e, st) => (Some e, st)
  | (None, st) =>
      match st.1 !! key with
      | None => (None, st)
      | Some tok =>
          match ContextVar_reset v tok st.2 with
          | inl e => (Some e, st)
          | inr (tok', ctx') => (None, (<[key := tok']> st.1, ctx'))
          end
      end
  end.

(** Returns the exception raised, if any, with the tokens and the
    context after the call. *)
Definition reset_tenant_context (tokens : gmap string Token) (ctx : Context)
    : option Exception * (gmap string Token * Context) :=
  let r := (None, (tokens, ctx)) in
  let r := reset_if_in "tenant_id" CURRENT_TENANT_ID_CONTEXTVAR r in
  let r := reset_if_in "org_id" CURRENT_ORG_ID_CONTEXTVAR r in
  let r := reset_if_in "db_url" CURRENT_DB_URL_CONTEXTVAR r in
  let r := reset_if_in "vespa_url" CURRENT_VESPA_URL_CONTEXTVAR r in
  reset_if_in "isolation_mode" TENANT_ISOLATION_MODE_CONTEXTVAR r.

End WithConfigs.

End ContextVars.

(** ** Infrastructure registry (onyx/db/tenant_registry.py) *)

Module TenantRegistry.

(** Cache TTL in seconds (5 minutes). *)
Definition TENANT_CACHE_TTL_SECONDS : Z := 300.

Record TenantInfrastructure := {
  organization_id : string;
  database_host : string;
  database_port : Z;
  database_name : string;
  vespa_host : string;
  vespa_port : Z;
  status : string;
  provisioned_at : option string;
  last_health_check : option string;
  metadata : option (gmap string string)
}.

(** [f"postgresql://{host}:{port}/{name}"] *)
Definition database_url (i : TenantInfrastructure) : string :=
  "postgresql://" +:+ database_host i +:+ ":" +:+ pretty (database_port i)
    +:+ "/" +:+ database_name i.

(** [f"http://{host}:{port}"] *)
Definition vespa_url (i : TenantInfrastructure) : string :=
  "http://" +:+ vespa_host i +:+ ":" +:+ pretty (vespa_port i).

Definition vespa_config_url (i : TenantInfrastructure) : string :=
  "http://" +:+ vespa_host i +:+ ":19071".

Definition is_active (i : TenantInfrastructure) : bool :=
  bool_decide (status i = "active").

Definition is_provisioning (i : TenantInfrastructure) : bool :=
  bool_decide (status i = "provisioning").

Definition is_suspended (i : TenantInfrastructure) : bool :=
  bool_decide (status i = "suspended").

(** Timestamps ([time.time()]) and the TTL are integers in one time unit. *)
Record CachedTenantEntry := {
  infrastructure : TenantInfrastructure;
  cached_at : Z
}.

(** [entry.is_expired(ttl_seconds)], with [now] the reading of [time.time()]. *)
Definition is_expired (entry : CachedTenantEntry) (ttl_seconds : Z) (now : Z) : bool :=
  bool_decide (now - cached_at entry > ttl_seconds).

(** The registry object: its cache and its TTL. *)
Record Registry := {
  _cache : gmap string CachedTenantEntry;
  _ttl_seconds : Z
}.

(** [TenantRegistry.__init__] *)
Definition init : Registry :=
  {| _cache := ∅; _ttl_seconds := TENANT_CACHE_TTL_SECONDS |}.

Definition set_ttl (self : Registry) (ttl_seconds : Z) : Registry :=
  {| _cache := _cache self; _ttl_seconds := ttl_seconds |}.

(** One row of [tenant_infrastructure], columns 0 to 9 of the SELECT.
    Nullable columns are [option]. *)
Record Row := {
  col_organization_id : string;
  col_database_host : string;
  col_database_port : Z;
  col_database_name : string;
  col_vespa_host : string;
  col_vespa_port : Z;
  col_status : string;
  col_provisioned_at : option string;
  col_last_health_check : option string;
  col_metadata : option (gmap string string)
}.

(** What [platform_session.execute(query, {"org_id": o}).fetchone()] does:
    it raises, or returns a row or [None]. *)
Inductive Fetched :=
| FetchRaises (e : Exception)
| FetchOne (r : option Row).

(** The platform session: the lookup store it is connected to, and the
    organization ids its [execute] has been called with, latest first. *)
Record Session := {
  store : string -> Fetched;
  executed : list string
}.

Definition call_count (s : Session) : nat := length (executed s).

Definition execute (s : Session) (org_id : string) : Fetched * Session :=
  (store s org_id, {| store := store s; executed := org_id :: executed s |}).

(** [str(x) if x else None] *)
Definition str_if_truthy (x : option string) : option string :=
  if truthy x then x else None.

(** [x if x else None] on a dictionary: the empty dictionary is falsy. *)
Definition dict_if_truthy (x : option (gmap string string)) : option (gmap string string) :=
  match x with
  | Some d => if bool_decide (d = ∅) then None else Some d
  | None => None
  end.

Definition infrastructure_of_row (result : Row) : TenantInfrastructure :=
  {| organization_id := col_organization_id result;
     database_host := col_database_host result;
     database_port := col_database_port result;
     database_name := col_database_name result;
     vespa_host := col_vespa_host result;
     vespa_port := col_vespa_port result;
     status := col_status result;
     provisioned_at := str_if_truthy (col_provisioned_at result);
     last_health_check := str_if_truthy (col_last_health_check result);
     metadata := dict_if_truthy (col_metadata result) |}.

Definition _query_tenant_infrastructure (organization_id : string)
    (platform_session : Session) : Result TenantInfrastructure * Session :=
  let '(result, platform_session) := execute platform_session organization_id in
  match result with
  | FetchRaises e => (inl e, platform_session)
  | FetchOne None => (inl (TenantNotProvisionedError organization_id), platform_session)
  | FetchOne (Some row) =>
      let infrastructure := infrastructure_of_row row in
      if is_suspended infrastructure then
        (inl (TenantSuspendedError organization_id), platform_session)
      else (inr infrastructure, platform_session)
  end.

Definition _get_from_cache (self : Registry) (organization_id : string) (now : Z)
    : option TenantInfrastructure * Registry :=
  match _cache self !! organization_id with
  | None => (None, self)
  | Some entry =>
      if is_expired entry (_ttl_seconds self) now then
        (None, {| _cache := delete organization_id (_cache self);
                  _ttl_seconds := _ttl_seconds self |})
      else (Some (infrastructure entry), self)
  end.

Definition _add_to_cache (self : Registry) (organization_id : string)
    (infrastructure : TenantInfrastructure) (now : Z) : Registry :=
  {| _cache := <[organization_id :=
                   {| infrastructure := infrastructure; cached_at := now |}]>
                 (_cache self);
     _ttl_seconds := _ttl_seconds self |}.

(** The query and the caching that follow a cache miss or a bypass. *)
Definition query_and_cache (self : Registry) (organization_id : string)
    (platform_session : Session) (now : Z)
    : Result TenantInfrastructure * Registry * Session :=
  match _query_tenant_infrastructure organization_id platform_session with
  | (inl e, platform_session) => (inl e, self, platform_session)
  | (inr infrastructure, platform_session) =>
      (inr infrastructure,
       _add_to_cache self organization_id infrastructure now,
       platform_session)
  end.

(** [now] is the reading of the clock during the call. *)
Definition get_tenant_infrastructure (self : Registry) (organization_id : string)
    (platform_session : Session) (bypass_cache : bool) (now : Z)
    : Result TenantInfrastructure * Registry * Session :=
  if negb bypass_cache then
    match _get_from_cache self organization_id now with
    | (Some cached, self) => (inr cached, self, platform_session)
    | (None, self) => query_and_cache self organization_id platform_session now
    end
  else query_and_cache self organization_id platform_session now.

Definition invalidate_cache (self : Registry) (organization_id : option string)
    : Registry :=
  match organization_id with
  | None => {| _cache := ∅; _ttl_seconds := _ttl_seconds self |}
  | Some o =>
      if bool_decide (is_Some (_cache self !! o)) then
        {| _cache := delete o (_cache self); _ttl_seconds := _ttl_seconds self |}
      else self
  end.

(** *** Histories of the registry singleton *)

(** One call on the registry by some request handler. *)
Inductive Call :=
| CallGet (organization_id : string) (platform_session : Session)
    (bypass_cache : bool) (now : Z)
| CallInvalidate (organization_id : option string)
| CallSetTtl (ttl_seconds : Z).

Definition call (self : Registry) (c : Call) : Registry :=
  match c with
  | CallGet o s b now => (get_tenant_infrastructure self o s b now).1.2
  | CallInvalidate o => invalidate_cache self o
  | CallSetTtl ttl => set_ttl self ttl
  end.

(** The registry after a history of calls, earliest first. *)
Definition run (self : Registry) (cs : list Call) : Registry :=
  foldl call self cs.



End TenantRegistry.

(** ** Connection pool (onyx/document_index/vespa/tenant_vespa_client.py) *)

Module VespaPool.

(** An [httpx.Client] object: the endpoint it is bound to and the rank of
    its construction, which tells two objects for one endpoint apart. *)
Record Client := { base_url : string; serial : nat }.

Record CachedVespaClient := {
  client : Client;
  vespa_url : string;
  created_at : Z;
  last_access : Z;
  last_health_check : option Z;
  is_healthy : bool
}.

(** Client pool settings *)
Definition MAX_CLIENTS : nat := 50.
Definition HEALTH_CHECK_INTERVAL : Z := 60.

(** [self._clients]: a Python [dict], which iterates in insertion order. *)
Abbreviation ClientDict := (list (string * CachedVespaClient)).

(** [d.get(k)] *)
Fixpoint dict_lookup (d : ClientDict) (k : string) : option CachedVespaClient :=
  match d with
  | [] => None
  | (k', v) :: d' => if bool_decide (k' = k) then Some v else dict_lookup d' k
  end.

(** [d[k] = v]: an existing key keeps its place, a new key goes last. *)
Fixpoint dict_store (d : ClientDict) (k : string) (v : CachedVespaClient) : ClientDict :=
  match d with
  | [] => [(k, v)]
  | (k', v') :: d' =>
      if bool_decide (k' = k) then (k, v) :: d' else (k', v') :: dict_store d' k v
  end.

(** [d.pop(k, None)], the dictionary that remains. *)
Fixpoint dict_remove (d : ClientDict) (k : string) : ClientDict :=
  match d with
  | [] => []
  | (k', v') :: d' =>
      if bool_decide (k' = k) then d' else (k', v') :: dict_remove d' k
  end.

(** [min(d, key=lambda url: d[url].last_access)] started from [best]:
    a later item replaces the best one only when strictly smaller, so the
    first of several smallest items is the one returned. *)
Fixpoint min_from (best : string * CachedVespaClient) (d : ClientDict)
    : string * CachedVespaClient :=
  match d with
  | [] => best
  | x :: d' =>
      if bool_decide (last_access x.2 < last_access best.2)
      then min_from x d' else min_from best d'
  end.

Definition oldest (d : ClientDict) : option (string * CachedVespaClient) :=
  match d with
  | [] => None
  | x :: d' => Some (min_from x d')
  end.

(** The pool: its clients, the clients [close()] has been called on
    (latest first), and the number of clients constructed so far. *)
Record Pool := {
  _clients : ClientDict;
  closed : list Client;
  constructed : nat
}.

(** [TenantVespaClientPool.__init__] *)
Definition init : Pool := {| _clients := []; closed := []; constructed := 0 |}.

(** What the probe [GET /state/v1/health] yields: a failure (transport
    error, error status, undecodable body) or the [status.code] field. *)
Inductive Probe :=
| ProbeRaises
| ProbeCode (code : option string).

Definition _should_health_check (cached : CachedVespaClient) (now : Z) : bool :=
  match last_health_check cached with
  | None => true
  | Some t => bool_decide (now - t > HEALTH_CHECK_INTERVAL)
  end.

Definition _perform_health_check (cached : CachedVespaClient) (probe : Probe) (now : Z)
    : CachedVespaClient :=
  {| client := client cached;
     vespa_url := vespa_url cached;
     created_at := created_at cached;
     last_access := last_access cached;
     last_health_check := Some now;
     is_healthy :=
       match probe with
       | ProbeCode code => bool_decide (code = Some "up")
       | ProbeRaises => false
       end |}.

(** Remove and close a client; an error of [close()] is logged only. *)
Definition _remove_client (self : Pool) (url : string) : Pool :=
  match dict_lookup (_clients self) url with
  | Some cached =>
      {| _clients := dict_remove (_clients self) url;
         closed := client cached :: closed self;
         constructed := constructed self |}
  | None => self
  end.

Definition _evict_oldest_client (self : Pool) : Pool :=
  match oldest (_clients self) with
  | None => self
  | Some (oldest_url, _) => _remove_client self oldest_url
  end.

Definition invalidate_client (self : Pool) (url : string) : Pool :=
  _remove_client self url.

(** [for url in list(self._clients.keys()): self._remove_client(url)] *)
Definition close_all (self : Pool) : Pool :=
  foldl _remove_client self (map fst (_clients self)).

Section WithConfigs.

(** onyx.document_index.vespa_constants *)
Variable VESPA_APP_CONTAINER_URL : string.

(** [get_tenant_vespa_url]: the URL of the context in full isolation mode,
    the default URL otherwise. *)
Definition get_tenant_vespa_url (ctx : ContextVars.Context) : string :=
  if ContextVars.is_full_database_isolation ctx then
    match ContextVars.get_current_vespa_url ctx with
    | Some context_url =>
        if truthy (Some context_url) then context_url else VESPA_APP_CONTAINER_URL
    | None => VESPA_APP_CONTAINER_URL
    end
  else VESPA_APP_CONTAINER_URL.

(** [_resolve_vespa_url]: its last two steps are those of
    [get_tenant_vespa_url]. *)
Definition _resolve_vespa_url (vespa_url : option string) (ctx : ContextVars.Context)
    : string :=
  match vespa_url with
  | Some u => if truthy (Some u) then u else get_tenant_vespa_url ctx
  | None => get_tenant_vespa_url ctx
  end.

(** The hit branch of [get_client]: the client to return, if the cached
    one is healthy, and the pool after the branch. *)
Definition on_hit (self : Pool) (target_url : string) (cached : CachedVespaClient)
    (probe : Probe) (now : Z) : option Client * Pool :=
  let cached :=
    {| client := client cached;
       vespa_url := vespa_url cached;
       created_at := created_at cached;
       last_access := now;
       last_health_check := last_health_check cached;
       is_healthy := is_healthy cached |} in
  let cached :=
    if _should_health_check cached now
    then _perform_health_check cached probe now else cached in
  let self :=
    {| _clients := dict_store (_clients self) target_url cached;
       closed := closed self;
       constructed := constructed self |} in
  if is_healthy cached then (Some (client cached), self)
  else (None, _remove_client self target_url).

(** The rest of [get_client] when no healthy cached client was found:
    evict if the pool is full, then create and store the new client.
    [create_error] is the exception of the [httpx.Client] constructor, if
    it raises. *)
Definition on_miss (self : Pool) (target_url : string) (now : Z)
    (create_error : option Exception) : Result Client * Pool :=
  let self :=
    if bool_decide (MAX_CLIENTS ≤ length (_clients self))%nat
    then _evict_oldest_client self else self in
  match create_error with
  | Some e => (inl e, self)
  | None =>
      let c := {| base_url := target_url; serial := constructed self |} in
      (inr c,
       {| _clients :=
            dict_store (_clients self) target_url
              {| client := c;
                 vespa_url := target_url;
                 created_at := now;
                 last_access := now;
                 last_health_check := None;
                 is_healthy := true |};
          closed := closed self;
          constructed := S (constructed self) |})
  end.

(** [get_client]: [now] is the reading of the clock during the call and
    [probe] what a health probe of the target yields. *)
Definition get_client (self : Pool) (vespa_url : option string)
    (ctx : ContextVars.Context) (now : Z) (probe : Probe)
    (create_error : option Exception) : Result Client * Pool :=
  let target_url := _resolve_vespa_url vespa_url ctx in
  match dict_lookup (_clients self) target_url with
  | Some cached =>
      match on_hit self target_url cached probe now with
      | (Some c, self) => (inr c, self)
      | (None, self) => on_miss self target_url now create_error
      end
  | None => on_miss self target_url now create_error
  end.

(** *** Histories of the pool singleton *)

(** One call on the pool. *)
Inductive Call :=
| CallGetClient (vespa_url : option string) (ctx : ContextVars.Context)
    (now : Z) (probe : Probe) (create_error : option Exception)
| CallInvalidateClient (vespa_url : string)
| CallCloseAll.

Definition call (self : Pool) (c : Call) : Pool :=
  match c with
  | CallGetClient u ctx now probe err => (get_client self u ctx now probe err).2
  | CallInvalidateClient u => invalidate_client self u
  | CallCloseAll => close_all self
  end.

(** The pool after a history of calls, earliest first. *)
Definition run (self : Pool) (cs : list Call) : Pool :=
  foldl call self cs.

(** [get_tenant_document_endpoint]:
    [f"{base_url}/document/v1/default/{index_name}/docid"] *)
Definition get_tenant_document_endpoint (index_name : string)
    (ctx : ContextVars.Context) : string :=
  let base_url := get_tenant_vespa_url ctx in
  base_url +:+ "/document/v1/default/" +:+ index_name +:+ "/docid".

(** [get_tenant_search_endpoint]: [f"{base_url}/search/"] *)
Definition get_tenant_search_endpoint (ctx : ContextVars.Context) : string :=
  let base_url := get_tenant_vespa_url ctx in
  base_url +:+ "/search/".

(** [get_tenant_vespa_client]: [get_client] on the pool singleton. *)
Definition get_tenant_vespa_client (self : Pool) (vespa_url : option string)
    (ctx : ContextVars.Context) (now : Z) (probe : Probe)
    (create_error : option Exception) : Result Client * Pool :=
  get_client self vespa_url ctx now probe create_error.

End WithConfigs.

End VespaPool.

(** ** Tenant resolver (ee/onyx/server/middleware/tenant_tracking.py) *)

Module TenantTracking.

(** What [retrieve_auth_token_data_from_redis(request)] does: it raises,
    or returns the token's dictionary or [None]. *)
Inductive TokenLookup :=
| TokenRaises (e : Exception)
| TokenData (d : option (gmap string (option string))).

(** The request, as far as the resolver reads it.  [auth_header_tenant]
    is the value of [extract_tenant_from_auth_header(request)]. *)
Record Request := {
  headers : gmap string string;
  cookies : gmap string string;
  auth_header_tenant : option string;
  redis_token_data : TokenLookup
}.

(** What the resolver reaches outside the request: the registry
    singleton, the platform session and the clock. *)
Record World := {
  registry : TenantRegistry.Registry;
  platform_session : TenantRegistry.Session;
  now : Z
}.

(** The local variables of [_get_tenant_info_from_request]. *)
Record Locals := {
  tenant_id : option string;
  org_id : option string;
  db_url : option string;
  vespa_url : option string
}.

(** The returned tuple [(tenant_id, org_id, db_url, vespa_url)]. *)
Abbreviation TenantInfo := (string * option string * option string * option string)%type.

(** A [try] statement whose [finally] block may return: when it does
    ([Some]), its value replaces the pending return value or exception of
    the [try] and [except] parts. *)
Definition try_finally {A : Type} (pending : Result A) (finally_returns : option A)
    : Result A :=
  match finally_returns with
  | Some r => inr r
  | None => pending
  end.

(** [if d:] on [dict | None]: [None] and the empty dictionary are falsy. *)
Definition dict_truthy (d : option (gmap string (option string))) : bool :=
  match d with
  | Some m => negb (bool_decide (m = ∅))
  | None => false
  end.

Section WithConfigs.

(** shared_configs.configs and the environment *)
Variable MULTI_TENANT : bool.
Variable POSTGRES_DEFAULT_SCHEMA : string.
Variable TENANT_ISOLATION_MODE : string.
(** onyx.configs.constants *)
Variable ANONYMOUS_USER_COOKIE_NAME : string.
Variable TENANT_ID_COOKIE_NAME : string.
(** onyx.db.engine.sql_engine *)
Variable is_valid_schema_name : string -> bool.
(** ee.onyx.auth.users *)
Variable decode_anonymous_user_jwt_token : string -> Result (gmap string (option string)).

Definition _lookup_tenant_infrastructure (org_id : string) (w : World)
    : Result (option string * option string) * World :=
  let '(r, reg, sess) :=
    TenantRegistry.get_tenant_infrastructure
      (registry w) org_id (platform_session w) false (now w) in
  let w := {| registry := reg; platform_session := sess; now := now w |} in
  match r with
  | inr infrastructure =>
      (inr (Some (TenantRegistry.database_url infrastructure),
            Some (TenantRegistry.vespa_url infrastructure)), w)
  | inl (TenantNotProvisionedError _) => (inr (None, None), w)
  | inl (TenantSuspendedError _) =>
      (inl (HTTPException 403 "Organization access suspended. Please contact support."), w)
  | inl e =>
      (* except HTTPException: raise / except Exception: return None, None *)
      if is_HTTPException e then (inl e, w) else (inr (None, None), w)
  end.

(** The header and credential steps once an identity is found:
    the lookup in database mode, and the return. *)
Definition return_identity (id : string) (w : World) : Result TenantInfo * World :=
  if bool_decide (TENANT_ISOLATION_MODE = "database") then
    match _lookup_tenant_infrastructure id w with
    | (inl e, w) => (inl e, w)
    | (inr (db_url, vespa_url), w) => (inr (id, Some id, db_url, vespa_url), w)
    end
  else (inr (id, Some id, None, None), w).

(** The last statement of the [try] block. *)
Definition return_default (l : Locals) (w : World) : Result TenantInfo * Locals * World :=
  (inr (POSTGRES_DEFAULT_SCHEMA, None, None, None), l, w).

(** The session-token branch of the [try] block ([if token_data:]). *)
Definition token_branch (token_data : gmap string (option string)) (w : World)
    : Result TenantInfo * Locals * World :=
  let tenant_id_from_payload :=
    dict_get token_data "tenant_id" (Some POSTGRES_DEFAULT_SCHEMA) in
  let tenant_id :=
    match tenant_id_from_payload with
    | Some s => s
    | None => POSTGRES_DEFAULT_SCHEMA
    end in
  if truthy (Some tenant_id) && negb (is_valid_schema_name tenant_id) then
    (inl (HTTPException 400 "Invalid tenant ID format"),
     {| tenant_id := Some tenant_id; org_id := None; db_url := None; vespa_url := None |},
     w)
  else
    let org_id := or_ (dict_get token_data "organization_id" None) (Some tenant_id) in
    match org_id with
    | Some o =>
        if bool_decide (TENANT_ISOLATION_MODE = "database") && truthy org_id then
          match _lookup_tenant_infrastructure o w with
          | (inl e, w) =>
              (inl e,
               {| tenant_id := Some tenant_id; org_id := org_id;
                  db_url := None; vespa_url := None |}, w)
          | (inr (db_url, vespa_url), w) =>
              (inr (tenant_id, org_id, db_url, vespa_url),
               {| tenant_id := Some tenant_id; org_id := org_id;
                  db_url := db_url; vespa_url := vespa_url |}, w)
          end
        else
          (inr (tenant_id, org_id, None, None),
           {| tenant_id := Some tenant_id; org_id := org_id;
              db_url := None; vespa_url := None |}, w)
    | None =>
        (inr (tenant_id, org_id, None, None),
         {| tenant_id := Some tenant_id; org_id := org_id;
            db_url := None; vespa_url := None |}, w)
    end.

(** The anonymous-cookie branch: an inner [try] whose [except Exception]
    logs and falls through to the last statement of the outer [try]. *)
Definition anonymous_branch (anonymous_user_cookie : string) (w : World)
    : Result TenantInfo * Locals * World :=
  let l0 := {| tenant_id := Some POSTGRES_DEFAULT_SCHEMA; org_id := None;
               db_url := None; vespa_url := None |} in
  match decode_anonymous_user_jwt_token anonymous_user_cookie with
  | inl _ => return_default l0 w
  | inr anonymous_user_data =>
      let tenant_id :=
        dict_get anonymous_user_data "tenant_id" (Some POSTGRES_DEFAULT_SCHEMA) in
      let org_id := or_ (dict_get anonymous_user_data "organization_id" None) tenant_id in
      let l := {| tenant_id := tenant_id; org_id := org_id;
                  db_url := None; vespa_url := None |} in
      match tenant_id with
      | Some t =>
          if negb (truthy tenant_id) || negb (is_valid_schema_name t) then
            (* raise HTTPException(400), caught by the inner except *)
            return_default l w
          else
            match org_id with
            | Some o =>
                if bool_decide (TENANT_ISOLATION_MODE = "database") && truthy org_id then
                  match _lookup_tenant_infrastructure o w with
                  | (inl _, w) =>
                      (* caught by the inner except *)
                      return_default l w
                  | (inr (db_url, vespa_url), w) =>
                      (inr (t, org_id, db_url, vespa_url),
                       {| tenant_id := tenant_id; org_id := org_id;
                          db_url := db_url; vespa_url := vespa_url |}, w)
                  end
                else (inr (t, org_id, None, None), l, w)
            | None => (inr (t, org_id, None, None), l, w)
            end
      | None =>
          (* not tenant_id: raise HTTPException(400), caught by the inner except *)
          return_default l w
      end
  end.

(** The anonymous-cookie step and the last statement of the [try] block. *)
Definition cookie_step (request : Request) (w : World)
    : Result TenantInfo * Locals * World :=
  let l0 := {| tenant_id := Some POSTGRES_DEFAULT_SCHEMA; org_id := None;
               db_url := None; vespa_url := None |} in
  match cookies request !! ANONYMOUS_USER_COOKIE_NAME with
  | Some anonymous_user_cookie =>
      if truthy (Some anonymous_user_cookie)
      then anonymous_branch anonymous_user_cookie w
      else return_default l0 w
  | None => return_default l0 w
  end.

(** The [try] block: its pending return value or exception, the local
    variables when it is left, and the world. *)
Definition try_block (request : Request) (w : World)
    : Result TenantInfo * Locals * World :=
  let l0 := {| tenant_id := Some POSTGRES_DEFAULT_SCHEMA; org_id := None;
               db_url := None; vespa_url := None |} in
  match redis_token_data request with
  | TokenRaises e => (inl e, l0, w)
  | TokenData (Some d) =>
      if dict_truthy (Some d) then token_branch d w else cookie_step request w
  | TokenData None => cookie_step request w
  end.

(** [except HTTPException: raise] and
    [except Exception: raise HTTPException(500)] *)
Definition except_clauses (pending : Result TenantInfo) : Result TenantInfo :=
  match pending with
  | inl e =>
      if is_HTTPException e then inl e
      else inl (HTTPException 500 "Internal server error")
  | inr r => inr r
  end.

(** The [finally] block: both of its ends are [return] statements. *)
Definition finally_block (request : Request) (l : Locals) : option TenantInfo :=
  if truthy (tenant_id l) && negb (bool_decide (tenant_id l = Some POSTGRES_DEFAULT_SCHEMA))
  then
    match cookies request !! TENANT_ID_COOKIE_NAME with
    | Some tenant_id_cookie =>
        if truthy (Some tenant_id_cookie) && is_valid_schema_name tenant_id_cookie then
          Some (tenant_id_cookie, Some tenant_id_cookie, db_url l, vespa_url l)
        else Some (POSTGRES_DEFAULT_SCHEMA, None, None, None)
    | None => Some (POSTGRES_DEFAULT_SCHEMA, None, None, None)
    end
  else Some (POSTGRES_DEFAULT_SCHEMA, None, None, None).

(** The [try]/[except]/[finally] statement. *)
Definition try_statement (request : Request) (w : World) : Result TenantInfo * World :=
  let '(pending, l, w) := try_block request w in
  (try_finally (except_clauses pending) (finally_block request l), w).

(** The credential step and what follows it. *)
Definition after_header (request : Request) (w : World) : Result TenantInfo * World :=
  match auth_header_tenant request with
  | Some auth_tenant_id => return_identity auth_tenant_id w
  | None => try_statement request w
  end.

Definition _get_tenant_info_from_request (request : Request) (w : World)
    : Result TenantInfo * World :=
  match headers request !! "X-Tenant-Id" with
  | Some tenant_from_header =>
      if truthy (Some tenant_from_header) && is_valid_schema_name tenant_from_header
      then return_identity tenant_from_header w
      else after_header request w
  | None => after_header request w
  end.

(** The middleware [set_tenant_id]: the exception raised to the caller,
    or the context in which [call_next(request)] runs. *)
Definition set_tenant_id (request : Request) (w : World) (ctx : ContextVars.Context)
    : Result ContextVars.Context * World :=
  if MULTI_TENANT then
    match _get_tenant_info_from_request request w with
    | (inl e, w) => (inl e, w)
    | (inr (tenant_id, org_id, db_url, vespa_url), w) =>
        (inr (ContextVars.set_tenant_context MULTI_TENANT POSTGRES_DEFAULT_SCHEMA
                (Some tenant_id) org_id db_url vespa_url TENANT_ISOLATION_MODE ctx).2,
         w)
    end
  else
    (inr (ContextVars.ContextVar_set
            (ContextVars.CURRENT_TENANT_ID_CONTEXTVAR MULTI_TENANT POSTGRES_DEFAULT_SCHEMA)
            (Some POSTGRES_DEFAULT_SCHEMA) ctx).2,
     w).

(** [_get_tenant_id_from_request]: the legacy entry point, which keeps
    the tenant id of the tuple. *)
Definition _get_tenant_id_from_request (request : Request) (w : World)
    : Result string * World :=
  match _get_tenant_info_from_request request w with
  | (inl e, w) => (inl e, w)
  | (inr (tenant_id, _, _, _), w) => (inr tenant_id, w)
  end.

End WithConfigs.

(** The request [r] without its [X-Tenant-Id] header. *)
Definition without_header (r : Request) : Request :=
  {| headers := delete "X-Tenant-Id" (headers r);
     cookies := cookies r;
     auth_header_tenant := auth_header_tenant r;
     redis_token_data := redis_token_data r |}.

End TenantTracking.

(** ** Notification rate limit (onyx/connectors/poseidon/hooks.py) *)

Module PoseidonHooks.

Section WithConfigs.

(** [POSEIDON_MAX_EVENTS_PER_MINUTE], read from the environment. *)
Variable POSEIDON_MAX_EVENTS_PER_MINUTE : Z.

(** [_check_rate_limit]: [_events_this_minute] is the module-level list of
    the timestamps of the events let through, [now] the reading of the
    clock, in seconds.  Returns whether the event is allowed, and the list
    after the call. *)
Definition _check_rate_limit (_events_this_minute : list Z) (now : Z)
    : bool * list Z :=
  let minute_ago := now - 60 in
  let _events_this_minute :=
    filter (λ t, t > minute_ago) _events_this_minute in
  if bool_decide (Z.of_nat (length _events_this_minute) >= POSEIDON_MAX_EVENTS_PER_MINUTE)
  then (false, _events_this_minute)
  else (true, _events_this_minute ++ [now]).

(** One check at time [now]: the times of the checks allowed so far, and
    the module-level list. *)
Definition check (st : list Z * list Z) (now : Z) : list Z * list Z :=
  let '(allowed, events) := _check_rate_limit st.2 now in
  (if allowed then st.1 ++ [now] else st.1, events).

(** A sequence of checks at the given times, earliest first, from the
    empty module-level list. *)
Definition run (times : list Z) : list Z * list Z :=
  foldl check ([], []) times.

End WithConfigs.

End PoseidonHooks.

(** ** A concrete deployment and the end-to-end scenarios *)

Module Scenario.

Definition is_ident_char (c : Ascii.ascii) : bool :=
  let n := Ascii.nat_of_ascii c in
  ((48 <=? n) && (n <=? 57) || (65 <=? n) && (n <=? 90)
   || (97 <=? n) && (n <=? 122) || (n =? 95) || (n =? 45))%nat.

(** Modelled from the spec: [is_valid_schema_name] of
    onyx.db.engine.sql_engine is not among the sources.  An identifier is
    valid when it is non-empty, of bounded length, and made of
    alphanumeric characters, [_] and [-]; the bound is an argument. *)
Definition is_valid_schema_name (max_length : nat) (s : string) : bool :=
  negb (bool_decide (s = "")) && (String.length s <=? max_length)%nat
  && forallb is_ident_char (String.list_ascii_of_string s).

Definition POSTGRES_DEFAULT_SCHEMA : string := "public".
Definition ANONYMOUS_USER_COOKIE_NAME : string := "onyx_anonymous_user".
Definition TENANT_ID_COOKIE_NAME : string := "onyx_tid".

(** The one anonymous-session cookie that decodes, to the claims of
    tenant [org_7] and organization [acct_7]; any other value is rejected. *)
Definition decode_anonymous_user_jwt_token (cookie : string)
    : Result (gmap string (option string)) :=
  if bool_decide (cookie = "signed-anonymous-org_7") then
    inr (<["tenant_id" := Some "org_7"]> (<["organization_id" := Some "acct_7"]> ∅))
  else inl (OtherError "invalid token").

(** The resolver and the middleware of a multi-tenant deployment in the
    given isolation mode. *)
Definition resolve (isolation_mode : string) :=
  TenantTracking._get_tenant_info_from_request
    POSTGRES_DEFAULT_SCHEMA isolation_mode
    ANONYMOUS_USER_COOKIE_NAME TENANT_ID_COOKIE_NAME
    (is_valid_schema_name 63) decode_anonymous_user_jwt_token.

Definition middleware (isolation_mode : string) :=
  TenantTracking.set_tenant_id
    true POSTGRES_DEFAULT_SCHEMA isolation_mode
    ANONYMOUS_USER_COOKIE_NAME TENANT_ID_COOKIE_NAME
    (is_valid_schema_name 63) decode_anonymous_user_jwt_token.

Definition try_block (isolation_mode : string) :=
  TenantTracking.try_block
    POSTGRES_DEFAULT_SCHEMA isolation_mode ANONYMOUS_USER_COOKIE_NAME
    (is_valid_schema_name 63) decode_anonymous_user_jwt_token.

(** The infrastructure row of an organization. *)
Definition row (organization_id vespa_host status : string) : TenantRegistry.Row :=
  {| TenantRegistry.col_organization_id := organization_id;
     TenantRegistry.col_database_host := "db-7.internal";
     TenantRegistry.col_database_port := 5432;
     TenantRegistry.col_database_name := "oceanic_" +:+ organization_id;
     TenantRegistry.col_vespa_host := vespa_host;
     TenantRegistry.col_vespa_port := 8081;
     TenantRegistry.col_status := status;
     TenantRegistry.col_provisioned_at := None;
     TenantRegistry.col_last_health_check := None;
     TenantRegistry.col_metadata := None |}.

(** A lookup store that holds a row for [acct_7], with the given status,
    and an active row for [org_9]. *)
Definition store (status : string) (organization_id : string) : TenantRegistry.Fetched :=
  if bool_decide (organization_id = "acct_7") then
    TenantRegistry.FetchOne (Some (row "acct_7" "vespa-7.internal" status))
  else if bool_decide (organization_id = "org_9") then
    TenantRegistry.FetchOne (Some (row "org_9" "vespa-9.internal" "active"))
  else TenantRegistry.FetchOne None.

(** A platform session on that store, not yet used. *)
Definition session (status : string) : TenantRegistry.Session :=
  {| TenantRegistry.store := store status; TenantRegistry.executed := [] |}.

(** A freshly started process at time 0. *)
Definition world (status : string) : TenantTracking.World :=
  {| TenantTracking.registry := TenantRegistry.init;
     TenantTracking.platform_session := session status;
     TenantTracking.now := 0 |}.

(** Two lookups of [acct_7], one second apart, while it is suspended. *)
Definition suspended_history : list TenantRegistry.Call :=
  [TenantRegistry.CallGet "acct_7" (session "suspended") false 0;
   TenantRegistry.CallGet "acct_7" (session "suspended") false 1].

(** A registry that cached [acct_7] at time 0, while it was active. *)
Definition registry_cached_active : TenantRegistry.Registry :=
  TenantRegistry.run TenantRegistry.init
    [TenantRegistry.CallGet "acct_7" (session "active") false 0].

(** The session token of scenario B. *)
Definition token_org_7 : gmap string (option string) :=
  <["tenant_id" := Some "org_7"]> (<["organization_id" := Some "acct_7"]> ∅).

(** Scenario B: no header, no credential, a session token. *)
Definition request_B : TenantTracking.Request :=
  {| TenantTracking.headers := ∅;
     TenantTracking.cookies := ∅;
     TenantTracking.auth_header_tenant := None;
     TenantTracking.redis_token_data := TenantTracking.TokenData (Some token_org_7) |}.

(** No header, no credential, no session token, an anonymous-session cookie. *)
Definition request_anonymous : TenantTracking.Request :=
  {| TenantTracking.headers := ∅;
     TenantTracking.cookies := {[ ANONYMOUS_USER_COOKIE_NAME := "signed-anonymous-org_7" ]};
     TenantTracking.auth_header_tenant := None;
     TenantTracking.redis_token_data := TenantTracking.TokenData None |}.

(** The trusted header names [acct_7]. *)
Definition request_header : TenantTracking.Request :=
  {| TenantTracking.headers := {[ "X-Tenant-Id" := "acct_7" ]};
     TenantTracking.cookies := ∅;
     TenantTracking.auth_header_tenant := None;
     TenantTracking.redis_token_data := TenantTracking.TokenData None |}.

(** The credential carries the tenant claim [acct_7]. *)
Definition request_credential : TenantTracking.Request :=
  {| TenantTracking.headers := ∅;
     TenantTracking.cookies := ∅;
     TenantTracking.auth_header_tenant := Some "acct_7";
     TenantTracking.redis_token_data := TenantTracking.TokenData None |}.

(** The trusted header names [acct_8], which has no infrastructure row. *)
Definition request_unprovisioned : TenantTracking.Request :=
  {| TenantTracking.headers := {[ "X-Tenant-Id" := "acct_8" ]};
     TenantTracking.cookies := ∅;
     TenantTracking.auth_header_tenant := None;
     TenantTracking.redis_token_data := TenantTracking.TokenData None |}.

(** [with_override r]: the request [r] with the tenant-override cookie
    set to [org_9]. *)
Definition with_override (r : TenantTracking.Request) : TenantTracking.Request :=
  {| TenantTracking.headers := TenantTracking.headers r;
     TenantTracking.cookies := <[TENANT_ID_COOKIE_NAME := "org_9"]> (TenantTracking.cookies r);
     TenantTracking.auth_header_tenant := TenantTracking.auth_header_tenant r;
     TenantTracking.redis_token_data := TenantTracking.redis_token_data r |}.

(** The pool after clients were created for the endpoints
    [http://vespa-00.internal:8081] to [http://vespa-49.internal:8081], at
    times 0 to 49. *)
Definition digit (n : nat) : string :=
  String (Ascii.ascii_of_nat (48 + n)) "".

Definition endpoint (i : nat) : string :=
  "http://vespa-" +:+ digit (i / 10) +:+ digit (i mod 10) +:+ ".internal:8081".

Definition VESPA_APP_CONTAINER_URL : string := "http://localhost:8081".

Definition full_pool : VespaPool.Pool :=
  VespaPool.run VESPA_APP_CONTAINER_URL VespaPool.init
    (map (λ i, VespaPool.CallGetClient (Some (endpoint i)) ∅ (Z.of_nat i)
                 VespaPool.ProbeRaises None)
         (seq 0 50)).

(** The entry of endpoint [i] in [full_pool]. *)
Definition entry (i : nat) : VespaPool.CachedVespaClient :=
  {| VespaPool.client := {| VespaPool.base_url := endpoint i; VespaPool.serial := i |};
     VespaPool.vespa_url := endpoint i;
     VespaPool.created_at := Z.of_nat i;
     VespaPool.last_access := Z.of_nat i;
     VespaPool.last_health_check := None;
     VespaPool.is_healthy := true |}.

End Scenario.

(** A context in which tenant [tenant_x] has been set, and a context in
    full database isolation. *)
Module ContextExamples.

Definition context_tenant_x : ContextVars.Context :=
  (ContextVars.set_tenant_context false "public"
     (Some "tenant_x") None None None "schema" ∅).2.

Definition context_database : ContextVars.Context :=
  (ContextVars.set_tenant_context true "public"
     (Some "org_7") (Some "acct_7")
     (Some "postgresql://db-7.internal:5432/oceanic_acct_7")
     (Some "http://vespa-7.internal:8081") "database" ∅).2.

End ContextExamples.

(** A pool that holds one client, created at time 0 for the endpoint
    [url_7] and never probed, and its entry. *)
Module PoolExamples.

Definition url_7 : string := "http://vespa-7.internal:8081".
Definition url_9 : string := "http://vespa-9.internal:8081".

Definition one_client_history : list VespaPool.Call :=
  [VespaPool.CallGetClient (Some url_7) ∅ 0 VespaPool.ProbeRaises None].

Definition one_client : VespaPool.Pool :=
  VespaPool.run Scenario.VESPA_APP_CONTAINER_URL VespaPool.init one_client_history.

Definition entry_7 : VespaPool.CachedVespaClient :=
  {| VespaPool.client := {| VespaPool.base_url := url_7; VespaPool.serial := 0 |};
     VespaPool.vespa_url := url_7;
     VespaPool.created_at := 0;
     VespaPool.last_access := 0;
     VespaPool.last_health_check := None;
     VespaPool.is_healthy := true |}.

End PoolExamples.

(** * Properties of the context store *)

Section ContextStore.

Variable MULTI_TENANT : bool.
Variable POSTGRES_DEFAULT_SCHEMA : string.

#[local] Abbreviation set_tenant_context :=
  (ContextVars.set_tenant_context MULTI_TENANT POSTGRES_DEFAULT_SCHEMA).
#[local] Abbreviation reset_tenant_context :=
  (ContextVars.reset_tenant_context MULTI_TENANT POSTGRES_DEFAULT_SCHEMA).
#[local] Abbreviation TENANT :=
  (ContextVars.CURRENT_TENANT_ID_CONTEXTVAR MULTI_TENANT POSTGRES_DEFAULT_SCHEMA).

Lemma lookup_restore_value (k i : string) old (ctx : ContextVars.Context) :
  ContextVars.restore_value k old ctx !! i = if decide (k = i) then old else ctx !! i.
Proof.
  unfold ContextVars.restore_value. destruct old.
  - by rewrite lookup_insert.
  - by rewrite lookup_delete.
Qed.

(** One [reset] step on a token that is present and fresh. *)
Lemma reset_if_in_Some key v (tokens : gmap string ContextVars.Token)
    (ctx : ContextVars.Context) old :
  tokens !! key
  = Some {| ContextVars.tok_var := ContextVars.name v;
            ContextVars.tok_old_value := old;
            ContextVars.tok_used := false |} →
  ContextVars.reset_if_in key v (None, (tokens, ctx)) =
  (None,
   (<[key := {| ContextVars.tok_var := ContextVars.name v;
                ContextVars.tok_old_value := old;
                ContextVars.tok_used := true |}]> tokens,
    ContextVars.restore_value (ContextVars.name v) old ctx)).
Proof.
  intros H. unfold ContextVars.reset_if_in, ContextVars.ContextVar_reset.
  cbn. rewrite H. cbn. by rewrite bool_decide_true.
Qed.

(** One [reset] step on a key that is absent. *)
Lemma reset_if_in_None key v (tokens : gmap string ContextVars.Token)
    (ctx : ContextVars.Context) :
  tokens !! key = None →
  ContextVars.reset_if_in key v (None, (tokens, ctx)) = (None, (tokens, ctx)).
Proof. intros H. unfold ContextVars.reset_if_in. cbn. by rewrite H. Qed.

Ltac reset_step :=
  first [ erewrite reset_if_in_Some by (by simplify_map_eq)
        | rewrite reset_if_in_None by (by simplify_map_eq) ].

Ltac by_slot :=
  rewrite ?lookup_restore_value, ?lookup_insert;
  repeat case_decide; simplify_eq; done.

(** [reset] right after [set] raises nothing and gives back the context. *)
Lemma reset_after_set (ctx : ContextVars.Context) (t o d v : option string) (m : string) :
  ∃ tokens',
    reset_tenant_context (set_tenant_context t o d v m ctx).1
                         (set_tenant_context t o d v m ctx).2
    = (None, (tokens', ctx)).
Proof.
  destruct t, o, d, v;
    unfold ContextVars.set_tenant_context, ContextVars.set_if_not_None,
      ContextVars.ContextVar_set, ContextVars.reset_tenant_context; cbn [fst snd].
  all: do 5 reset_step.
  all: eexists; do 2 f_equal; apply map_eq; intros i; by_slot.
Qed.

(** What a conditional [set] leaves in each variable of the context. *)
Lemma lookup_set_if_not_None key v x (st : gmap string ContextVars.Token * ContextVars.Context)
    (i : string) :
  (ContextVars.set_if_not_None key v x st).2 !! i =
  if decide (ContextVars.name v = i) then
    match x with Some _ => Some x | None => st.2 !! i end
  else st.2 !! i.
Proof.
  unfold ContextVars.set_if_not_None, ContextVars.ContextVar_set.
  destruct x; cbn.
  - by rewrite lookup_insert.
  - by case_decide.
Qed.

(** What [set_tenant_context] leaves in each variable of the context. *)
Lemma lookup_set_tenant_context (ctx : ContextVars.Context) (t o d v : option string)
    (m : string) (i : string) :
  (set_tenant_context t o d v m ctx).2 !! i =
  if decide ("tenant_isolation_mode" = i) then Some (Some m)
  else if decide ("current_vespa_url" = i) then
    match v with Some _ => Some v | None => ctx !! i end
  else if decide ("current_db_url" = i) then
    match d with Some _ => Some d | None => ctx !! i end
  else if decide ("current_org_id" = i) then
    match o with Some _ => Some o | None => ctx !! i end
  else if decide ("current_tenant_id" = i) then
    match t with Some _ => Some t | None => ctx !! i end
  else ctx !! i.
Proof.
  unfold ContextVars.set_tenant_context, ContextVars.ContextVar_set. cbn [snd].
  rewrite lookup_insert, !lookup_set_if_not_None. cbn.
  repeat (case_decide; simplify_eq); try done; by destruct v, d, o, t.
Qed.

(** The isolation mode read after [set_tenant_context] is its argument. *)
Lemma get_tenant_isolation_mode_set (ctx : ContextVars.Context) (t o d v : option string)
    (m : string) :
  ContextVars.get_tenant_isolation_mode (set_tenant_context t o d v m ctx).2 = Some m.
Proof.
  unfold ContextVars.get_tenant_isolation_mode, ContextVars.ContextVar_get.
  change (ContextVars.name ContextVars.TENANT_ISOLATION_MODE_CONTEXTVAR)
    with "tenant_isolation_mode".
  by rewrite lookup_set_tenant_context.
Qed.

(** C9: for every prior context and every [set_tenant_context] call,
    [reset_tenant_context] on the returned tokens raises nothing and gives
    back the context as it was immediately before that call, so each of the
    five variables (tenant id, organization id, database URL, search URL,
    isolation mode) holds, or is unset, as before.  This holds under nesting:
    after set A then set B, reset B gives the context after set A, and reset A
    then gives the original context. *)
Theorem reset_tenant_context_restores
    (ctx : ContextVars.Context) (t o d v : option string) (m : string)
    (t' o' d' v' : option string) (m' : string) :
  let A := set_tenant_context t o d v m ctx in
  let B := set_tenant_context t' o' d' v' m' A.2 in
  (reset_tenant_context A.1 A.2).1 = None
  ∧ (reset_tenant_context A.1 A.2).2.2 = ctx
  ∧ (reset_tenant_context B.1 B.2).1 = None
  ∧ (reset_tenant_context B.1 B.2).2.2 = A.2
  ∧ (reset_tenant_context A.1 (reset_tenant_context B.1 B.2).2.2).1 = None
  ∧ (reset_tenant_context A.1 (reset_tenant_context B.1 B.2).2.2).2.2 = ctx.
Proof.
  intros A B.
  destruct (reset_after_set ctx t o d v m) as [tokA HA].
  destruct (reset_after_set A.2 t' o' d' v' m') as [tokB HB].
  fold A in HA. fold B in HB.
  rewrite HB. cbn [fst snd]. rewrite HA. cbn [fst snd]. done.
Qed.

(** C10: [set_tenant_context] leaves the variable of every argument that
    is [None] (tenant id, organization id, database URL, search URL) as it
    was and writes the others; it always writes the isolation mode, with
    ["schema"] when the argument is omitted.  So in a context in
    ["database"] mode a nested call that omits [isolation_mode] leaves the
    context in ["schema"] mode, until the matching [reset_tenant_context]
    puts ["database"] back. *)
Theorem set_tenant_context_frame
    (ctx : ContextVars.Context) (t o d v kw : option string) :
  let st := set_tenant_context t o d v (ContextVars.isolation_mode_arg kw) ctx in
  st.2 !! "current_tenant_id"
    = match t with Some _ => Some t | None => ctx !! "current_tenant_id" end
  ∧ st.2 !! "current_org_id"
    = match o with Some _ => Some o | None => ctx !! "current_org_id" end
  ∧ st.2 !! "current_db_url"
    = match d with Some _ => Some d | None => ctx !! "current_db_url" end
  ∧ st.2 !! "current_vespa_url"
    = match v with Some _ => Some v | None => ctx !! "current_vespa_url" end
  ∧ ContextVars.get_tenant_isolation_mode st.2
    = Some (match kw with Some mode => mode | None => "schema" end)
  ∧ (ContextVars.is_full_database_isolation ctx = true →
     kw = None →
     ContextVars.is_full_database_isolation st.2 = false
     ∧ ContextVars.is_full_database_isolation (reset_tenant_context st.1 st.2).2.2 = true).
Proof.
  intros st. subst st.
  pose proof (get_tenant_isolation_mode_set ctx t o d v
                (ContextVars.isolation_mode_arg kw)) as Hmode.
  repeat split.
  1-4: by rewrite lookup_set_tenant_context.
  - rewrite Hmode. by destruct kw.
  - subst kw. unfold ContextVars.is_full_database_isolation. by rewrite Hmode.
  - destruct (reset_after_set ctx t o d v (ContextVars.isolation_mode_arg kw))
      as [tok ->]. done.
Qed.

End ContextStore.

(** In the context [context_database], a call that sets only a tenant id
    leaves ["schema"] mode behind, and its reset brings ["database"] back. *)
Lemma set_tenant_context_frame_witness :
  ContextVars.is_full_database_isolation ContextExamples.context_database = true
  ∧ ContextVars.is_full_database_isolation
      (ContextVars.set_tenant_context true "public" (Some "org_9") None None None
         (ContextVars.isolation_mode_arg None) ContextExamples.context_database).2
    = false.
Proof.
  split; [by vm_compute|].
  apply (set_tenant_context_frame true "public" ContextExamples.context_database
           (Some "org_9") None None None None); [by vm_compute | done].
Defined.

(** C8, as amended: with multi-tenancy enabled, reading a tenant id that
    is unset or [None] raises; with multi-tenancy disabled the read never
    raises, gives the default schema when the tenant id is unset or [None],
    and gives the tenant id that was set otherwise. *)
Theorem get_current_tenant_id_by_slot
    (POSTGRES_DEFAULT_SCHEMA : string) (ctx : ContextVars.Context) (t : string) :
  let unset := delete "current_tenant_id" ctx in
  let set_to x := <["current_tenant_id" := x]> ctx in
  let raised := inl (RuntimeError "Tenant ID is not set. This should never happen.") in
  ContextVars.get_current_tenant_id true POSTGRES_DEFAULT_SCHEMA unset = raised
  ∧ ContextVars.get_current_tenant_id true POSTGRES_DEFAULT_SCHEMA (set_to None) = raised
  ∧ ContextVars.get_current_tenant_id true POSTGRES_DEFAULT_SCHEMA (set_to (Some t)) = inr t
  ∧ ContextVars.get_current_tenant_id false POSTGRES_DEFAULT_SCHEMA unset
    = inr POSTGRES_DEFAULT_SCHEMA
  ∧ ContextVars.get_current_tenant_id false POSTGRES_DEFAULT_SCHEMA (set_to None)
    = inr POSTGRES_DEFAULT_SCHEMA
  ∧ ContextVars.get_current_tenant_id false POSTGRES_DEFAULT_SCHEMA (set_to (Some t)) = inr t
  ∧ ∃ s, ContextVars.get_current_tenant_id false POSTGRES_DEFAULT_SCHEMA ctx = inr s.
Proof.
  unfold ContextVars.get_current_tenant_id, ContextVars.ContextVar_get. cbn.
  rewrite lookup_delete_eq, !lookup_insert_eq. cbn.
  repeat split. destruct (ctx !! "current_tenant_id") as [[s|]|]; eauto.
Qed.

(** C8, as stated, fails: with multi-tenancy disabled and the tenant id set
    to [tenant_x], the read gives [tenant_x], not the default schema. *)
Lemma get_current_tenant_id_single_tenant_counterexample :
  ContextVars.get_current_tenant_id false "public" ContextExamples.context_tenant_x
  = inr "tenant_x"
  ∧ ContextVars.get_current_tenant_id false "public" ContextExamples.context_tenant_x
    ≠ inr "public".
Proof. split; [by vm_compute | by vm_compute]. Qed.


(** * Properties of the infrastructure registry *)

Section Registry.

Import TenantRegistry.

Implicit Types (self : Registry) (o : string) (s : Session) (now : Z).

(** A non-expired entry for [o] is cached at time [now]. *)
#[local] Abbreviation live self o now :=
  (∃ entry, _cache self !! o = Some entry
            ∧ is_expired entry (_ttl_seconds self) now = false).

Lemma _get_from_cache_hit self o now entry :
  _cache self !! o = Some entry →
  is_expired entry (_ttl_seconds self) now = false →
  _get_from_cache self o now = (Some (infrastructure entry), self).
Proof. intros H1 H2. unfold _get_from_cache. by rewrite H1, H2. Qed.

Lemma _get_from_cache_miss self o now :
  ¬ live self o now →
  ∃ self', _get_from_cache self o now = (None, self')
           ∧ _ttl_seconds self' = _ttl_seconds self
           ∧ _cache self' !! o = None
           ∧ ∀ k, k ≠ o → _cache self' !! k = _cache self !! k.
Proof.
  intros Hno. unfold _get_from_cache.
  destruct (_cache self !! o) as [entry|] eqn:E.
  - destruct (is_expired entry (_ttl_seconds self) now) eqn:X.
    + eexists. split; [done|]. cbn. split; [done|]. split.
      * apply lookup_delete_eq.
      * intros k Hk. by rewrite lookup_delete_ne.
    + destruct Hno. eauto.
  - exists self. done.
Qed.

Lemma _query_executes o s :
  executed (_query_tenant_infrastructure o s).2 = o :: executed s
  ∧ store (_query_tenant_infrastructure o s).2 = store s.
Proof.
  unfold _query_tenant_infrastructure, execute.
  destruct (store s o) as [e|[row|]]; cbn; try done.
  by destruct (is_suspended _).
Qed.


Lemma _query_returns o s row :
  store s o = FetchOne (Some row) →
  col_status row ≠ "suspended" →
  (_query_tenant_infrastructure o s).1 = inr (infrastructure_of_row row).
Proof.
  intros Hrow Hst.
  unfold _query_tenant_infrastructure, execute. rewrite Hrow.
  unfold is_suspended. cbn. by rewrite bool_decide_false.
Qed.


Lemma live_dec self o now : live self o now ∨ ¬ live self o now.
Proof.
  destruct (_cache self !! o) as [entry|] eqn:E.
  - destruct (is_expired entry (_ttl_seconds self) now) eqn:X.
    + right. intros (e & He & Hx). congruence.
    + left. eauto.
  - right. intros (e & He & _). congruence.
Qed.

(** A lookup that does not bypass the cache and finds a live entry. *)
Lemma get_hit self o s now entry :
  _cache self !! o = Some entry →
  is_expired entry (_ttl_seconds self) now = false →
  get_tenant_infrastructure self o s false now = (inr (infrastructure entry), self, s).
Proof.
  intros H1 H2. unfold get_tenant_infrastructure. cbn.
  by rewrite (_get_from_cache_hit _ _ _ entry).
Qed.

(** Any other lookup goes to the store, from a registry that differs from
    [self] at most by the eviction of the expired entry of [o]. *)
Lemma get_miss self o s bypass now :
  bypass = true ∨ ¬ live self o now →
  ∃ self0,
    get_tenant_infrastructure self o s bypass now = query_and_cache self0 o s now
    ∧ _ttl_seconds self0 = _ttl_seconds self
    ∧ (∀ k, k ≠ o → _cache self0 !! k = _cache self !! k)
    ∧ (_cache self0 !! o = None ∨ self0 = self).
Proof.
  intros H. unfold get_tenant_infrastructure.
  destruct bypass; cbn.
  - exists self. auto.
  - destruct H as [?|H]; [done|].
    destruct (_get_from_cache_miss self o now H) as (self' & -> & ? & ? & ?).
    exists self'. auto.
Qed.

Lemma query_and_cache_executes self o s now :
  executed (query_and_cache self o s now).2 = o :: executed s.
Proof.
  unfold query_and_cache.
  pose proof (_query_executes o s) as [H _].
  destruct (_query_tenant_infrastructure o s) as [[e|i] s']; cbn in *; done.
Qed.

Lemma query_and_cache_returns self o s now row :
  store s o = FetchOne (Some row) →
  col_status row ≠ "suspended" →
  (query_and_cache self o s now).1
  = (inr (infrastructure_of_row row),
     _add_to_cache self o (infrastructure_of_row row) now).
Proof.
  intros Hrow Hst. unfold query_and_cache.
  pose proof (_query_returns o s row Hrow Hst) as H.
  destruct (_query_tenant_infrastructure o s) as [[e|i] s']; cbn in *; congruence.
Qed.


(** A lookup leaves the query log as it was or adds its organization. *)
Lemma get_executed self o s bypass now :
  executed (get_tenant_infrastructure self o s bypass now).2 = executed s
  ∨ executed (get_tenant_infrastructure self o s bypass now).2 = o :: executed s.
Proof.
  destruct (live_dec self o now) as [(entry & He & Hx)|Hno].
  - destruct bypass.
    + right. destruct (get_miss self o s true now (or_introl eq_refl)) as (self0 & -> & _).
      apply query_and_cache_executes.
    + left. by rewrite (get_hit _ _ _ _ entry He Hx).
  - right. destruct (get_miss self o s bypass now (or_intror Hno)) as (self0 & -> & _).
    apply query_and_cache_executes.
Qed.

(** C5: [get_tenant_infrastructure] queries the lookup store exactly when
    [bypass_cache] is true or no non-expired entry is cached for the
    organization; otherwise it returns the cached record and queries
    nothing.  So after a lookup at [now1] that went to the store and got a
    record, a lookup at [now2] within the TTL ([now2 - now1 <= ttl]) and with
    no call in between returns that record without a query (one query in
    all), and a lookup past the TTL evicts the expired entry and queries the
    store again. *)
Theorem get_tenant_infrastructure_queries
    self o s bypass now (row : Row) (now1 now2 : Z) (s2 : Session) :
  let r := get_tenant_infrastructure self o s bypass now in
  (bypass = true ∨ ¬ live self o now → executed r.2 = o :: executed s)
  ∧ (¬ (bypass = true ∨ ¬ live self o now) →
     executed r.2 = executed s
     ∧ ∃ entry, _cache self !! o = Some entry ∧ r.1 = (inr (infrastructure entry), self))
  ∧ (bypass = true ∨ ¬ live self o now1 →
     store s o = FetchOne (Some row) →
     col_status row ≠ "suspended" →
     let r1 := get_tenant_infrastructure self o s bypass now1 in
     let r2 := get_tenant_infrastructure r1.1.2 o s2 false now2 in
     r1.1.1 = inr (infrastructure_of_row row)
     ∧ executed r1.2 = o :: executed s
     ∧ (now2 - now1 ≤ _ttl_seconds self →
        r2.1.1 = inr (infrastructure_of_row row) ∧ executed r2.2 = executed s2)
     ∧ (now2 - now1 > _ttl_seconds self →
        executed r2.2 = o :: executed s2
        ∧ _cache (_get_from_cache r1.1.2 o now2).2 !! o = None)).
Proof.
  intros r. split; [|split].
  - intros H. subst r.
    destruct (get_miss self o s bypass now H) as (self0 & -> & _).
    apply query_and_cache_executes.
  - intros H. subst r.
    destruct bypass; [destruct H; by left|].
    destruct (live_dec self o now) as [(entry & He & Hx)|Hno];
      [|destruct H; by right].
    rewrite (get_hit _ _ _ _ entry He Hx). eauto.
  - intros H Hrow Hst r1 r2.
    destruct (get_miss self o s bypass now1 H) as (self0 & Hget & Httl & _).
    assert (r1.1 = (inr (infrastructure_of_row row),
                    _add_to_cache self0 o (infrastructure_of_row row) now1)) as Hr1.
    { subst r1. rewrite Hget. by apply query_and_cache_returns. }
    assert (executed r1.2 = o :: executed s) as Hex.
    { subst r1. rewrite Hget. apply query_and_cache_executes. }
    split; [by rewrite Hr1|]. split; [done|].
    set (entry := {| infrastructure := infrastructure_of_row row; cached_at := now1 |}).
    assert (_cache r1.1.2 !! o = Some entry) as Hentry.
    { rewrite Hr1. cbn. apply lookup_insert_eq. }
    assert (_ttl_seconds r1.1.2 = _ttl_seconds self) as Httl1.
    { rewrite Hr1. cbn. done. }
    split.
    + intros Hwin. subst r2.
      rewrite (get_hit _ _ _ _ entry Hentry); [done|].
      unfold is_expired. cbn. rewrite Httl1. apply bool_decide_false. lia.
    + intros Hout.
      assert (is_expired entry (_ttl_seconds r1.1.2) now2 = true) as Hx.
      { unfold is_expired. cbn. rewrite Httl1. apply bool_decide_true. lia. }
      assert (¬ live r1.1.2 o now2) as Hno.
      { intros (e & He & Hx'). congruence. }
      split.
      * subst r2.
        destruct (get_miss r1.1.2 o s2 false now2 (or_intror Hno)) as (self1 & -> & _).
        apply query_and_cache_executes.
      * destruct (_get_from_cache_miss r1.1.2 o now2 Hno) as (self1 & -> & _ & Hnone & _).
        done.
Qed.

(** The cache after a lookup: an entry was there before, or is the
    record the store has just returned for [o]. *)
Lemma get_cache_lookup self o s bypass now k e :
  _cache (get_tenant_infrastructure self o s bypass now).1.2 !! k = Some e →
  _cache self !! k = Some e
  ∨ (k = o ∧ (_query_tenant_infrastructure o s).1 = inr (infrastructure e)).
Proof.
  assert (∀ self0,
    _cache (query_and_cache self0 o s now).1.2 !! k = Some e →
    _cache self0 !! k = Some e
    ∨ (k = o ∧ (_query_tenant_infrastructure o s).1 = inr (infrastructure e))) as Hq.
  { intros self0. unfold query_and_cache.
    destruct (_query_tenant_infrastructure o s) as [[x|i] s']; cbn; [auto|].
    rewrite lookup_insert. case_decide; [|auto].
    intros [= <-]. right. by subst. }
  destruct (live_dec self o now) as [(entry & He & Hx)|Hno].
  - destruct bypass.
    + unfold get_tenant_infrastructure. cbn. apply Hq.
    + rewrite (get_hit _ _ _ _ entry He Hx). cbn. auto.
  - destruct (get_miss self o s bypass now (or_intror Hno))
      as (self0 & -> & _ & Hother & Hself).
    intros H. destruct (Hq self0 H) as [H0|H0]; [|auto].
    destruct (decide (k = o)) as [->|Hk].
    + destruct Hself as [Hn| ->]; [congruence|auto].
    + left. by rewrite <- Hother.
Qed.






End Registry.



(** A first lookup of the active [acct_7] at time 0 on a fresh registry
    queries the store; a second one at time 300 does not, nor does a lookup
    at time 10 on the registry that cached the record at time 0. *)
Lemma get_tenant_infrastructure_queries_witness :
  TenantRegistry.executed
    (TenantRegistry.get_tenant_infrastructure TenantRegistry.init "acct_7"
       (Scenario.session "active") false 0).2 = ["acct_7"]
  ∧ TenantRegistry.executed
      (TenantRegistry.get_tenant_infrastructure
         (TenantRegistry.get_tenant_infrastructure TenantRegistry.init "acct_7"
            (Scenario.session "active") false 0).1.2
         "acct_7" (Scenario.session "active") false 300).2 = []
  ∧ TenantRegistry.executed
      (TenantRegistry.get_tenant_infrastructure Scenario.registry_cached_active
         "acct_7" (Scenario.session "active") false 10).2 = [].
Proof.
  assert (false = true
          ∨ ¬ (∃ entry, TenantRegistry._cache TenantRegistry.init !! "acct_7" = Some entry
                 ∧ TenantRegistry.is_expired entry
                     (TenantRegistry._ttl_seconds TenantRegistry.init) 0 = false)) as Hmiss.
  { right. intros (e & He & _). cbn in He. by rewrite lookup_empty in He. }
  pose proof (get_tenant_infrastructure_queries TenantRegistry.init "acct_7"
                (Scenario.session "active") false 0
                (Scenario.row "acct_7" "vespa-7.internal" "active") 0 300
                (Scenario.session "active")) as (Hq & _ & Htwo).
  split; [exact (Hq Hmiss)|].
  assert (TenantRegistry.col_status (Scenario.row "acct_7" "vespa-7.internal" "active")
          ≠ "suspended") as Hst by done.
  destruct (Htwo Hmiss eq_refl Hst) as (_ & _ & Hin & _).
  split.
  { apply Hin. cbn. unfold TenantRegistry.TENANT_CACHE_TTL_SECONDS. lia. }
  pose proof (get_tenant_infrastructure_queries Scenario.registry_cached_active "acct_7"
                (Scenario.session "active") false 10
                (Scenario.row "acct_7" "vespa-7.internal" "active") 0 0
                (Scenario.session "active")) as (_ & Hhit & _).
  apply Hhit. intros [Hb|Hn]; [discriminate Hb|].
  apply Hn. eexists. split; vm_compute; reflexivity.
Defined.

(** * Properties of the connection pool *)

Section Pool.

Import VespaPool.

Variable VESPA_APP_CONTAINER_URL : string.

Implicit Types (d : ClientDict) (k u : string) (v c : CachedVespaClient).
Implicit Types (self : Pool).

#[local] Abbreviation get_client := (VespaPool.get_client VESPA_APP_CONTAINER_URL).
#[local] Abbreviation _resolve_vespa_url :=
  (VespaPool._resolve_vespa_url VESPA_APP_CONTAINER_URL).

(** ** The insertion-ordered dictionary *)

Lemma dict_lookup_elem_of d k v : dict_lookup d k = Some v → (k, v) ∈ d.
Proof.
  induction d as [|[k' v'] d IH]; cbn; [done|].
  case_bool_decide as E; intros Hv.
  - simplify_eq. apply list_elem_of_here.
  - apply list_elem_of_further. auto.
Qed.

Lemma dict_lookup_None d k : dict_lookup d k = None ↔ k ∉ d.*1.
Proof.
  induction d as [|[k' v'] d IH]; cbn.
  - split; [intros _; apply not_elem_of_nil|done].
  - rewrite not_elem_of_cons. case_bool_decide as E;
      [|rewrite IH; split; [intros ?; split; [congruence|done] | by intros [_ ?]]].
    split; [done|]. intros [? _]. congruence.
Qed.

Lemma elem_of_dict_lookup d k v :
  NoDup d.*1 → (k, v) ∈ d → dict_lookup d k = Some v.
Proof.
  induction d as [|[k' v'] d IH]; cbn.
  - intros _ Hin. by apply elem_of_nil in Hin.
  - rewrite NoDup_cons, elem_of_cons. intros [Hk Hd] [Hin|Hin].
    + simplify_eq. by rewrite bool_decide_true.
    + case_bool_decide as E; [|auto]. subst k'.
      destruct Hk. apply list_elem_of_fmap. by exists (k, v).
Qed.

Lemma dict_lookup_store d k v k' :
  dict_lookup (dict_store d k v) k'
  = if decide (k = k') then Some v else dict_lookup d k'.
Proof.
  induction d as [|[k0 v0] d IH]; cbn.
  - case_bool_decide; case_decide; congruence.
  - case_bool_decide; cbn.
    + subst k0. repeat case_bool_decide; case_decide; congruence.
    + rewrite IH. repeat case_bool_decide; case_decide; congruence.
Qed.

Lemma dict_store_absent d k v :
  dict_lookup d k = None → dict_store d k v = d ++ [(k, v)].
Proof.
  induction d as [|[k0 v0] d IH]; cbn; [done|].
  case_bool_decide as E; [done|]. intros Hn. by rewrite IH.
Qed.

Lemma dict_store_present_keys d k v :
  is_Some (dict_lookup d k) →
  (dict_store d k v).*1 = d.*1 ∧ length (dict_store d k v) = length d.
Proof.
  induction d as [|[k0 v0] d IH]; cbn.
  - by intros [? ?].
  - case_bool_decide as E; cbn.
    + subst k0. done.
    + intros Hs. destruct (IH Hs) as [-> ->]. done.
Qed.

Lemma length_dict_store d k v : (length (dict_store d k v) ≤ S (length d))%nat.
Proof.
  destruct (dict_lookup d k) eqn:E.
  - destruct (dict_store_present_keys d k v) as [_ ->]; [eauto|lia].
  - rewrite dict_store_absent by done. rewrite length_app. cbn. lia.
Qed.

Lemma NoDup_dict_store d k v : NoDup d.*1 → NoDup (dict_store d k v).*1.
Proof.
  intros Hd. destruct (dict_lookup d k) eqn:E.
  - destruct (dict_store_present_keys d k v) as [-> _]; eauto.
  - rewrite dict_store_absent by done. rewrite fmap_app. cbn.
    apply NoDup_app. split; [done|]. split; [|apply NoDup_singleton].
    intros x Hx ->%list_elem_of_singleton. by apply dict_lookup_None in E.
Qed.

Lemma length_dict_remove d k v :
  dict_lookup d k = Some v → S (length (dict_remove d k)) = length d.
Proof.
  induction d as [|[k0 v0] d IH]; cbn; [done|].
  case_bool_decide as E; [done|]. intros Hs. cbn. by rewrite IH.
Qed.

Lemma length_dict_remove_le d k : (length (dict_remove d k) ≤ length d)%nat.
Proof.
  induction d as [|[k0 v0] d IH]; cbn; [done|].
  case_bool_decide; cbn; lia.
Qed.

Lemma elem_of_dict_remove d k x : x ∈ dict_remove d k → x ∈ d.
Proof.
  induction d as [|[k0 v0] d IH]; cbn; [done|].
  case_bool_decide.
  - apply list_elem_of_further.
  - rewrite !elem_of_cons. intros [?|?]; [by left | right; auto].
Qed.

Lemma NoDup_dict_remove d k : NoDup d.*1 → NoDup (dict_remove d k).*1.
Proof.
  induction d as [|[k0 v0] d IH]; cbn; [done|].
  rewrite NoDup_cons. intros [Hk Hd].
  case_bool_decide; [done|]. cbn. apply NoDup_cons. split; [|auto].
  intros (x & Hx1 & Hx2)%list_elem_of_fmap. apply Hk.
  apply list_elem_of_fmap. exists x. split; [done|].
  by eapply elem_of_dict_remove.
Qed.

Lemma dict_lookup_remove d k k' :
  NoDup d.*1 →
  dict_lookup (dict_remove d k) k' = if decide (k = k') then None else dict_lookup d k'.
Proof.
  induction d as [|[k0 v0] d IH]; cbn.
  - intros _. by case_decide.
  - rewrite NoDup_cons. intros [Hk Hd].
    case_bool_decide as E1; cbn.
    + subst k0. case_decide as E2.
      * subst k'. by apply dict_lookup_None.
      * by rewrite bool_decide_false.
    + rewrite IH by done. case_bool_decide; case_decide; congruence.
Qed.

(** ** The least recently accessed client *)

Lemma min_from_spec (best : string * CachedVespaClient) d :
  min_from best d ∈ best :: d
  ∧ ∀ x, x ∈ best :: d → last_access (min_from best d).2 ≤ last_access x.2.
Proof.
  induction d as [|y d IH] in best |- *; cbn.
  - split; [apply list_elem_of_here|].
    intros x ->%list_elem_of_singleton. lia.
  - case_bool_decide as E.
    + destruct (IH y) as [Hin Hle]. split.
      * by apply list_elem_of_further.
      * intros x [->|Hx]%elem_of_cons.
        -- specialize (Hle y (list_elem_of_here _ _)). lia.
        -- auto.
    + destruct (IH best) as [Hin Hle]. split.
      * apply elem_of_cons in Hin as [->|Hin]; [apply list_elem_of_here|].
        by do 2 apply list_elem_of_further.
      * intros x [->|[->|Hx]%elem_of_cons]%elem_of_cons.
        -- apply Hle, list_elem_of_here.
        -- specialize (Hle best (list_elem_of_here _ _)). lia.
        -- by apply Hle, list_elem_of_further.
Qed.

Lemma oldest_spec d u c :
  oldest d = Some (u, c) →
  (u, c) ∈ d ∧ ∀ x, x ∈ d → last_access c ≤ last_access x.2.
Proof.
  destruct d as [|y d]; cbn; [done|]. intros [= H].
  destruct (min_from_spec y d) as [Hin Hle]. rewrite H in Hin, Hle. done.
Qed.

Lemma oldest_is_Some d : d ≠ [] → is_Some (oldest d).
Proof. destruct d; [done|]. cbn. eauto. Qed.

(** ** Removal and eviction *)

Lemma _remove_client_present self u c :
  dict_lookup (_clients self) u = Some c →
  _remove_client self u
  = {| _clients := dict_remove (_clients self) u;
       closed := client c :: closed self;
       constructed := constructed self |}.
Proof. intros H. unfold _remove_client. by rewrite H. Qed.

Lemma length_remove_client self u :
  (length (_clients (_remove_client self u)) ≤ length (_clients self))%nat.
Proof.
  unfold _remove_client. destruct (dict_lookup _ u); cbn; [|done].
  apply length_dict_remove_le.
Qed.

(** Eviction from a pool that is not empty removes one client, and one
    whose last access is the smallest. *)
Lemma _evict_oldest_client_spec self :
  _clients self ≠ [] →
  ∃ u c c0,
    (u, c) ∈ _clients self
    ∧ (∀ x, x ∈ _clients self → last_access c ≤ last_access x.2)
    ∧ dict_lookup (_clients self) u = Some c0
    ∧ (NoDup (_clients self).*1 → c0 = c)
    ∧ _evict_oldest_client self
      = {| _clients := dict_remove (_clients self) u;
           closed := client c0 :: closed self;
           constructed := constructed self |}.
Proof.
  intros Hne. destruct (oldest_is_Some _ Hne) as [[u c] Hold].
  destruct (oldest_spec _ _ _ Hold) as [Hin Hmin].
  destruct (dict_lookup (_clients self) u) as [c0|] eqn:E.
  - exists u, c, c0. repeat split; try done.
    + intros Hnd. rewrite (elem_of_dict_lookup _ _ _ Hnd Hin) in E. congruence.
    + unfold _evict_oldest_client. rewrite Hold. by apply _remove_client_present.
  - apply dict_lookup_None in E. destruct E.
    apply list_elem_of_fmap. by exists (u, c).
Qed.

(** ** [get_client] *)

(** The hit branch leaves no more clients than it found. *)
Lemma length_on_hit self u c probe now :
  dict_lookup (_clients self) u = Some c →
  (length (_clients (on_hit self u c probe now).2) ≤ length (_clients self))%nat.
Proof.
  intros H. unfold on_hit.
  match goal with |- context [dict_store ?d ?k ?v] =>
    destruct (dict_store_present_keys d k v) as [_ Hlen]; [eauto|] end.
  match goal with |- context [if is_healthy ?x then _ else _] =>
    destruct (is_healthy x) end; cbn [snd].
  - cbn. by rewrite Hlen.
  - etrans; [apply length_remove_client|]. cbn. by rewrite Hlen.
Qed.

Lemma length_on_miss self target now create_error :
  (length (_clients self) ≤ MAX_CLIENTS)%nat →
  (length (_clients (on_miss self target now create_error).2) ≤ MAX_CLIENTS)%nat.
Proof.
  intros Hle. unfold on_miss.
  set (self1 := if bool_decide _ then _ else _).
  assert (length (_clients self1) < MAX_CLIENTS)%nat as Hlt.
  { subst self1. case_bool_decide as E; [|lia].
    assert (_clients self ≠ []) as Hne.
    { intros Heq. rewrite Heq in E. unfold MAX_CLIENTS in E. cbn in E. lia. }
    destruct (_evict_oldest_client_spec self Hne) as (u & c & c0 & _ & _ & Hl & _ & ->).
    cbn. pose proof (length_dict_remove _ _ _ Hl). lia. }
  destruct create_error; cbn [snd _clients]; [lia|].
  etrans; [apply length_dict_store|]. lia.
Qed.

Lemma length_get_client self vespa_url ctx now probe create_error :
  (length (_clients self) ≤ MAX_CLIENTS)%nat →
  (length (_clients (get_client self vespa_url ctx now probe create_error).2)
   ≤ MAX_CLIENTS)%nat.
Proof.
  intros Hle. unfold VespaPool.get_client.
  set (target := _resolve_vespa_url vespa_url ctx).
  destruct (dict_lookup (_clients self) target) as [cached|] eqn:E.
  - pose proof (length_on_hit self target cached probe now E) as Hhit.
    destruct (on_hit self target cached probe now) as [[c|] self1]; cbn [snd] in *.
    + lia.
    + apply length_on_miss. lia.
  - by apply length_on_miss.
Qed.

Lemma length_call self (c : Call) :
  (length (_clients self) ≤ MAX_CLIENTS)%nat →
  (length (_clients (call VESPA_APP_CONTAINER_URL self c)) ≤ MAX_CLIENTS)%nat.
Proof.
  intros Hle. destruct c as [u ctx now probe err|u|]; cbn.
  - by apply length_get_client.
  - etrans; [apply length_remove_client|done].
  - unfold close_all. generalize (map fst (_clients self)). intros l.
    induction l as [|x l IH] in self, Hle |- *; [exact Hle|].
    cbn [foldl]. apply IH. etrans; [apply length_remove_client|done].
Qed.

(** The pool never holds more than [MAX_CLIENTS] clients. *)
Lemma length_run (cs : list Call) :
  (length (_clients (run VESPA_APP_CONTAINER_URL init cs)) ≤ MAX_CLIENTS)%nat.
Proof.
  unfold run. induction cs as [|c cs IH] using rev_ind.
  - cbn. unfold MAX_CLIENTS. lia.
  - rewrite foldl_app. cbn. by apply length_call.
Qed.

(** A call that returns a client leaves the target with that client and
    with [now] as its last access. *)
Lemma get_client_last_access self vespa_url ctx now probe create_error (cl : Client) :
  (get_client self vespa_url ctx now probe create_error).1 = inr cl →
  ∃ entry,
    dict_lookup (_clients (get_client self vespa_url ctx now probe create_error).2)
      (_resolve_vespa_url vespa_url ctx) = Some entry
    ∧ last_access entry = now
    ∧ client entry = cl.
Proof.
  unfold VespaPool.get_client.
  set (target := _resolve_vespa_url vespa_url ctx).
  assert (∀ self1, (on_miss self1 target now create_error).1 = inr cl →
    ∃ entry, dict_lookup (_clients (on_miss self1 target now create_error).2) target
             = Some entry ∧ last_access entry = now ∧ client entry = cl) as Hmiss.
  { intros self1. unfold on_miss. destruct create_error; cbn [fst snd _clients]; [done|].
    intros [= <-]. eexists. rewrite dict_lookup_store, decide_True by done. done. }
  destruct (dict_lookup (_clients self) target) as [cached|] eqn:E; [|apply Hmiss].
  destruct (on_hit self target cached probe now) as [[cl'|] self1] eqn:Hhit;
    [|apply Hmiss].
  cbn [fst snd]. intros [= ->]. revert Hhit. unfold on_hit.
  match goal with |- context [if is_healthy ?x then _ else _] =>
    set (cached' := x); destruct (is_healthy cached') eqn:Hh end; [|done].
  intros [= <- <-]. exists cached'. cbn [_clients].
  rewrite dict_lookup_store, decide_True by done.
  split; [done|]. split; [|done].
  subst cached'. by destruct (_should_health_check _ _).
Qed.

(** A client that is not the least recently accessed one survives a call
    for an endpoint that is not in the pool. *)
Lemma on_miss_keeps self k c target now create_error :
  NoDup (_clients self).*1 →
  dict_lookup (_clients self) k = Some c →
  (∃ x, x ∈ _clients self ∧ last_access x.2 < last_access c) →
  dict_lookup (_clients self) target = None →
  dict_lookup (_clients (on_miss self target now create_error).2) k = Some c.
Proof.
  intros Hnd Hk (x & Hx & Hlt) Htarget. unfold on_miss.
  set (self1 := if bool_decide _ then _ else _).
  assert (dict_lookup (_clients self1) k = Some c) as Hk1.
  { subst self1. case_bool_decide as E; [|done].
    assert (_clients self ≠ []) as Hne by (intros Heq; rewrite Heq in Hx; by apply elem_of_nil in Hx).
    destruct (_evict_oldest_client_spec self Hne)
      as (u & cu & c0 & Hin & Hmin & Hl & _ & ->).
    cbn. rewrite dict_lookup_remove by done. case_decide as Eu; [|done].
    subst u. rewrite (elem_of_dict_lookup _ _ _ Hnd Hin) in Hk.
    injection Hk as ->. specialize (Hmin x Hx). lia. }
  destruct create_error; cbn [snd _clients]; [done|].
  rewrite dict_lookup_store. case_decide as Et; [|done]. congruence.
Qed.

(** A hit: the cached client of the target passes for healthy, that is,
    the probe answers ["up"] when the health check is due, and the client
    was healthy when it is not.  The cached client itself is returned,
    nothing is constructed or closed, the other entries stay as they are,
    and the entry of the target gets [now] as its last access. *)
Lemma get_client_hit self vespa_url ctx now probe create_error cached :
  dict_lookup (_clients self) (_resolve_vespa_url vespa_url ctx) = Some cached →
  (if _should_health_check cached now
   then probe = ProbeCode (Some "up") else is_healthy cached = true) →
  let r := get_client self vespa_url ctx now probe create_error in
  r.1 = inr (client cached)
  ∧ constructed r.2 = constructed self
  ∧ closed r.2 = closed self
  ∧ (_clients r.2).*1 = (_clients self).*1
  ∧ (∀ k, k ≠ _resolve_vespa_url vespa_url ctx →
          dict_lookup (_clients r.2) k = dict_lookup (_clients self) k)
  ∧ ∃ entry,
      dict_lookup (_clients r.2) (_resolve_vespa_url vespa_url ctx) = Some entry
      ∧ client entry = client cached
      ∧ created_at entry = created_at cached
      ∧ last_access entry = now.
Proof.
  intros Hl Hh r. subst r. unfold VespaPool.get_client.
  set (target := _resolve_vespa_url vespa_url ctx) in *.
  rewrite Hl. unfold on_hit.
  match goal with |- context [if is_healthy ?x then _ else _] => set (c2 := x) end.
  assert (is_healthy c2 = true ∧ client c2 = client cached
          ∧ created_at c2 = created_at cached ∧ last_access c2 = now)
    as (Hh2 & Hc2 & Hcr2 & Ha2).
  { subst c2. revert Hh. unfold _should_health_check, _perform_health_check.
    cbn [last_health_check].
    destruct (match last_health_check cached with
              | Some t => bool_decide (now - t > HEALTH_CHECK_INTERVAL)
              | None => true
              end); cbn.
    - intros ->. by rewrite bool_decide_true.
    - done. }
  rewrite Hh2. cbn [fst snd _clients closed constructed].
  split; [by rewrite Hc2|]. split; [done|]. split; [done|]. split.
  { by destruct (dict_store_present_keys (_clients self) target c2) as [-> _]; [eauto|]. }
  split.
  - intros k Hk. rewrite dict_lookup_store. by rewrite decide_False.
  - exists c2. by rewrite dict_lookup_store, decide_True.
Qed.

(** C7: the pool never holds more than [MAX_CLIENTS] = 50 clients.  With
    the pool holding 50 clients, [get_client] for an endpoint that is not in
    the pool removes exactly one client, one whose last access is the
    smallest, closes it, and then creates and stores the new client, so that
    the pool holds 50 clients again.  Every [get_client] that returns a
    client leaves the target's entry with [now] as its last access.  A hit
    on an existing endpoint returns the cached client itself, constructs and
    closes nothing, and sets the last access of that client's entry to
    [now]; so, when some other client was last accessed before [now], the
    client just accessed is still in the pool, under its endpoint, after
    the next call for a new endpoint.  In general a client with a later
    last access than some other client is not the one evicted by the next
    call for a new endpoint. *)
Theorem pool_lru_eviction
    self vespa_url ctx now probe create_error (cs : list Call) k c :
  let target := _resolve_vespa_url vespa_url ctx in
  let new_client := {| base_url := target; serial := constructed self |} in
  let new_entry :=
    {| client := new_client; vespa_url := target; created_at := now;
       last_access := now; last_health_check := None; is_healthy := true |} in
  (length (_clients (run VESPA_APP_CONTAINER_URL init cs)) ≤ MAX_CLIENTS)%nat
  ∧ MAX_CLIENTS = 50%nat
  ∧ (NoDup (_clients self).*1 →
     length (_clients self) = MAX_CLIENTS →
     dict_lookup (_clients self) target = None →
     let r := get_client self vespa_url ctx now probe None in
     ∃ old_url old,
       (old_url, old) ∈ _clients self
       ∧ (∀ x, x ∈ _clients self → last_access old ≤ last_access x.2)
       ∧ r.1 = inr new_client
       ∧ _clients r.2 = dict_remove (_clients self) old_url ++ [(target, new_entry)]
       ∧ closed r.2 = client old :: closed self
       ∧ dict_lookup (_clients r.2) old_url = None
       ∧ length (_clients r.2) = MAX_CLIENTS)
  ∧ (∀ cl, (get_client self vespa_url ctx now probe create_error).1 = inr cl →
     ∃ entry,
       dict_lookup (_clients (get_client self vespa_url ctx now probe create_error).2)
         target = Some entry
       ∧ last_access entry = now
       ∧ client entry = cl)
  ∧ (NoDup (_clients self).*1 →
     dict_lookup (_clients self) k = Some c →
     (∃ x, x ∈ _clients self ∧ last_access x.2 < last_access c) →
     dict_lookup (_clients self) target = None →
     dict_lookup (_clients (get_client self vespa_url ctx now probe create_error).2) k
     = Some c)
  ∧ (∀ cached,
       dict_lookup (_clients self) target = Some cached →
       (if _should_health_check cached now
        then probe = ProbeCode (Some "up") else is_healthy cached = true) →
       let r := get_client self vespa_url ctx now probe create_error in
       r.1 = inr (client cached)
       ∧ constructed r.2 = constructed self
       ∧ closed r.2 = closed self
       ∧ (_clients r.2).*1 = (_clients self).*1
       ∧ (∀ k', k' ≠ target →
                dict_lookup (_clients r.2) k' = dict_lookup (_clients self) k')
       ∧ ∃ entry,
           dict_lookup (_clients r.2) target = Some entry
           ∧ client entry = client cached
           ∧ created_at entry = created_at cached
           ∧ last_access entry = now
           ∧ ∀ vespa_url2 ctx2 now2 probe2 create_error2,
               NoDup (_clients self).*1 →
               (∃ x, x ∈ _clients self ∧ x.1 ≠ target ∧ last_access x.2 < now) →
               dict_lookup (_clients self) (_resolve_vespa_url vespa_url2 ctx2) = None →
               dict_lookup
                 (_clients (get_client r.2 vespa_url2 ctx2 now2 probe2 create_error2).2)
                 target
               = Some entry).
Proof.
  intros target new_client new_entry.
  split; [apply length_run|]. split; [done|]. split; [|split; [|split]].
  - intros Hnd Hlen Htarget r. subst r. unfold VespaPool.get_client.
    fold target. rewrite Htarget. unfold on_miss.
    rewrite bool_decide_true by lia.
    assert (_clients self ≠ []) as Hne.
    { intros Heq. rewrite Heq in Hlen. done. }
    destruct (_evict_oldest_client_spec self Hne)
      as (u & cu & c0 & Hin & Hmin & Hl & Heq & ->).
    rewrite (Heq Hnd) in *. clear Heq c0.
    exists u, cu. cbn [fst snd _clients closed constructed].
    assert (dict_lookup (dict_remove (_clients self) u) target = None) as Hrem.
    { rewrite dict_lookup_remove by done. by case_decide. }
    split; [done|]. split; [done|]. split; [done|].
    split; [by apply dict_store_absent|]. split; [done|]. split.
    + rewrite dict_lookup_store, dict_lookup_remove by done.
      rewrite (decide_True (P := u = u)) by done.
      case_decide as E; [|done]. subst u. congruence.
    + rewrite dict_store_absent by done. rewrite length_app. cbn.
      pose proof (length_dict_remove _ _ _ Hl). lia.
  - intros cl. apply get_client_last_access.
  - intros Hnd Hk Hx Htarget. unfold VespaPool.get_client.
    fold target. rewrite Htarget. by apply on_miss_keeps.
  - intros cached Hl Hh r.
    destruct (get_client_hit self vespa_url ctx now probe create_error cached Hl Hh)
      as (Hret & Hcon & Hclo & Hkeys & Hother & entry & Hentry & Hcl & Hcr & Hacc).
    fold target in Hother, Hentry. fold r in Hret, Hcon, Hclo, Hkeys, Hother, Hentry.
    split; [done|]. split; [done|]. split; [done|]. split; [done|]. split; [done|].
    exists entry. split; [done|]. split; [done|]. split; [done|]. split; [done|].
    intros vespa_url2 ctx2 now2 probe2 create_error2 Hnd (x & Hx & Hxk & Hxa) Htarget2.
    set (target2 := _resolve_vespa_url vespa_url2 ctx2) in *.
    assert (target2 ≠ target) as Hne by congruence.
    assert (dict_lookup (_clients r.2) target2 = None) as Hmiss.
    { by rewrite Hother. }
    unfold VespaPool.get_client. fold target2. rewrite Hmiss.
    apply on_miss_keeps; [by rewrite Hkeys|done| |done].
    exists x. split; [|by rewrite Hacc].
    destruct x as [xk xv]. cbn in Hxk.
    apply dict_lookup_elem_of. rewrite Hother by done.
    by apply elem_of_dict_lookup.
Qed.

End Pool.

(** The pool [full_pool] holds 50 clients, created at times 0 to 49.  A
    call for a 51st endpoint at time 50 keeps 50 clients, among them the
    client of endpoint 1, which was accessed after that of endpoint 0.  A
    call for endpoint 0 at time 50 is a hit: it returns the client of
    endpoint 0, whose entry is then still in the pool after a call for the
    51st endpoint at time 51. *)
Lemma pool_lru_eviction_witness :
  let self := Scenario.full_pool in
  let target :=
    VespaPool._resolve_vespa_url Scenario.VESPA_APP_CONTAINER_URL
      (Some (Scenario.endpoint 50)) ∅ in
  let r :=
    VespaPool.get_client Scenario.VESPA_APP_CONTAINER_URL self
      (Some (Scenario.endpoint 50)) ∅ 50 VespaPool.ProbeRaises None in
  let target0 :=
    VespaPool._resolve_vespa_url Scenario.VESPA_APP_CONTAINER_URL
      (Some (Scenario.endpoint 0)) ∅ in
  let hit :=
    VespaPool.get_client Scenario.VESPA_APP_CONTAINER_URL self
      (Some (Scenario.endpoint 0)) ∅ 50 (VespaPool.ProbeCode (Some "up")) None in
  NoDup (VespaPool._clients self).*1
  ∧ length (VespaPool._clients self) = VespaPool.MAX_CLIENTS
  ∧ VespaPool.dict_lookup (VespaPool._clients self) target = None
  ∧ length (VespaPool._clients r.2) = VespaPool.MAX_CLIENTS
  ∧ VespaPool.dict_lookup (VespaPool._clients r.2) (Scenario.endpoint 1)
    = Some (Scenario.entry 1)
  ∧ (∃ entry, VespaPool.dict_lookup (VespaPool._clients r.2) target = Some entry
              ∧ VespaPool.last_access entry = 50)
  ∧ VespaPool.dict_lookup (VespaPool._clients self) target0 = Some (Scenario.entry 0)
  ∧ hit.1 = inr (VespaPool.client (Scenario.entry 0))
  ∧ VespaPool.constructed hit.2 = VespaPool.constructed self
  ∧ ∃ entry,
      VespaPool.dict_lookup
        (VespaPool._clients
           (VespaPool.get_client Scenario.VESPA_APP_CONTAINER_URL hit.2
              (Some (Scenario.endpoint 50)) ∅ 51 VespaPool.ProbeRaises None).2)
        target0
      = Some entry
      ∧ VespaPool.client entry = VespaPool.client (Scenario.entry 0)
      ∧ VespaPool.last_access entry = 50.
Proof.
  intros self target r target0 hit.
  assert (NoDup (VespaPool._clients self).*1) as Hnd.
  { apply (bool_decide_unpack _). vm_compute. exact I. }
  assert (length (VespaPool._clients self) = VespaPool.MAX_CLIENTS) as Hlen.
  { vm_compute. reflexivity. }
  assert (VespaPool.dict_lookup (VespaPool._clients self) target = None) as Htarget.
  { vm_compute. reflexivity. }
  assert (VespaPool.dict_lookup (VespaPool._clients self) (Scenario.endpoint 1)
          = Some (Scenario.entry 1)) as Hk.
  { vm_compute. reflexivity. }
  assert (VespaPool.dict_lookup (VespaPool._clients self) (Scenario.endpoint 0)
          = Some (Scenario.entry 0)) as H0.
  { vm_compute. reflexivity. }
  assert (VespaPool.dict_lookup (VespaPool._clients self) target0
          = Some (Scenario.entry 0)) as Hl0.
  { vm_compute. reflexivity. }
  assert (if VespaPool._should_health_check (Scenario.entry 0) 50
          then VespaPool.ProbeCode (Some "up") = VespaPool.ProbeCode (Some "up")
          else VespaPool.is_healthy (Scenario.entry 0) = true) as Hup.
  { vm_compute. reflexivity. }
  assert (∃ x, x ∈ VespaPool._clients self
               ∧ VespaPool.last_access x.2 < VespaPool.last_access (Scenario.entry 1)) as Hx.
  { exists (Scenario.endpoint 0, Scenario.entry 0). split.
    - exact (dict_lookup_elem_of _ _ _ H0).
    - vm_compute. reflexivity. }
  assert (∃ x, x ∈ VespaPool._clients self ∧ x.1 ≠ target0
               ∧ VespaPool.last_access x.2 < 50) as Hx0.
  { exists (Scenario.endpoint 1, Scenario.entry 1). split; [|split].
    - exact (dict_lookup_elem_of _ _ _ Hk).
    - intros H. vm_compute in H. discriminate H.
    - vm_compute. reflexivity. }
  pose proof (pool_lru_eviction Scenario.VESPA_APP_CONTAINER_URL self
                (Some (Scenario.endpoint 50)) ∅ 50 VespaPool.ProbeRaises None []
                (Scenario.endpoint 1) (Scenario.entry 1)) as H.
  cbv zeta in H.
  destruct H as (_ & _ & HA & HC & HD & _).
  destruct (HA Hnd Hlen Htarget) as (u & old & _ & _ & Hret & _ & _ & _ & Hlen').
  split; [exact Hnd|]. split; [exact Hlen|]. split; [exact Htarget|].
  split; [exact Hlen'|].
  split; [exact (HD Hnd Hk Hx Htarget)|].
  split.
  { destruct (HC _ Hret) as (entry & Hentry & Hnow & _).
    exists entry. split; [exact Hentry|exact Hnow]. }
  split; [exact Hl0|].
  pose proof (pool_lru_eviction Scenario.VESPA_APP_CONTAINER_URL self
                (Some (Scenario.endpoint 0)) ∅ 50 (VespaPool.ProbeCode (Some "up")) None []
                (Scenario.endpoint 1) (Scenario.entry 1)) as H'.
  cbv zeta in H'.
  destruct H' as (_ & _ & _ & _ & _ & HE).
  destruct (HE (Scenario.entry 0) Hl0 Hup)
    as (Hhit & Hcon & _ & _ & _ & entry & _ & Hcl & _ & Hacc & Hnext).
  split; [exact Hhit|]. split; [exact Hcon|].
  exists entry. split; [|split; [exact Hcl|exact Hacc]].
  exact (Hnext (Some (Scenario.endpoint 50)) ∅ 51 VespaPool.ProbeRaises None
           Hnd Hx0 Htarget).
Defined.

(** * Properties of the tenant resolver *)

Section Resolver.

Import TenantTracking.

Variable MULTI_TENANT : bool.
Variable POSTGRES_DEFAULT_SCHEMA : string.
Variable TENANT_ISOLATION_MODE : string.
Variable ANONYMOUS_USER_COOKIE_NAME : string.
Variable TENANT_ID_COOKIE_NAME : string.
Variable is_valid_schema_name : string -> bool.
Variable decode_anonymous_user_jwt_token : string -> Result (gmap string (option string)).

#[local] Abbreviation _lookup_tenant_infrastructure :=
  (TenantTracking._lookup_tenant_infrastructure).
#[local] Abbreviation return_identity :=
  (TenantTracking.return_identity TENANT_ISOLATION_MODE).
#[local] Abbreviation try_block :=
  (TenantTracking.try_block POSTGRES_DEFAULT_SCHEMA TENANT_ISOLATION_MODE
     ANONYMOUS_USER_COOKIE_NAME is_valid_schema_name decode_anonymous_user_jwt_token).
#[local] Abbreviation try_statement :=
  (TenantTracking.try_statement POSTGRES_DEFAULT_SCHEMA TENANT_ISOLATION_MODE
     ANONYMOUS_USER_COOKIE_NAME TENANT_ID_COOKIE_NAME is_valid_schema_name
     decode_anonymous_user_jwt_token).
#[local] Abbreviation _get_tenant_info_from_request :=
  (TenantTracking._get_tenant_info_from_request POSTGRES_DEFAULT_SCHEMA
     TENANT_ISOLATION_MODE ANONYMOUS_USER_COOKIE_NAME TENANT_ID_COOKIE_NAME
     is_valid_schema_name decode_anonymous_user_jwt_token).
#[local] Abbreviation set_tenant_id :=
  (TenantTracking.set_tenant_id MULTI_TENANT POSTGRES_DEFAULT_SCHEMA
     TENANT_ISOLATION_MODE ANONYMOUS_USER_COOKIE_NAME TENANT_ID_COOKIE_NAME
     is_valid_schema_name decode_anonymous_user_jwt_token).

Implicit Types (request : Request) (w : World) (o : string).

(** The query log of the platform session. *)
#[local] Abbreviation log w := (TenantRegistry.executed (platform_session w)).

(** A lookup leaves the query log as it was or adds its organization. *)
Lemma lookup_log o w :
  log (_lookup_tenant_infrastructure o w).2 = log w
  ∨ log (_lookup_tenant_infrastructure o w).2 = o :: log w.
Proof.
  unfold TenantTracking._lookup_tenant_infrastructure.
  pose proof (get_executed (registry w) o (platform_session w) false (now w)) as H.
  destruct (TenantRegistry.get_tenant_infrastructure _ _ _ _ _) as [[r reg] s].
  cbn [snd] in H.
  destruct r as [[]|i]; cbn; done.
Qed.

Lemma cons_neq {A} (x : A) (l : list A) : l ≠ x :: l.
Proof. intros H. apply (f_equal length) in H. cbn in H. lia. Qed.

(** The registry raises [TenantNotProvisionedError] for [o]. *)
#[local] Abbreviation not_provisioned w o :=
  ((TenantRegistry.get_tenant_infrastructure (registry w) o (platform_session w)
      false (now w)).1.1 = inl (TenantNotProvisionedError o)).

(** A lookup that queried [o] while [o] is not provisioned returns no
    locators. *)
Lemma lookup_not_provisioned o' o w r w' :
  not_provisioned w o →
  _lookup_tenant_infrastructure o' w = (r, w') →
  log w' = o :: log w →
  r = inr (None, None).
Proof.
  intros Hnp Hl Hlog.
  assert (o' = o) as ->.
  { destruct (lookup_log o' w) as [H|H]; rewrite Hl in H; cbn in H.
    - rewrite H in Hlog. by apply cons_neq in Hlog.
    - congruence. }
  revert Hl. unfold TenantTracking._lookup_tenant_infrastructure.
  destruct (TenantRegistry.get_tenant_infrastructure _ _ _ _ _) as [[x reg] s].
  cbn in Hnp. subst x. by intros [= <- _].
Qed.

Ltac np_lookup Hnp :=
  match goal with
  | Hl : TenantTracking._lookup_tenant_infrastructure ?o' ?w = (?r, ?w'),
    Hlog : TenantRegistry.executed (platform_session ?w') = _ :: _ |- _ =>
      pose proof (lookup_not_provisioned _ _ _ _ _ Hnp Hl Hlog); simplify_eq
  end.

Lemma return_identity_not_provisioned id o w :
  not_provisioned w o →
  log (return_identity id w).2 = o :: log w →
  (return_identity id w).1 = inr (id, Some id, None, None).
Proof.
  intros Hnp. unfold TenantTracking.return_identity.
  case_bool_decide as E; cbn.
  - destruct (_lookup_tenant_infrastructure id w) as [r w'] eqn:Hl.
    destruct r as [e|[db vs]]; cbn; intros Hlog; by np_lookup Hnp.
  - intros H. by apply cons_neq in H.
Qed.

Lemma try_block_not_provisioned request o w :
  not_provisioned w o →
  log (try_block request w).2 = o :: log w →
  db_url (try_block request w).1.2 = None
  ∧ vespa_url (try_block request w).1.2 = None.
Proof.
  intros Hnp.
  unfold TenantTracking.try_block, TenantTracking.token_branch,
    TenantTracking.cookie_step, TenantTracking.anonymous_branch,
    TenantTracking.return_default.
  repeat (case_match; simplify_eq; cbn [fst snd db_url vespa_url]; try done).
  all: intros Hlog; by np_lookup Hnp.
Qed.

(** The [finally] block returns at both of its ends. *)
Lemma finally_block_returns request (l : Locals) :
  ∃ t org,
    finally_block POSTGRES_DEFAULT_SCHEMA TENANT_ID_COOKIE_NAME is_valid_schema_name
      request l
    = Some (t, org, db_url l, vespa_url l)
    ∨ finally_block POSTGRES_DEFAULT_SCHEMA TENANT_ID_COOKIE_NAME is_valid_schema_name
        request l
      = Some (t, org, None, None).
Proof.
  unfold finally_block. repeat case_match; eauto.
Qed.

Lemma try_statement_not_provisioned request o w :
  not_provisioned w o →
  log (try_statement request w).2 = o :: log w →
  ∃ t org, (try_statement request w).1 = inr (t, org, None, None).
Proof.
  intros Hnp. unfold TenantTracking.try_statement.
  pose proof (try_block_not_provisioned request o w Hnp) as H.
  destruct (try_block request w) as [[pending l] w'].
  cbn [fst snd] in *. intros Hlog. destruct (H Hlog) as [Hdb Hvs].
  destruct (finally_block_returns request l) as (t & org & [->| ->]);
    rewrite ?Hdb, ?Hvs; cbn; eauto.
Qed.

(** C6: when the lookup that the resolver makes for a request finds the
    organization not provisioned (the registry raises
    [TenantNotProvisionedError] for the organization queried), the resolver
    raises nothing and returns no database and no search locator; the
    middleware then hands the request on in a context without locators, in
    which the pool falls back to the shared search endpoint. *)
Theorem not_provisioned_degrades request w o (VESPA_APP_CONTAINER_URL : string) :
  not_provisioned w o →
  log (_get_tenant_info_from_request request w).2 = o :: log w →
  (∃ t org, (_get_tenant_info_from_request request w).1 = inr (t, org, None, None))
  ∧ (MULTI_TENANT = true →
     ∃ ctx, (set_tenant_id request w ∅).1 = inr ctx
            ∧ ContextVars.get_current_db_url ctx = None
            ∧ ContextVars.get_current_vespa_url ctx = None
            ∧ VespaPool.get_tenant_vespa_url VESPA_APP_CONTAINER_URL ctx
              = VESPA_APP_CONTAINER_URL).
Proof.
  intros Hnp Hlog.
  assert (∃ t org, (_get_tenant_info_from_request request w).1 = inr (t, org, None, None))
    as (t & org & Hr).
  { revert Hlog. unfold TenantTracking._get_tenant_info_from_request,
      TenantTracking.after_header.
    repeat case_match; intros Hlog;
      eauto using return_identity_not_provisioned, try_statement_not_provisioned. }
  split; [eauto|]. intros ->.
  unfold TenantTracking.set_tenant_id.
  destruct (_get_tenant_info_from_request request w) as [res w'].
  cbn [fst] in Hr. subst res.
  eexists. split; [done|].
  unfold ContextVars.get_current_db_url, ContextVars.get_current_vespa_url,
    VespaPool.get_tenant_vespa_url, ContextVars.get_current_vespa_url,
    ContextVars.ContextVar_get.
  cbn [ContextVars.name ContextVars.CURRENT_DB_URL_CONTEXTVAR
       ContextVars.CURRENT_VESPA_URL_CONTEXTVAR ContextVars.var_default].
  rewrite !lookup_set_tenant_context.
  repeat (rewrite decide_False by done). rewrite !decide_True by done.
  rewrite lookup_empty. split; [done|]. split; [done|]. by case_match.
Qed.

(** Whatever the session-token and anonymous-cookie steps return or
    raise, the [try] statement returns; and without a tenant-override
    cookie it returns the default schema with no organization and no
    locators. *)
Lemma try_statement_returns request w :
  (∃ res, (try_statement request w).1 = inr res)
  ∧ (cookies request !! TENANT_ID_COOKIE_NAME = None →
     (try_statement request w).1 = inr (POSTGRES_DEFAULT_SCHEMA, None, None, None)).
Proof.
  unfold TenantTracking.try_statement.
  destruct (try_block request w) as [[pending l] w']. cbn [fst]. split.
  - destruct (finally_block_returns request l) as (t & org & [->| ->]); cbn; eauto.
  - intros Hc. unfold finally_block. rewrite Hc. by case_match.
Qed.

(** What the [try] block returns, unless it is the default tenant, is what
    its local variables hold. *)
Lemma try_block_returns_locals request w t org db vs (l : Locals) w' :
  try_block request w = (inr (t, org, db, vs), l, w') →
  t ≠ POSTGRES_DEFAULT_SCHEMA →
  tenant_id l = Some t ∧ db_url l = db ∧ vespa_url l = vs.
Proof.
  unfold TenantTracking.try_block, TenantTracking.token_branch,
    TenantTracking.cookie_step, TenantTracking.anonymous_branch,
    TenantTracking.return_default.
  repeat (case_match; simplify_eq; try done).
  all: intros; simplify_eq; done.
Qed.

(** C3, as amended: for a request that carries a well-formed
    tenant-override cookie and whose identity is resolved by the trusted
    header, or else by the credential claim, that identity is kept and the
    cookie is ignored: the resolver does what it does for the same request
    without the cookie, a returned tuple holds the identity as tenant id and
    as organization id, and no organization but the identity is looked
    up. *)
Theorem override_cookie_precedence request w c id :
  cookies request !! TENANT_ID_COOKIE_NAME = Some c →
  truthy (Some c) = true →
  is_valid_schema_name c = true →
  (headers request !! "X-Tenant-Id" = Some id
   ∧ truthy (Some id) && is_valid_schema_name id = true)
  ∨ ((∀ h, headers request !! "X-Tenant-Id" = Some h →
           truthy (Some h) && is_valid_schema_name h = false)
     ∧ auth_header_tenant request = Some id) →
  let r := _get_tenant_info_from_request request w in
  let without_cookie :=
    {| headers := headers request;
       cookies := delete TENANT_ID_COOKIE_NAME (cookies request);
       auth_header_tenant := auth_header_tenant request;
       redis_token_data := redis_token_data request |} in
  r = _get_tenant_info_from_request without_cookie w
  ∧ (∀ t org db vs, r.1 = inr (t, org, db, vs) → t = id ∧ org = Some id)
  ∧ (log r.2 = log w ∨ log r.2 = id :: log w).
Proof.
  intros Hc Hct Hcv Hid r without_cookie.
  assert (r = return_identity id w
          ∧ _get_tenant_info_from_request without_cookie w = return_identity id w)
    as [Hr Hr'].
  { subst r without_cookie.
    unfold TenantTracking._get_tenant_info_from_request, TenantTracking.after_header.
    cbn [headers auth_header_tenant].
    destruct Hid as [[Hh Hv]|[Hh Ha]].
    - by rewrite Hh, Hv.
    - rewrite Ha.
      destruct (headers request !! "X-Tenant-Id") as [h|] eqn:E; [|done].
      by rewrite (Hh h eq_refl). }
  split; [by rewrite Hr, Hr'|]. rewrite Hr. clear Hr Hr'.
  unfold TenantTracking.return_identity. case_bool_decide as E; cbn [fst snd].
  - pose proof (lookup_log id w) as Hlog.
    destruct (_lookup_tenant_infrastructure id w) as [[e|[db' vs']] w'];
      cbn [fst snd] in *.
    + split; [done|]. destruct Hlog; auto.
    + split; [|destruct Hlog; auto]. by intros t org db vs [= <- <- _ _].
  - split; [|by left]. by intros t org db vs [= <- <- _ _].
Qed.

End Resolver.

(** The request of [acct_8], which has no infrastructure row, is resolved
    without locators. *)
Lemma not_provisioned_degrades_witness :
  (TenantRegistry.get_tenant_infrastructure
     (TenantTracking.registry (Scenario.world "active")) "acct_8"
     (TenantTracking.platform_session (Scenario.world "active")) false
     (TenantTracking.now (Scenario.world "active"))).1.1
  = inl (TenantNotProvisionedError "acct_8")
  ∧ ∃ t org,
      (Scenario.resolve "database" Scenario.request_unprovisioned
         (Scenario.world "active")).1
      = inr (t, org, None, None).
Proof.
  assert ((TenantRegistry.get_tenant_infrastructure
             (TenantTracking.registry (Scenario.world "active")) "acct_8"
             (TenantTracking.platform_session (Scenario.world "active")) false
             (TenantTracking.now (Scenario.world "active"))).1.1
          = inl (TenantNotProvisionedError "acct_8")) as Hnp.
  { vm_compute. reflexivity. }
  split; [exact Hnp|].
  refine (proj1 (not_provisioned_degrades true Scenario.POSTGRES_DEFAULT_SCHEMA
                   "database" Scenario.ANONYMOUS_USER_COOKIE_NAME
                   Scenario.TENANT_ID_COOKIE_NAME (Scenario.is_valid_schema_name 63)
                   Scenario.decode_anonymous_user_jwt_token
                   Scenario.request_unprovisioned (Scenario.world "active") "acct_8"
                   Scenario.VESPA_APP_CONTAINER_URL Hnp _)).
  vm_compute. reflexivity.
Defined.

(** With the override cookie [org_9], the request with the trusted header
    [acct_7] is resolved as the request without the cookie is, to [acct_7]
    as tenant and organization. *)
Lemma override_cookie_precedence_witness :
  TenantTracking.cookies (Scenario.with_override Scenario.request_header)
    !! Scenario.TENANT_ID_COOKIE_NAME = Some "org_9"
  ∧ Scenario.is_valid_schema_name 63 "org_9" = true
  ∧ TenantTracking.headers (Scenario.with_override Scenario.request_header)
      !! "X-Tenant-Id" = Some "acct_7"
  ∧ (∀ t org db vs,
      (Scenario.resolve "database" (Scenario.with_override Scenario.request_header)
         (Scenario.world "active")).1 = inr (t, org, db, vs) →
      t = "acct_7" ∧ org = Some "acct_7").
Proof.
  assert (TenantTracking.cookies (Scenario.with_override Scenario.request_header)
            !! Scenario.TENANT_ID_COOKIE_NAME = Some "org_9") as Hc.
  { vm_compute. reflexivity. }
  assert (Scenario.is_valid_schema_name 63 "org_9" = true) as Hv.
  { vm_compute. reflexivity. }
  assert (TenantTracking.headers (Scenario.with_override Scenario.request_header)
            !! "X-Tenant-Id" = Some "acct_7") as Hh.
  { vm_compute. reflexivity. }
  assert (truthy (Some "acct_7") && Scenario.is_valid_schema_name 63 "acct_7" = true)
    as Hhv.
  { vm_compute. reflexivity. }
  split; [exact Hc|]. split; [exact Hv|]. split; [exact Hh|].
  pose proof (override_cookie_precedence Scenario.POSTGRES_DEFAULT_SCHEMA
                "database" Scenario.ANONYMOUS_USER_COOKIE_NAME
                Scenario.TENANT_ID_COOKIE_NAME (Scenario.is_valid_schema_name 63)
                Scenario.decode_anonymous_user_jwt_token
                (Scenario.with_override Scenario.request_header)
                (Scenario.world "active") "org_9" "acct_7"
                Hc eq_refl Hv (or_introl (conj Hh Hhv))) as H.
  cbv zeta in H. destruct H as (_ & H & _). exact H.
Defined.

(** C1: in scenario B the [try] block resolves tenant [org_7],
    organization [acct_7] and the search locator
    [http://vespa-7.internal:8081], but the [finally] block replaces this
    return value: the resolver returns the default schema without
    organization and without locators, and the middleware places no search
    locator in the context. *)
Theorem scenario_B_returns_default :
  TenantRegistry.vespa_url
    (TenantRegistry.infrastructure_of_row
       (Scenario.row "acct_7" "vespa-7.internal" "active"))
  = "http://vespa-7.internal:8081"
  ∧ (Scenario.try_block "database" Scenario.request_B (Scenario.world "active")).1.1
    = inr ("org_7", Some "acct_7",
           Some "postgresql://db-7.internal:5432/oceanic_acct_7",
           Some "http://vespa-7.internal:8081")
  ∧ (Scenario.resolve "database" Scenario.request_B (Scenario.world "active")).1
    = inr ("public", None, None, None)
  ∧ ∃ ctx,
      (Scenario.middleware "database" Scenario.request_B (Scenario.world "active") ∅).1
      = inr ctx
      ∧ ContextVars.get_current_tenant_id true "public" ctx = inr "public"
      ∧ ContextVars.get_current_org_id ctx = None
      ∧ ContextVars.get_current_vespa_url ctx = None.
Proof.
  split; [vm_compute; reflexivity|].
  split; [vm_compute; reflexivity|].
  split; [vm_compute; reflexivity|].
  eexists. split; [reflexivity|].
  split; [vm_compute; reflexivity|].
  split; vm_compute; reflexivity.
Qed.

(** C2: with [acct_7] suspended, the request fails with the
    access-denied error on the trusted-header and credential paths, but on
    the session-token and anonymous-cookie paths the [finally] block
    replaces the pending error: the resolver returns the default schema and
    the middleware hands the request on with a populated context. *)
Theorem scenario_C_suspension_swallowed :
  let denied :=
    HTTPException 403 "Organization access suspended. Please contact support." in
  (Scenario.resolve "database" Scenario.request_header (Scenario.world "suspended")).1
  = inl denied
  ∧ (Scenario.resolve "database" Scenario.request_credential
       (Scenario.world "suspended")).1
    = inl denied
  ∧ (Scenario.try_block "database" Scenario.request_B (Scenario.world "suspended")).1.1
    = inl denied
  ∧ (Scenario.resolve "database" Scenario.request_B (Scenario.world "suspended")).1
    = inr ("public", None, None, None)
  ∧ (Scenario.resolve "database" Scenario.request_anonymous
       (Scenario.world "suspended")).1
    = inr ("public", None, None, None)
  ∧ ∃ ctx,
      (Scenario.middleware "database" Scenario.request_B
         (Scenario.world "suspended") ∅).1
      = inr ctx
      ∧ ContextVars.get_current_tenant_id true "public" ctx = inr "public".
Proof.
  intros denied.
  split; [vm_compute; reflexivity|].
  split; [vm_compute; reflexivity|].
  split; [vm_compute; reflexivity|].
  split; [vm_compute; reflexivity|].
  split; [vm_compute; reflexivity|].
  eexists. split; [reflexivity|]. vm_compute. reflexivity.
Qed.

(** C3, as stated, fails: with the well-formed override cookie [org_9],
    the request that carries the trusted header [acct_7] is resolved to
    [acct_7] as tenant and organization, not to [org_9], and the only
    organization looked up is [acct_7]. *)
Lemma override_cookie_counterexample :
  let r :=
    Scenario.resolve "database" (Scenario.with_override Scenario.request_header)
      (Scenario.world "active") in
  TenantTracking.cookies (Scenario.with_override Scenario.request_header)
    !! Scenario.TENANT_ID_COOKIE_NAME = Some "org_9"
  ∧ Scenario.is_valid_schema_name 63 "org_9" = true
  ∧ r.1 = inr ("acct_7", Some "acct_7",
               Some "postgresql://db-7.internal:5432/oceanic_acct_7",
               Some "http://vespa-7.internal:8081")
  ∧ (∀ org db vs, r.1 ≠ inr ("org_9", org, db, vs))
  ∧ TenantRegistry.executed (TenantTracking.platform_session r.2) = ["acct_7"].
Proof.
  intros r.
  assert (r.1 = inr ("acct_7", Some "acct_7",
                     Some "postgresql://db-7.internal:5432/oceanic_acct_7",
                     Some "http://vespa-7.internal:8081")) as Hr.
  { vm_compute. reflexivity. }
  split; [vm_compute; reflexivity|]. split; [vm_compute; reflexivity|].
  split; [exact Hr|]. split.
  - intros org db vs H. rewrite Hr in H. discriminate H.
  - vm_compute. reflexivity.
Qed.

(** * Further properties of the context store *)

Section ContextStoreMore.

Variable MULTI_TENANT : bool.
Variable POSTGRES_DEFAULT_SCHEMA : string.

#[local] Abbreviation set_tenant_context :=
  (ContextVars.set_tenant_context MULTI_TENANT POSTGRES_DEFAULT_SCHEMA).
#[local] Abbreviation reset_tenant_context :=
  (ContextVars.reset_tenant_context MULTI_TENANT POSTGRES_DEFAULT_SCHEMA).
#[local] Abbreviation get_current_tenant_id :=
  (ContextVars.get_current_tenant_id MULTI_TENANT POSTGRES_DEFAULT_SCHEMA).

(** The search URL read after a [set_tenant_context] that passes one. *)
Lemma get_current_vespa_url_set (ctx : ContextVars.Context) (t o d : option string)
    (u m : string) :
  ContextVars.get_current_vespa_url (set_tenant_context t o d (Some u) m ctx).2 = Some u.
Proof.
  unfold ContextVars.get_current_vespa_url, ContextVars.ContextVar_get.
  change (ContextVars.name ContextVars.CURRENT_VESPA_URL_CONTEXTVAR)
    with "current_vespa_url".
  rewrite lookup_set_tenant_context.
  rewrite decide_False by done. by rewrite decide_True.
Qed.

(** X1: after [set_tenant_context], each getter gives the argument that was
    passed, or, for an argument that is [None], what it gave before; with a
    tenant id passed, [get_current_tenant_id] does not raise, whether
    multi-tenancy is enabled or not. *)
Theorem getters_after_set_tenant_context
    (ctx : ContextVars.Context) (t o d v : option string) (m : string) :
  let ctx' := (set_tenant_context t o d v m ctx).2 in
  get_current_tenant_id ctx'
    = match t with Some x => inr x | None => get_current_tenant_id ctx end
  ∧ ContextVars.get_current_org_id ctx'
    = match o with Some _ => o | None => ContextVars.get_current_org_id ctx end
  ∧ ContextVars.get_current_db_url ctx'
    = match d with Some _ => d | None => ContextVars.get_current_db_url ctx end
  ∧ ContextVars.get_current_vespa_url ctx'
    = match v with Some _ => v | None => ContextVars.get_current_vespa_url ctx end
  ∧ ContextVars.get_tenant_isolation_mode ctx' = Some m
  ∧ ContextVars.is_full_database_isolation ctx' = bool_decide (m = "database").
Proof.
  intros ctx'. subst ctx'.
  unfold ContextVars.is_full_database_isolation.
  rewrite get_tenant_isolation_mode_set.
  unfold ContextVars.get_current_tenant_id, ContextVars.get_current_org_id,
    ContextVars.get_current_db_url, ContextVars.get_current_vespa_url,
    ContextVars.ContextVar_get.
  cbn [ContextVars.name ContextVars.var_default
       ContextVars.CURRENT_TENANT_ID_CONTEXTVAR ContextVars.CURRENT_ORG_ID_CONTEXTVAR
       ContextVars.CURRENT_DB_URL_CONTEXTVAR ContextVars.CURRENT_VESPA_URL_CONTEXTVAR].
  rewrite !lookup_set_tenant_context.
  repeat (rewrite decide_False by done). rewrite !decide_True by done.
  repeat split.
  - by destruct t.
  - by destruct o.
  - by destruct d.
  - by destruct v.
  - apply bool_decide_ext. split; congruence.
Qed.

(** One [reset] step on a token that has been consumed. *)
Lemma reset_if_in_used key v (tokens : gmap string ContextVars.Token)
    (ctx : ContextVars.Context) var old :
  tokens !! key
  = Some {| ContextVars.tok_var := var;
            ContextVars.tok_old_value := old;
            ContextVars.tok_used := true |} →
  ContextVars.reset_if_in key v (None, (tokens, ctx))
  = (Some (RuntimeError "Token has already been used once"), (tokens, ctx)).
Proof.
  intros H. unfold ContextVars.reset_if_in, ContextVars.ContextVar_reset.
  cbn. by rewrite H.
Qed.

(** Once a [reset] has raised, the remaining steps are not run. *)
Lemma reset_if_in_raised key v e (st : gmap string ContextVars.Token * ContextVars.Context) :
  ContextVars.reset_if_in key v (Some e, st) = (Some e, st).
Proof. done. Qed.

Ltac reset_fresh :=
  first [ erewrite reset_if_in_Some by (by simplify_map_eq)
        | rewrite reset_if_in_None by (by simplify_map_eq) ].

Ltac reset_again :=
  first [ rewrite reset_if_in_raised
        | erewrite reset_if_in_used by (by simplify_map_eq)
        | rewrite reset_if_in_None by (by simplify_map_eq) ].

(** X2: a second [reset_tenant_context] with the tokens of a
    [set_tenant_context] that have already been reset raises [RuntimeError]
    and leaves the context and the tokens as the first reset left them. *)
Theorem reset_tenant_context_twice
    (ctx : ContextVars.Context) (t o d v : option string) (m : string) :
  let st := set_tenant_context t o d v m ctx in
  let r1 := reset_tenant_context st.1 st.2 in
  r1.1 = None
  ∧ r1.2.2 = ctx
  ∧ reset_tenant_context r1.2.1 r1.2.2
    = (Some (RuntimeError "Token has already been used once"), r1.2).
Proof.
  intros st r1. subst st r1.
  destruct t, o, d, v;
    unfold ContextVars.set_tenant_context, ContextVars.set_if_not_None,
      ContextVars.ContextVar_set; cbn [fst snd].
  all: unfold ContextVars.reset_tenant_context at 1 2 4 5 6.
  all: do 5 reset_fresh; cbn [fst snd].
  all: split; [done|].
  all: split; [apply map_eq; intros i; rewrite ?lookup_restore_value, ?lookup_insert;
               repeat case_decide; simplify_eq; done|].
  all: unfold ContextVars.reset_tenant_context.
  all: do 5 reset_again; done.
Qed.

End ContextStoreMore.

(** * Further properties of the infrastructure registry *)

Section RegistryMore.

Import TenantRegistry.

Implicit Types (self : Registry) (o : string) (s : Session) (now : Z).

(** X3: after [invalidate_cache], for one organization or for all, the
    next lookup of that organization queries the store; invalidating one
    organization leaves the entries of the others in place, invalidating
    all leaves none, and the TTL is kept. *)
Theorem invalidate_cache_forces_query self o s now (k : string) :
  executed (get_tenant_infrastructure (invalidate_cache self (Some o)) o s false now).2
  = o :: executed s
  ∧ executed (get_tenant_infrastructure (invalidate_cache self None) o s false now).2
    = o :: executed s
  ∧ _cache (invalidate_cache self (Some o)) !! o = None
  ∧ (k ≠ o → _cache (invalidate_cache self (Some o)) !! k = _cache self !! k)
  ∧ _cache (invalidate_cache self None) = ∅
  ∧ _ttl_seconds (invalidate_cache self (Some o)) = _ttl_seconds self
  ∧ _ttl_seconds (invalidate_cache self None) = _ttl_seconds self.
Proof.
  assert (_cache (invalidate_cache self (Some o)) !! o = None) as Hone.
  { cbn. case_bool_decide as E; cbn.
    - apply lookup_delete_eq.
    - destruct (_cache self !! o) eqn:Ho; [|done]. destruct E. eauto. }
  assert (∀ self0, _cache self0 !! o = None →
    executed (get_tenant_infrastructure self0 o s false now).2 = o :: executed s) as Hq.
  { intros self0 Hn.
    destruct (get_miss self0 o s false now) as (self1 & -> & _).
    - right. intros (e & He & _). congruence.
    - apply query_and_cache_executes. }
  split; [by apply Hq|]. split; [by apply Hq|]. split; [done|].
  split; [|split; [done|split; [|done]]].
  - intros Hk. cbn. case_bool_decide; cbn; [|done]. by rewrite lookup_delete_ne.
  - cbn. by case_bool_decide.
Qed.

(** X4: a lookup that raises has queried the store and has cached nothing:
    every entry in the cache afterwards was there before; and unless the
    cache was bypassed, the organization has no entry afterwards. *)
Theorem failed_lookup_caches_nothing self o s bypass now (e : Exception) :
  let r := get_tenant_infrastructure self o s bypass now in
  r.1.1 = inl e →
  executed r.2 = o :: executed s
  ∧ (∀ k entry, _cache r.1.2 !! k = Some entry → _cache self !! k = Some entry)
  ∧ (bypass = false → _cache r.1.2 !! o = None)
  ∧ (bypass = true → r.1.2 = self).
Proof.
  intros r Hr. subst r.
  assert (bypass = true ∨
          ¬ (∃ entry, _cache self !! o = Some entry
                      ∧ is_expired entry (_ttl_seconds self) now = false)) as Hmiss.
  { destruct bypass; [by left|]. right. intros (entry & He & Hx).
    rewrite (get_hit _ _ _ _ entry He Hx) in Hr. done. }
  split.
  { destruct (get_miss self o s bypass now Hmiss) as (self0 & -> & _).
    apply query_and_cache_executes. }
  split.
  { intros k entry Hk.
    destruct (get_cache_lookup _ _ _ _ _ _ _ Hk) as [?|[-> Hq]]; [done|].
    exfalso. revert Hr. unfold get_tenant_infrastructure, query_and_cache.
    destruct (_query_tenant_infrastructure o s) as [[x|i] s'] eqn:E; [done|].
    cbn in Hq. destruct (negb bypass); [|done].
    by destruct (_get_from_cache self o now) as [[c|] self1]. }
  split.
  - intros ->. destruct Hmiss as [?|Hno]; [done|].
    revert Hr. unfold get_tenant_infrastructure. cbn.
    destruct (_get_from_cache_miss self o now Hno) as (self1 & -> & _ & Hn & _).
    unfold query_and_cache.
    by destruct (_query_tenant_infrastructure o s) as [[x|i] s'].
  - intros ->. revert Hr. unfold get_tenant_infrastructure. cbn.
    unfold query_and_cache.
    by destruct (_query_tenant_infrastructure o s) as [[x|i] s'].
Qed.

(** X5: the answer of the store decides the outcome of a lookup that
    reaches it: no row raises [TenantNotProvisionedError] for the
    organization looked up, a row with status ["suspended"] raises
    [TenantSuspendedError], an exception of the store is raised as it is,
    and any other row, also one that is still ["provisioning"], is
    returned. *)
Theorem lookup_outcome_by_store self o s bypass now :
  bypass = true
  ∨ ¬ (∃ entry, _cache self !! o = Some entry
                ∧ is_expired entry (_ttl_seconds self) now = false) →
  (get_tenant_infrastructure self o s bypass now).1.1
  = match store s o with
    | FetchRaises e => inl e
    | FetchOne None => inl (TenantNotProvisionedError o)
    | FetchOne (Some row) =>
        if bool_decide (col_status row = "suspended")
        then inl (TenantSuspendedError o)
        else inr (infrastructure_of_row row)
    end.
Proof.
  intros Hmiss.
  destruct (get_miss self o s bypass now Hmiss) as (self0 & -> & _).
  unfold query_and_cache, _query_tenant_infrastructure, execute.
  destruct (store s o) as [e|[row|]]; cbn; try done.
  unfold is_suspended. cbn. by case_bool_decide.
Qed.

(** X6: the TTL in force at the lookup decides expiry, also for entries
    cached before [set_ttl]: an entry cached at [cached_at] is returned
    without a query when [now - cached_at <= ttl] for the TTL just set, and
    otherwise the store is queried. *)
Theorem set_ttl_applies_to_cached_entries self o s now (ttl : Z) entry :
  _cache self !! o = Some entry →
  let r := get_tenant_infrastructure (set_ttl self ttl) o s false now in
  (now - cached_at entry ≤ ttl →
   r = (inr (infrastructure entry), set_ttl self ttl, s))
  ∧ (now - cached_at entry > ttl → executed r.2 = o :: executed s).
Proof.
  intros He r. subst r. split.
  - intros Hin. apply (get_hit _ _ _ _ entry); [done|].
    unfold is_expired. cbn. apply bool_decide_false. lia.
  - intros Hout.
    destruct (get_miss (set_ttl self ttl) o s false now) as (self0 & -> & _).
    + right. intros (e' & He' & Hx). cbn in He'. rewrite He in He'.
      injection He' as <-. unfold is_expired in Hx. cbn in Hx.
      apply bool_decide_eq_false in Hx. lia.
    + apply query_and_cache_executes.
Qed.

End RegistryMore.

(** The registry that cached [acct_7] at time 0 raises on a lookup that
    bypasses the cache while the store reports the organization suspended,
    and keeps its cache. *)
Lemma failed_lookup_caches_nothing_witness :
  let r :=
    TenantRegistry.get_tenant_infrastructure Scenario.registry_cached_active
      "acct_7" (Scenario.session "suspended") true 10 in
  r.1.1 = inl (TenantSuspendedError "acct_7")
  ∧ r.1.2 = Scenario.registry_cached_active.
Proof.
  intros r.
  assert (r.1.1 = inl (TenantSuspendedError "acct_7")) as Hr.
  { vm_compute. reflexivity. }
  split; [exact Hr|].
  destruct (failed_lookup_caches_nothing Scenario.registry_cached_active "acct_7"
              (Scenario.session "suspended") true 10 _ Hr) as (_ & _ & _ & H).
  exact (H eq_refl).
Defined.

(** A lookup on a fresh registry reaches the store. *)
Lemma lookup_outcome_by_store_witness :
  (TenantRegistry.get_tenant_infrastructure TenantRegistry.init "acct_8"
     (Scenario.session "active") false 0).1.1
  = inl (TenantNotProvisionedError "acct_8").
Proof.
  rewrite (lookup_outcome_by_store TenantRegistry.init "acct_8"
             (Scenario.session "active") false 0).
  - vm_compute. reflexivity.
  - right. intros (e & He & _). cbn in He. by rewrite lookup_empty in He.
Defined.

(** With the TTL set to 1, the record cached at time 0 is not served at
    time 10. *)
Lemma set_ttl_applies_to_cached_entries_witness :
  TenantRegistry.executed
    (TenantRegistry.get_tenant_infrastructure
       (TenantRegistry.set_ttl Scenario.registry_cached_active 1)
       "acct_7" (Scenario.session "active") false 10).2
  = ["acct_7"].
Proof.
  destruct (TenantRegistry._cache Scenario.registry_cached_active !! "acct_7")
    as [entry|] eqn:E; [|vm_compute in E; discriminate E].
  destruct (set_ttl_applies_to_cached_entries Scenario.registry_cached_active "acct_7"
              (Scenario.session "active") 10 1 entry E) as [_ H].
  apply H. vm_compute in E. injection E as <-. vm_compute. reflexivity.
Defined.

(** Invalidating [acct_7] in the registry that cached it sends the next
    lookup to the store and leaves the slot of [org_9] as it was. *)
Lemma invalidate_cache_forces_query_witness :
  TenantRegistry.executed
    (TenantRegistry.get_tenant_infrastructure
       (TenantRegistry.invalidate_cache Scenario.registry_cached_active (Some "acct_7"))
       "acct_7" (Scenario.session "active") false 1).2
  = "acct_7" :: TenantRegistry.executed (Scenario.session "active")
  ∧ "org_9" ≠ "acct_7"
  ∧ TenantRegistry._cache
      (TenantRegistry.invalidate_cache Scenario.registry_cached_active (Some "acct_7"))
      !! "org_9"
    = TenantRegistry._cache Scenario.registry_cached_active !! "org_9".
Proof.
  assert ("org_9" ≠ "acct_7") as Hne by discriminate.
  destruct (invalidate_cache_forces_query Scenario.registry_cached_active "acct_7"
              (Scenario.session "active") 1 "org_9") as (H1 & _ & _ & H4 & _).
  split; [exact H1|]. split; [exact Hne|]. exact (H4 Hne).
Defined.

(** * Further properties of the connection pool *)

Section PoolMore.

Import VespaPool.

Variable VESPA_APP_CONTAINER_URL : string.

Implicit Types (d : ClientDict) (k u : string) (v c : CachedVespaClient).
Implicit Types (self : Pool) (cl : Client) (x : string * CachedVespaClient).

#[local] Abbreviation get_client := (VespaPool.get_client VESPA_APP_CONTAINER_URL).
#[local] Abbreviation _resolve_vespa_url :=
  (VespaPool._resolve_vespa_url VESPA_APP_CONTAINER_URL).
#[local] Abbreviation run := (VespaPool.run VESPA_APP_CONTAINER_URL).

(** The rank of construction of the client of an entry. *)
#[local] Abbreviation rank := (λ x : string * CachedVespaClient, serial (client x.2)).

(** ** More on the dictionary *)

Lemma elem_of_dict_store d k v x :
  NoDup d.*1 → x ∈ dict_store d k v → x = (k, v) ∨ (x ∈ d ∧ x.1 ≠ k).
Proof.
  induction d as [|[k0 v0] d IH]; cbn.
  - intros _ ->%list_elem_of_singleton. by left.
  - rewrite NoDup_cons. intros [Hk0 Hd]. case_bool_decide as E.
    + subst k0. intros [->|Hx]%elem_of_cons; [by left|]. right.
      split; [by apply list_elem_of_further|].
      intros Hk. apply Hk0. subst k. apply list_elem_of_fmap. by exists x.
    + intros [->|Hx]%elem_of_cons.
      * right. split; [apply list_elem_of_here|done].
      * destruct (IH Hd Hx) as [?|[? ?]]; [by left|right].
        split; [by apply list_elem_of_further|done].
Qed.

Lemma elem_of_dict_remove_ne d k x :
  NoDup d.*1 → x ∈ dict_remove d k → x ∈ d ∧ x.1 ≠ k.
Proof.
  induction d as [|[k0 v0] d IH]; cbn.
  - intros _ Hx. by apply elem_of_nil in Hx.
  - rewrite NoDup_cons. intros [Hk0 Hd]. case_bool_decide as E.
    + subst k0. intros Hx. split; [by apply list_elem_of_further|].
      intros Hk. apply Hk0. subst k. apply list_elem_of_fmap. by exists x.
    + intros [->|Hx]%elem_of_cons.
      * split; [apply list_elem_of_here|done].
      * destruct (IH Hd Hx). split; [by apply list_elem_of_further|done].
Qed.

Lemma dict_remove_store d k v : dict_remove (dict_store d k v) k = dict_remove d k.
Proof.
  induction d as [|[k0 v0] d IH]; cbn.
  - by rewrite bool_decide_true.
  - case_bool_decide as E; cbn.
    + by rewrite bool_decide_true.
    + rewrite bool_decide_false by done. by rewrite IH.
Qed.

Lemma fmap_rank_dict_store d k v old :
  dict_lookup d k = Some old → client v = client old →
  rank <$> dict_store d k v = rank <$> d.
Proof.
  intros Hl Hc. induction d as [|[k0 v0] d IH]; cbn in *; [done|].
  case_bool_decide as E; cbn.
  - injection Hl as ->. by rewrite Hc.
  - by rewrite IH.
Qed.

Lemma NoDup_rank_dict_remove d k :
  NoDup (rank <$> d) → NoDup (rank <$> dict_remove d k).
Proof.
  induction d as [|[k0 v0] d IH]; cbn; [done|].
  rewrite NoDup_cons. intros [Hx Hd].
  case_bool_decide as E; [done|]. cbn. apply NoDup_cons. split; [|auto].
  intros (y & Hy1 & Hy2)%list_elem_of_fmap. apply Hx.
  apply list_elem_of_fmap. exists y. split; [done|].
  by eapply elem_of_dict_remove.
Qed.

Lemma rank_inj d x y :
  NoDup (rank <$> d) → x ∈ d → y ∈ d → rank x = rank y → x = y.
Proof.
  induction d as [|z d IH]; cbn.
  - intros _ Hx. by apply elem_of_nil in Hx.
  - rewrite NoDup_cons. intros [Hz Hd] [->|Hx]%elem_of_cons [->|Hy]%elem_of_cons Hr.
    + done.
    + destruct Hz. apply list_elem_of_fmap. by exists y.
    + destruct Hz. apply list_elem_of_fmap. by exists x.
    + auto.
Qed.

(** ** Consistency of the pool *)

(** The keys are distinct, no two entries hold the same client, every
    entry is healthy and is filed under the endpoint its client is bound
    to, no client of the pool has been closed, and every client was
    constructed by the pool. *)
#[local] Abbreviation consistent self :=
  (NoDup (_clients self).*1
   ∧ NoDup (rank <$> _clients self)
   ∧ (∀ x, x ∈ _clients self →
        is_healthy x.2 = true
        ∧ vespa_url x.2 = x.1
        ∧ base_url (client x.2) = x.1
        ∧ Nat.lt (serial (client x.2)) (constructed self)
        ∧ client x.2 ∉ closed self)
   ∧ (∀ cl, cl ∈ closed self → Nat.lt (serial cl) (constructed self))).

Lemma consistent_init : consistent init.
Proof.
  cbn. split; [constructor|]. split; [constructor|].
  split; [intros x Hx; by apply elem_of_nil in Hx|].
  intros cl Hcl. by apply elem_of_nil in Hcl.
Qed.

Lemma consistent_remove_client self u :
  consistent self → consistent (_remove_client self u).
Proof.
  intros (Hk & Hr & He & Hc). unfold _remove_client.
  destruct (dict_lookup (_clients self) u) as [c|] eqn:E; [|done]. cbn.
  pose proof (dict_lookup_elem_of _ _ _ E) as Hin.
  split; [by apply NoDup_dict_remove|].
  split; [by apply NoDup_rank_dict_remove|]. split.
  - intros x Hx. destruct (elem_of_dict_remove_ne _ _ _ Hk Hx) as [Hxd Hxu].
    destruct (He x Hxd) as (? & ? & ? & ? & Hnc). repeat split; try done.
    apply not_elem_of_cons. split; [|done]. intros Heq.
    assert (x = (u, c)) as -> by (apply (rank_inj (_clients self)); cbn; congruence).
    done.
  - intros cl [->|Hcl]%elem_of_cons; [|auto].
    by destruct (He _ Hin) as (_ & _ & _ & ? & _).
Qed.

Lemma lookup_remove_client_None self u k :
  NoDup (_clients self).*1 →
  dict_lookup (_clients self) k = None ∨ k = u →
  dict_lookup (_clients (_remove_client self u)) k = None.
Proof.
  intros Hk H. unfold _remove_client.
  destruct (dict_lookup (_clients self) u) as [c|] eqn:E; cbn.
  - rewrite dict_lookup_remove by done. case_decide; [done|].
    destruct H; [done|congruence].
  - destruct H as [? | ->]; done.
Qed.

Lemma consistent_evict self :
  consistent self → consistent (_evict_oldest_client self).
Proof.
  intros H. unfold _evict_oldest_client.
  destruct (oldest (_clients self)) as [[u c]|]; [|done].
  by apply consistent_remove_client.
Qed.

Lemma lookup_evict_None self k :
  NoDup (_clients self).*1 →
  dict_lookup (_clients self) k = None →
  dict_lookup (_clients (_evict_oldest_client self)) k = None.
Proof.
  intros Hk H. unfold _evict_oldest_client.
  destruct (oldest (_clients self)) as [[u c]|]; [|done].
  apply lookup_remove_client_None; auto.
Qed.

Lemma consistent_update self k old c :
  consistent self →
  dict_lookup (_clients self) k = Some old →
  client c = client old → vespa_url c = vespa_url old → is_healthy c = true →
  consistent {| _clients := dict_store (_clients self) k c;
                closed := closed self;
                constructed := constructed self |}.
Proof.
  intros (Hk & Hr & He & Hc) Hl Hcl Hurl Hh. cbn.
  pose proof (dict_lookup_elem_of _ _ _ Hl) as Hin.
  split; [by apply NoDup_dict_store|].
  split; [by rewrite (fmap_rank_dict_store _ _ _ old)|].
  split; [|done].
  intros x Hx. destruct (elem_of_dict_store _ _ _ _ Hk Hx) as [->|[Hxd _]]; [|auto].
  destruct (He _ Hin) as (_ & ? & ? & ? & ?). cbn in *.
  rewrite Hcl, Hurl. done.
Qed.

Lemma consistent_on_miss self target now create_error :
  consistent self →
  dict_lookup (_clients self) target = None →
  consistent (on_miss self target now create_error).2.
Proof.
  intros Hself Hl. unfold on_miss.
  set (self1 := if bool_decide _ then _ else _).
  assert (consistent self1 ∧ dict_lookup (_clients self1) target = None)
    as [(Hk & Hr & He & Hc) Hl1].
  { subst self1. case_bool_decide; [|done]. split.
    - by apply consistent_evict.
    - apply lookup_evict_None; [apply Hself|done]. }
  destruct create_error; cbn [snd]; [done|]. cbn.
  split; [by apply NoDup_dict_store|].
  rewrite dict_store_absent by done. split.
  - rewrite fmap_app. cbn. apply NoDup_app. split; [done|].
    split; [|apply NoDup_singleton].
    intros r (x & -> & Hx)%list_elem_of_fmap Heq%list_elem_of_singleton.
    destruct (He x Hx) as (_ & _ & _ & ? & _). cbn in Heq. lia.
  - split.
    + intros x [Hx| ->%list_elem_of_singleton]%elem_of_app.
      * destruct (He x Hx) as (? & ? & ? & ? & ?). repeat split; try done. lia.
      * cbn. repeat split; try done; [lia|].
        intros Hin. specialize (Hc _ Hin). cbn in Hc. lia.
    + intros cl Hcl. specialize (Hc _ Hcl). lia.
Qed.

(** The two ways out of the hit branch: the cached client is healthy and
    is returned, its entry updated in place; or it is not, and the entry is
    removed and its client closed. *)
Lemma on_hit_cases self target cached probe now :
  dict_lookup (_clients self) target = Some cached →
  ∃ c2, client c2 = client cached ∧ vespa_url c2 = vespa_url cached
        ∧ last_access c2 = now
        ∧ ((is_healthy c2 = true
            ∧ on_hit self target cached probe now
              = (Some (client cached),
                 {| _clients := dict_store (_clients self) target c2;
                    closed := closed self;
                    constructed := constructed self |}))
           ∨ (is_healthy c2 = false
              ∧ on_hit self target cached probe now
                = (None, _remove_client self target))).
Proof.
  intros Hl. unfold on_hit.
  match goal with |- context [if is_healthy ?x then _ else _] => set (c2 := x) end.
  assert (client c2 = client cached ∧ vespa_url c2 = vespa_url cached
          ∧ last_access c2 = now) as (Hc & Hu & Ha).
  { subst c2. by destruct (_should_health_check _ _). }
  exists c2. split; [done|]. split; [done|]. split; [done|].
  destruct (is_healthy c2) eqn:Hh.
  - left. by rewrite Hc.
  - right. split; [done|]. f_equal.
    unfold _remove_client. cbn [_clients closed constructed].
    rewrite dict_lookup_store, decide_True by done.
    by rewrite Hl, dict_remove_store, Hc.
Qed.

Lemma consistent_get_client self vespa_url ctx now probe create_error :
  consistent self →
  consistent (get_client self vespa_url ctx now probe create_error).2.
Proof.
  intros Hself. unfold VespaPool.get_client.
  set (target := _resolve_vespa_url vespa_url ctx).
  destruct (dict_lookup (_clients self) target) as [cached|] eqn:E.
  - destruct (on_hit_cases self target cached probe now E)
      as (c2 & Hc & Hu & _ & [[Hh ->]|[Hh ->]]).
    + cbn [snd]. by apply (consistent_update _ _ cached).
    + apply consistent_on_miss.
      * by apply consistent_remove_client.
      * apply lookup_remove_client_None; [apply Hself|by right].
  - by apply consistent_on_miss.
Qed.

Lemma consistent_run (cs : list Call) : consistent (run init cs).
Proof.
  unfold VespaPool.run. induction cs as [|c cs IH] using rev_ind.
  - apply consistent_init.
  - rewrite foldl_app. cbn [foldl].
    destruct c as [u ctx now probe err|u|]; cbn [call].
    + by apply consistent_get_client.
    + by apply consistent_remove_client.
    + unfold close_all. generalize (map fst (_clients (foldl (call VESPA_APP_CONTAINER_URL) init cs))).
      intros l. revert IH. generalize (foldl (call VESPA_APP_CONTAINER_URL) init cs).
      induction l as [|k l IHl]; intros p Hp; [done|].
      cbn [foldl]. apply IHl. by apply consistent_remove_client.
Qed.

(** X7: in every pool that a history of calls produces, the endpoints
    are distinct, every client is healthy, is filed under the endpoint it is
    bound to, and is held by one entry only, and no client in the pool has
    been closed. *)
Theorem pool_entries_consistent (cs : list Call) :
  let self := run init cs in
  NoDup (_clients self).*1
  ∧ (∀ k c, dict_lookup (_clients self) k = Some c →
       is_healthy c = true
       ∧ vespa_url c = k
       ∧ base_url (client c) = k
       ∧ (client c ∉ closed self)
       ∧ (∀ k' c', dict_lookup (_clients self) k' = Some c' →
                   client c = client c' → k = k')).
Proof.
  intros self. destruct (consistent_run cs) as (Hk & Hr & He & _). fold self in Hk, Hr, He.
  split; [done|]. intros k c Hl.
  pose proof (dict_lookup_elem_of _ _ _ Hl) as Hin.
  destruct (He _ Hin) as (? & ? & ? & _ & ?). repeat split; try done.
  intros k' c' Hl' Hcl.
  pose proof (dict_lookup_elem_of _ _ _ Hl') as Hin'.
  assert ((k, c) = (k', c')) by (apply (rank_inj (_clients self)); cbn; congruence).
  congruence.
Qed.

(** X8: on a pool that a history of calls produces, the client that
    [get_client] returns is bound to the endpoint that was asked for and has
    not been closed. *)
Theorem get_client_returns_open_client_of_target
    (cs : list Call) vespa_url ctx now probe create_error cl :
  let r := get_client (run init cs) vespa_url ctx now probe create_error in
  r.1 = inr cl →
  base_url cl = _resolve_vespa_url vespa_url ctx ∧ cl ∉ closed r.2.
Proof.
  intros r Hr. subst r.
  destruct (get_client_last_access _ _ _ _ _ _ _ _ Hr) as (entry & Hl & _ & <-).
  pose proof (consistent_get_client (run init cs) vespa_url ctx now probe create_error
                (consistent_run cs)) as (_ & _ & He & _).
  destruct (He _ (dict_lookup_elem_of _ _ _ Hl)) as (_ & _ & ? & _ & ?). done.
Qed.

(** X9: a cached client that is healthy is reused: when the health check
    is not due (the last one is at most [HEALTH_CHECK_INTERVAL] old), or is
    due and the probe answers ["up"], [get_client] returns the cached client,
    constructs and closes nothing, keeps the endpoints of the pool in their
    order and the entries of the other endpoints as they are, and sets the
    last access of the entry to [now]. *)
Theorem get_client_reuses_healthy_client
    self vespa_url ctx now probe create_error cached :
  let target := _resolve_vespa_url vespa_url ctx in
  let r := get_client self vespa_url ctx now probe create_error in
  dict_lookup (_clients self) target = Some cached →
  is_healthy cached = true →
  probe = ProbeCode (Some "up")
  ∨ (∃ t, last_health_check cached = Some t ∧ now - t ≤ HEALTH_CHECK_INTERVAL) →
  r.1 = inr (client cached)
  ∧ closed r.2 = closed self
  ∧ constructed r.2 = constructed self
  ∧ (_clients r.2).*1 = (_clients self).*1
  ∧ (∀ k, k ≠ target → dict_lookup (_clients r.2) k = dict_lookup (_clients self) k)
  ∧ (∃ entry, dict_lookup (_clients r.2) target = Some entry
              ∧ client entry = client cached ∧ last_access entry = now).
Proof.
  intros target r Hl Hh Hp. subst r. unfold VespaPool.get_client. fold target.
  rewrite Hl. unfold on_hit.
  match goal with |- context [if is_healthy ?x then _ else _] => set (c2 := x) end.
  assert (is_healthy c2 = true ∧ client c2 = client cached ∧ last_access c2 = now)
    as (Hh2 & Hc2 & Ha2).
  { subst c2. unfold _should_health_check, _perform_health_check. cbn.
    destruct Hp as [-> | (t & -> & Ht)].
    - by destruct (last_health_check cached) as [t|]; [case_bool_decide|].
    - by rewrite bool_decide_false by lia. }
  rewrite Hh2. cbn.
  split; [by rewrite Hc2|]. split; [done|]. split; [done|]. split.
  { by destruct (dict_store_present_keys (_clients self) target c2) as [-> _]. }
  split.
  - intros k Hk. rewrite dict_lookup_store. by rewrite decide_False.
  - exists c2. by rewrite dict_lookup_store, decide_True.
Qed.

(** X10: a cached client whose health check is due and fails is replaced
    without the caller noticing: the old client is closed, a new client for
    the same endpoint is constructed, stored as healthy and returned, and
    the pool keeps its size. *)
Theorem get_client_recreates_unhealthy_client
    self vespa_url ctx now probe cached :
  let target := _resolve_vespa_url vespa_url ctx in
  let r := get_client self vespa_url ctx now probe None in
  let new_client := {| base_url := target; serial := constructed self |} in
  NoDup (_clients self).*1 →
  (length (_clients self) ≤ MAX_CLIENTS)%nat →
  dict_lookup (_clients self) target = Some cached →
  last_health_check cached = None
  ∨ (∃ t, last_health_check cached = Some t ∧ now - t > HEALTH_CHECK_INTERVAL) →
  probe ≠ ProbeCode (Some "up") →
  r.1 = inr new_client
  ∧ closed r.2 = client cached :: closed self
  ∧ constructed r.2 = S (constructed self)
  ∧ dict_lookup (_clients r.2) target
    = Some {| client := new_client; vespa_url := target; created_at := now;
              last_access := now; last_health_check := None; is_healthy := true |}
  ∧ (∀ k, k ≠ target → dict_lookup (_clients r.2) k = dict_lookup (_clients self) k)
  ∧ length (_clients r.2) = length (_clients self).
Proof.
  intros target r new_client Hnd Hlen Hl Hdue Hp. subst r.
  unfold VespaPool.get_client. fold target. rewrite Hl.
  destruct (on_hit_cases self target cached probe now Hl)
    as (c2 & _ & _ & _ & [[Hh Hhit]|[_ ->]]).
  { exfalso. revert Hhit. unfold on_hit.
    assert (_should_health_check
              {| client := client cached; vespa_url := VespaPool.vespa_url cached;
                 created_at := created_at cached; last_access := now;
                 last_health_check := last_health_check cached;
                 is_healthy := is_healthy cached |} now = true) as ->.
    { unfold _should_health_check. cbn.
      destruct Hdue as [-> | (t & -> & Ht)]; [done|]. by rewrite bool_decide_true by lia. }
    unfold _perform_health_check. cbn.
    assert (match probe with
            | ProbeRaises => false
            | ProbeCode code => bool_decide (code = Some "up")
            end = false) as ->; [|done].
    destruct probe as [|code]; [done|]. apply bool_decide_false. congruence. }
  rewrite (_remove_client_present _ _ _ Hl). unfold on_miss.
  cbn [_clients closed constructed].
  pose proof (length_dict_remove _ _ _ Hl) as Hrem.
  rewrite bool_decide_false by lia. cbn.
  assert (dict_lookup (dict_remove (_clients self) target) target = None) as Habs.
  { rewrite dict_lookup_remove by done. by rewrite decide_True. }
  split; [done|]. split; [done|]. split; [done|]. split.
  { by rewrite dict_lookup_store, decide_True. }
  split.
  - intros k Hk. rewrite dict_lookup_store, decide_False by done.
    rewrite dict_lookup_remove by done. by rewrite decide_False.
  - rewrite dict_store_absent by done. rewrite length_app. cbn. lia.
Qed.


(** X12: [close_all] empties the pool and closes every client that was in
    it, the first endpoint first. *)
Theorem close_all_closes_every_client self :
  _clients (close_all self) = []
  ∧ closed (close_all self) = reverse ((λ x, client x.2) <$> _clients self) ++ closed self
  ∧ constructed (close_all self) = constructed self.
Proof.
  unfold close_all. destruct self as [d cl0 n]. cbn [_clients closed constructed].
  assert (foldl _remove_client {| _clients := d; closed := cl0; constructed := n |}
            (map fst d)
          = {| _clients := [];
               closed := reverse ((λ x, client x.2) <$> d) ++ cl0;
               constructed := n |}) as ->; [|done].
  induction d as [|[k0 v0] d IH] in cl0 |- *; [done|].
  cbn [map foldl fst]. unfold _remove_client at 2.
  cbn [dict_lookup dict_remove _clients closed constructed].
  rewrite !bool_decide_true by done. rewrite IH.
  f_equal. cbn [fmap list_fmap snd]. by rewrite reverse_cons, <- app_assoc.
Qed.

(** X13: [invalidate_client] removes the entry of the endpoint and closes
    its client, leaving the other entries as they are; for an endpoint that
    is not in the pool it changes nothing, so that a second invalidation
    has no effect. *)
Theorem invalidate_client_removes_one self u :
  NoDup (_clients self).*1 →
  dict_lookup (_clients (invalidate_client self u)) u = None
  ∧ (∀ k, k ≠ u →
       dict_lookup (_clients (invalidate_client self u)) k = dict_lookup (_clients self) k)
  ∧ closed (invalidate_client self u)
    = match dict_lookup (_clients self) u with
      | Some c => client c :: closed self
      | None => closed self
      end
  ∧ (dict_lookup (_clients self) u = None → invalidate_client self u = self)
  ∧ invalidate_client (invalidate_client self u) u = invalidate_client self u.
Proof.
  intros Hnd. unfold invalidate_client.
  assert (dict_lookup (_clients (_remove_client self u)) u = None) as Habs.
  { apply lookup_remove_client_None; auto. }
  split; [done|]. split; [|split; [|split]].
  - intros k Hk. unfold _remove_client.
    destruct (dict_lookup (_clients self) u); cbn; [|done].
    rewrite dict_lookup_remove by done. by rewrite decide_False.
  - unfold _remove_client. by destruct (dict_lookup (_clients self) u).
  - intros Hn. unfold _remove_client. by rewrite Hn.
  - unfold _remove_client at 1. by rewrite Habs.
Qed.

(** X14: an endpoint passed to [_resolve_vespa_url] is used whatever the
    context holds, and the empty string counts as no endpoint; the endpoint
    of the context is used in ["database"] isolation mode only.  So after
    [set_tenant_context] with a search URL and mode ["database"] the pool
    resolves to that URL, and after a call that passes the URL but omits
    [isolation_mode] it resolves to the shared default endpoint. *)
Theorem resolve_vespa_url_precedence
    (MULTI_TENANT : bool) (POSTGRES_DEFAULT_SCHEMA : string)
    (ctx : ContextVars.Context) (t o d : option string) (u : string) :
  let set_with mode :=
    (ContextVars.set_tenant_context MULTI_TENANT POSTGRES_DEFAULT_SCHEMA
       t o d (Some u) (ContextVars.isolation_mode_arg mode) ctx).2 in
  u ≠ "" →
  _resolve_vespa_url (Some u) ctx = u
  ∧ _resolve_vespa_url (Some "") ctx = _resolve_vespa_url None ctx
  ∧ (ContextVars.is_full_database_isolation ctx = false →
     _resolve_vespa_url None ctx = VESPA_APP_CONTAINER_URL)
  ∧ _resolve_vespa_url None (set_with (Some "database")) = u
  ∧ _resolve_vespa_url None (set_with None) = VESPA_APP_CONTAINER_URL.
Proof.
  intros set_with Hu. subst set_with.
  assert (truthy (Some u) = true) as Htu.
  { cbn. by rewrite bool_decide_false. }
  unfold VespaPool._resolve_vespa_url, VespaPool.get_tenant_vespa_url.
  rewrite Htu. split; [done|]. split; [done|]. split; [by intros ->|].
  unfold ContextVars.is_full_database_isolation.
  rewrite !get_tenant_isolation_mode_set, !get_current_vespa_url_set.
  cbn [ContextVars.isolation_mode_arg]. rewrite Htu.
  split; [by rewrite bool_decide_true|]. by rewrite bool_decide_false.
Qed.

End PoolMore.

(** In the pool of one client, the entry of [url_7] is healthy, is filed
    under the endpoint of its client, and its client is open. *)
Lemma pool_entries_consistent_witness :
  VespaPool.dict_lookup (VespaPool._clients PoolExamples.one_client) PoolExamples.url_7
  = Some PoolExamples.entry_7
  ∧ VespaPool.is_healthy PoolExamples.entry_7 = true
  ∧ VespaPool.base_url (VespaPool.client PoolExamples.entry_7) = PoolExamples.url_7
  ∧ VespaPool.client PoolExamples.entry_7 ∉ VespaPool.closed PoolExamples.one_client.
Proof.
  assert (VespaPool.dict_lookup (VespaPool._clients PoolExamples.one_client)
            PoolExamples.url_7 = Some PoolExamples.entry_7) as Hl.
  { vm_compute. reflexivity. }
  split; [exact Hl|].
  destruct (pool_entries_consistent Scenario.VESPA_APP_CONTAINER_URL
              PoolExamples.one_client_history) as [_ H].
  destruct (H PoolExamples.url_7 PoolExamples.entry_7 Hl) as (H1 & _ & H3 & H4 & _).
  split; [exact H1|]. split; [exact H3|exact H4].
Defined.

(** A request for a second endpoint on the pool of one client returns a
    client bound to that endpoint. *)
Lemma get_client_returns_open_client_of_target_witness :
  (VespaPool.get_client Scenario.VESPA_APP_CONTAINER_URL PoolExamples.one_client
     (Some PoolExamples.url_9) ∅ 5 VespaPool.ProbeRaises None).1
  = inr {| VespaPool.base_url := PoolExamples.url_9; VespaPool.serial := 1 |}
  ∧ VespaPool.base_url
      {| VespaPool.base_url := PoolExamples.url_9; VespaPool.serial := 1 |}
    = VespaPool._resolve_vespa_url Scenario.VESPA_APP_CONTAINER_URL
        (Some PoolExamples.url_9) ∅.
Proof.
  assert ((VespaPool.get_client Scenario.VESPA_APP_CONTAINER_URL PoolExamples.one_client
             (Some PoolExamples.url_9) ∅ 5 VespaPool.ProbeRaises None).1
          = inr {| VespaPool.base_url := PoolExamples.url_9; VespaPool.serial := 1 |})
    as Hr.
  { vm_compute. reflexivity. }
  split; [exact Hr|].
  exact (proj1 (get_client_returns_open_client_of_target
                  Scenario.VESPA_APP_CONTAINER_URL PoolExamples.one_client_history
                  (Some PoolExamples.url_9) ∅ 5 VespaPool.ProbeRaises None _ Hr)).
Defined.

(** The client of [url_7] is reused when the probe answers ["up"]. *)
Lemma get_client_reuses_healthy_client_witness :
  VespaPool.dict_lookup (VespaPool._clients PoolExamples.one_client)
    (VespaPool._resolve_vespa_url Scenario.VESPA_APP_CONTAINER_URL
       (Some PoolExamples.url_7) ∅)
  = Some PoolExamples.entry_7
  ∧ (VespaPool.get_client Scenario.VESPA_APP_CONTAINER_URL PoolExamples.one_client
       (Some PoolExamples.url_7) ∅ 100 (VespaPool.ProbeCode (Some "up")) None).1
    = inr (VespaPool.client PoolExamples.entry_7).
Proof.
  assert (VespaPool.dict_lookup (VespaPool._clients PoolExamples.one_client)
            (VespaPool._resolve_vespa_url Scenario.VESPA_APP_CONTAINER_URL
               (Some PoolExamples.url_7) ∅)
          = Some PoolExamples.entry_7) as Hl.
  { vm_compute. reflexivity. }
  split; [exact Hl|].
  exact (proj1 (get_client_reuses_healthy_client Scenario.VESPA_APP_CONTAINER_URL
                  PoolExamples.one_client (Some PoolExamples.url_7) ∅ 100
                  (VespaPool.ProbeCode (Some "up")) None PoolExamples.entry_7
                  Hl eq_refl (or_introl eq_refl))).
Defined.

(** The client of [url_7], never probed, is replaced when the probe
    fails. *)
Lemma get_client_recreates_unhealthy_client_witness :
  VespaPool.dict_lookup (VespaPool._clients PoolExamples.one_client)
    (VespaPool._resolve_vespa_url Scenario.VESPA_APP_CONTAINER_URL
       (Some PoolExamples.url_7) ∅)
  = Some PoolExamples.entry_7
  ∧ VespaPool.closed
      (VespaPool.get_client Scenario.VESPA_APP_CONTAINER_URL PoolExamples.one_client
         (Some PoolExamples.url_7) ∅ 100 VespaPool.ProbeRaises None).2
    = VespaPool.client PoolExamples.entry_7 :: VespaPool.closed PoolExamples.one_client.
Proof.
  assert (VespaPool.dict_lookup (VespaPool._clients PoolExamples.one_client)
            (VespaPool._resolve_vespa_url Scenario.VESPA_APP_CONTAINER_URL
               (Some PoolExamples.url_7) ∅)
          = Some PoolExamples.entry_7) as Hl.
  { vm_compute. reflexivity. }
  assert (NoDup (VespaPool._clients PoolExamples.one_client).*1) as Hnd.
  { apply (consistent_run Scenario.VESPA_APP_CONTAINER_URL
             PoolExamples.one_client_history). }
  assert (length (VespaPool._clients PoolExamples.one_client) ≤ VespaPool.MAX_CLIENTS)%nat
    as Hlen.
  { vm_compute. lia. }
  split; [exact Hl|].
  destruct (get_client_recreates_unhealthy_client Scenario.VESPA_APP_CONTAINER_URL
              PoolExamples.one_client (Some PoolExamples.url_7) ∅ 100
              VespaPool.ProbeRaises PoolExamples.entry_7
              Hnd Hlen Hl (or_introl eq_refl)) as (_ & H & _).
  - discriminate.
  - exact H.
Defined.


(** Invalidating [url_7] in the pool of one client leaves no entry for it
    and keeps what is filed under [url_9]. *)
Lemma invalidate_client_removes_one_witness :
  VespaPool.dict_lookup
    (VespaPool._clients (VespaPool.invalidate_client PoolExamples.one_client
                           PoolExamples.url_7))
    PoolExamples.url_7 = None
  ∧ PoolExamples.url_9 ≠ PoolExamples.url_7
  ∧ VespaPool.dict_lookup
      (VespaPool._clients (VespaPool.invalidate_client PoolExamples.one_client
                             PoolExamples.url_7))
      PoolExamples.url_9
    = VespaPool.dict_lookup (VespaPool._clients PoolExamples.one_client)
        PoolExamples.url_9.
Proof.
  assert (NoDup (VespaPool._clients PoolExamples.one_client).*1) as Hnd.
  { apply (consistent_run Scenario.VESPA_APP_CONTAINER_URL
             PoolExamples.one_client_history). }
  assert (PoolExamples.url_9 ≠ PoolExamples.url_7) as Hne by discriminate.
  destruct (invalidate_client_removes_one PoolExamples.one_client PoolExamples.url_7 Hnd)
    as (H1 & H2 & _).
  split; [exact H1|]. split; [exact Hne|]. exact (H2 _ Hne).
Defined.

(** After [set_tenant_context] with the search URL [url_7] and mode
    ["database"], the pool resolves to [url_7]. *)
Lemma resolve_vespa_url_precedence_witness :
  PoolExamples.url_7 ≠ ""
  ∧ VespaPool._resolve_vespa_url Scenario.VESPA_APP_CONTAINER_URL None
      (ContextVars.set_tenant_context true "public" (Some "org_7") None None
         (Some PoolExamples.url_7)
         (ContextVars.isolation_mode_arg (Some "database")) ∅).2
    = PoolExamples.url_7.
Proof.
  assert (PoolExamples.url_7 ≠ "") as Hne by discriminate.
  split; [exact Hne|].
  destruct (resolve_vespa_url_precedence Scenario.VESPA_APP_CONTAINER_URL true "public"
              ∅ (Some "org_7") None None PoolExamples.url_7 Hne) as (_ & _ & _ & H & _).
  exact H.
Defined.

(** * Further properties of the tenant resolver *)

Section ResolverMore.

Import TenantTracking.

Variable MULTI_TENANT : bool.
Variable POSTGRES_DEFAULT_SCHEMA : string.
Variable TENANT_ISOLATION_MODE : string.
Variable ANONYMOUS_USER_COOKIE_NAME : string.
Variable TENANT_ID_COOKIE_NAME : string.
Variable is_valid_schema_name : string -> bool.
Variable decode_anonymous_user_jwt_token : string -> Result (gmap string (option string)).

#[local] Abbreviation _lookup_tenant_infrastructure :=
  (TenantTracking._lookup_tenant_infrastructure).
#[local] Abbreviation return_identity :=
  (TenantTracking.return_identity TENANT_ISOLATION_MODE).
#[local] Abbreviation try_block :=
  (TenantTracking.try_block POSTGRES_DEFAULT_SCHEMA TENANT_ISOLATION_MODE
     ANONYMOUS_USER_COOKIE_NAME is_valid_schema_name decode_anonymous_user_jwt_token).
#[local] Abbreviation finally_block :=
  (TenantTracking.finally_block POSTGRES_DEFAULT_SCHEMA TENANT_ID_COOKIE_NAME
     is_valid_schema_name).
#[local] Abbreviation try_statement :=
  (TenantTracking.try_statement POSTGRES_DEFAULT_SCHEMA TENANT_ISOLATION_MODE
     ANONYMOUS_USER_COOKIE_NAME TENANT_ID_COOKIE_NAME is_valid_schema_name
     decode_anonymous_user_jwt_token).
#[local] Abbreviation _get_tenant_info_from_request :=
  (TenantTracking._get_tenant_info_from_request POSTGRES_DEFAULT_SCHEMA
     TENANT_ISOLATION_MODE ANONYMOUS_USER_COOKIE_NAME TENANT_ID_COOKIE_NAME
     is_valid_schema_name decode_anonymous_user_jwt_token).
#[local] Abbreviation _get_tenant_id_from_request :=
  (TenantTracking._get_tenant_id_from_request POSTGRES_DEFAULT_SCHEMA
     TENANT_ISOLATION_MODE ANONYMOUS_USER_COOKIE_NAME TENANT_ID_COOKIE_NAME
     is_valid_schema_name decode_anonymous_user_jwt_token).
#[local] Abbreviation set_tenant_id :=
  (TenantTracking.set_tenant_id MULTI_TENANT POSTGRES_DEFAULT_SCHEMA
     TENANT_ISOLATION_MODE ANONYMOUS_USER_COOKIE_NAME TENANT_ID_COOKIE_NAME
     is_valid_schema_name decode_anonymous_user_jwt_token).

Implicit Types (request : Request) (w : World) (o id : string).

(** The query log and the lookup store of the platform session. *)
#[local] Abbreviation log w := (TenantRegistry.executed (platform_session w)).
#[local] Abbreviation store w := (TenantRegistry.store (platform_session w)).

#[local] Abbreviation denied :=
  (HTTPException 403 "Organization access suspended. Please contact support.").

(** The request carries a trusted header that the resolver accepts. *)
#[local] Abbreviation accepted_header request h :=
  (headers request !! "X-Tenant-Id" = Some h%string
   ∧ truthy (Some h%string) && is_valid_schema_name h%string = true).

(** The request carries no trusted header that the resolver accepts. *)
#[local] Abbreviation no_accepted_header request :=
  (∀ h, headers request !! "X-Tenant-Id" = Some h →
        truthy (Some h) && is_valid_schema_name h = false).

(** ** The registry lookup of the resolver *)

(** What the registry raises is one of its two errors for the organization
    looked up, or what the store raised. *)
Lemma get_raises (self : TenantRegistry.Registry) o (s : TenantRegistry.Session)
    bypass (t : Z) e :
  (TenantRegistry.get_tenant_infrastructure self o s bypass t).1.1 = inl e →
  e = TenantNotProvisionedError o ∨ e = TenantSuspendedError o
  ∨ TenantRegistry.store s o = TenantRegistry.FetchRaises e.
Proof.
  unfold TenantRegistry.get_tenant_infrastructure, TenantRegistry.query_and_cache,
    TenantRegistry._get_from_cache, TenantRegistry._query_tenant_infrastructure,
    TenantRegistry.execute.
  repeat (case_match; simplify_eq; cbn [fst snd]; try done).
  all: intros; simplify_eq; auto.
Qed.

(** A lookup leaves the clock and the store as they are. *)
Lemma lookup_frame o w :
  now (_lookup_tenant_infrastructure o w).2 = now w
  ∧ store (_lookup_tenant_infrastructure o w).2 = store w.
Proof.
  unfold TenantTracking._lookup_tenant_infrastructure,
    TenantRegistry.get_tenant_infrastructure, TenantRegistry.query_and_cache,
    TenantRegistry._get_from_cache, TenantRegistry._query_tenant_infrastructure,
    TenantRegistry.execute.
  repeat (case_match; simplify_eq; cbn; try done).
Qed.

(** A lookup raises only an [HTTPException], after a query of the store:
    the denial of a suspended organization, or what the store raised. *)
Lemma lookup_raises o w e :
  (_lookup_tenant_infrastructure o w).1 = inl e →
  is_HTTPException e = true
  ∧ log (_lookup_tenant_infrastructure o w).2 = o :: log w
  ∧ (e = denied ∨ store w o = TenantRegistry.FetchRaises e).
Proof.
  unfold TenantTracking._lookup_tenant_infrastructure.
  pose proof (get_raises (registry w) o (platform_session w) false (now w)) as Hr.
  pose proof (get_executed (registry w) o (platform_session w) false (now w)) as Hx.
  assert (∀ e0, (TenantRegistry.get_tenant_infrastructure (registry w) o
                   (platform_session w) false (now w)).1.1 = inl e0 →
                log {| registry := (TenantRegistry.get_tenant_infrastructure (registry w) o
                                      (platform_session w) false (now w)).1.2;
                       platform_session :=
                         (TenantRegistry.get_tenant_infrastructure (registry w) o
                            (platform_session w) false (now w)).2;
                       now := now w |} = o :: log w) as Hlog.
  { intros e0 He0. cbn. destruct Hx as [Hx|Hx]; [|done]. exfalso.
    revert He0 Hx. clear.
    destruct (live_dec (registry w) o (now w)) as [(entry & He & Hxp)|Hno].
    - by rewrite (get_hit _ _ _ _ entry He Hxp).
    - destruct (get_miss (registry w) o (platform_session w) false (now w)
                  (or_intror Hno)) as (self0 & -> & _).
      rewrite query_and_cache_executes. intros _ H. symmetry in H.
      by apply cons_neq in H. }
  destruct (TenantRegistry.get_tenant_infrastructure _ _ _ _ _) as [[r reg] s].
  cbn [fst snd] in *.
  destruct r as [e0|i]; [|done].
  specialize (Hlog e0 eq_refl). specialize (Hr e0 eq_refl).
  destruct e0; cbn; intros; simplify_eq; cbn.
  - split; [done|]. split; [done|]. left. done.
  - split; [done|]. split; [done|]. right.
    destruct Hr as [?|[?|?]]; done.
Qed.

(** The outcome of a lookup that finds nothing cached for the
    organization, by what the store answers. *)
Lemma lookup_store o w :
  TenantRegistry._cache (registry w) !! o = None →
  (_lookup_tenant_infrastructure o w).1
  = match store w o with
    | TenantRegistry.FetchRaises (TenantNotProvisionedError _) => inr (None, None)
    | TenantRegistry.FetchRaises (TenantSuspendedError _) => inl denied
    | TenantRegistry.FetchRaises e =>
        if is_HTTPException e then inl e else inr (None, None)
    | TenantRegistry.FetchOne None => inr (None, None)
    | TenantRegistry.FetchOne (Some row) =>
        if bool_decide (TenantRegistry.col_status row = "suspended") then inl denied
        else inr (Some (TenantRegistry.database_url (TenantRegistry.infrastructure_of_row row)),
                  Some (TenantRegistry.vespa_url (TenantRegistry.infrastructure_of_row row)))
    end.
Proof.
  intros Hc.
  unfold TenantTracking._lookup_tenant_infrastructure,
    TenantRegistry.get_tenant_infrastructure, TenantRegistry._get_from_cache.
  cbn [negb]. rewrite Hc.
  unfold TenantRegistry.query_and_cache, TenantRegistry._query_tenant_infrastructure,
    TenantRegistry.execute, TenantRegistry.is_suspended.
  destruct (TenantRegistry.store (platform_session w) o) as [e|[row|]]; cbn; try done.
  - by destruct e.
  - by case_bool_decide.
Qed.

(** ** The steps of the resolver *)

(** Without an accepted header and without a credential claim, the
    resolver is its [try] statement. *)
Lemma resolver_try_statement request w :
  no_accepted_header request →
  auth_header_tenant request = None →
  _get_tenant_info_from_request request w = try_statement request w.
Proof.
  intros Hh Ha.
  unfold TenantTracking._get_tenant_info_from_request, TenantTracking.after_header.
  rewrite Ha. destruct (headers request !! "X-Tenant-Id") as [h|] eqn:E; [|done].
  by rewrite (Hh h eq_refl).
Qed.

(** With an accepted header, the resolver is the identity step on it. *)
Lemma resolver_header request w h :
  accepted_header request h →
  _get_tenant_info_from_request request w = return_identity h w.
Proof.
  intros [Hh Hv]. unfold TenantTracking._get_tenant_info_from_request.
  by rewrite Hh, Hv.
Qed.

(** With a credential claim and no accepted header, the resolver is the
    identity step on the claim. *)
Lemma resolver_credential request w a :
  no_accepted_header request →
  auth_header_tenant request = Some a →
  _get_tenant_info_from_request request w = return_identity a w.
Proof.
  intros Hh Ha.
  unfold TenantTracking._get_tenant_info_from_request, TenantTracking.after_header.
  rewrite Ha. destruct (headers request !! "X-Tenant-Id") as [h|] eqn:E; [|done].
  by rewrite (Hh h eq_refl).
Qed.

(** The three ways through the resolver. *)
Lemma resolver_cases request w :
  (∃ id, (accepted_header request id
          ∨ (no_accepted_header request ∧ auth_header_tenant request = Some id))
         ∧ _get_tenant_info_from_request request w = return_identity id w)
  ∨ (no_accepted_header request ∧ auth_header_tenant request = None
     ∧ _get_tenant_info_from_request request w = try_statement request w).
Proof.
  assert ((∃ h, accepted_header request h) ∨ no_accepted_header request) as [[h Hh]|Hno].
  { destruct (headers request !! "X-Tenant-Id") as [h|].
    - destruct (truthy (Some h) && is_valid_schema_name h) eqn:V.
      + left. by exists h.
      + right. by intros h' [= <-].
    - by right. }
  - left. exists h. split; [by left|]. by apply resolver_header.
  - destruct (auth_header_tenant request) as [a|] eqn:A.
    + left. exists a. split; [by right|]. by apply resolver_credential.
    + right. split; [done|]. split; [done|]. by apply resolver_try_statement.
Qed.

(** The two ends of the [finally] block. *)
Lemma finally_block_cases request (l : Locals) :
  finally_block request l = Some (POSTGRES_DEFAULT_SCHEMA, None, None, None)
  ∨ ∃ c, cookies request !! TENANT_ID_COOKIE_NAME = Some c
         ∧ c ≠ ""
         ∧ is_valid_schema_name c = true
         ∧ finally_block request l = Some (c, Some c, db_url l, vespa_url l).
Proof.
  unfold TenantTracking.finally_block.
  destruct (truthy (tenant_id l) && _); [|by left].
  destruct (cookies request !! TENANT_ID_COOKIE_NAME) as [c|] eqn:E; [|by left].
  destruct (truthy (Some c)) eqn:T; cbn [andb]; [|by left].
  destruct (is_valid_schema_name c) eqn:V; [|by left].
  right. exists c. repeat split; try done.
  intros ->. by cbn in T.
Qed.

(** The identity step returns its identity, or raises what the lookup
    raised. *)
Lemma return_identity_cases id w :
  (TENANT_ISOLATION_MODE ≠ "database"
   ∧ return_identity id w = (inr (id, Some id, None, None), w))
  ∨ (TENANT_ISOLATION_MODE = "database"
     ∧ (return_identity id w).2 = (_lookup_tenant_infrastructure id w).2
     ∧ match (_lookup_tenant_infrastructure id w).1 with
       | inl e => (return_identity id w).1 = inl e
       | inr (db, vs) => (return_identity id w).1 = inr (id, Some id, db, vs)
       end).
Proof.
  unfold TenantTracking.return_identity. case_bool_decide as E; [right|by left].
  split; [done|].
  by destruct (_lookup_tenant_infrastructure id w) as [[e|[db vs]] w'].
Qed.

(** The world after the [try] block: as before, or after one lookup. *)
Lemma try_block_world request w :
  (try_block request w).2 = w
  ∨ (TENANT_ISOLATION_MODE = "database"
     ∧ ∃ o, (try_block request w).2 = (_lookup_tenant_infrastructure o w).2).
Proof.
  unfold TenantTracking.try_block, TenantTracking.token_branch,
    TenantTracking.cookie_step, TenantTracking.anonymous_branch,
    TenantTracking.return_default.
  destruct (decide (TENANT_ISOLATION_MODE = "database")) as [Hm|Hm].
  - rewrite !(bool_decide_true _ Hm).
    repeat (case_match; simplify_eq; cbn [fst snd andb]; try (by left)).
    all: right; split; [done|]; eexists;
      match goal with H : TenantTracking._lookup_tenant_infrastructure _ _ = _ |- _ =>
        by rewrite H end.
  - rewrite !(bool_decide_false _ Hm). cbn [andb].
    repeat (case_match; simplify_eq; cbn [fst snd]; try (by left)).
Qed.

(** Outside database mode the [try] block obtains no locators. *)
Lemma try_block_schema_mode request w :
  TENANT_ISOLATION_MODE ≠ "database" →
  db_url (try_block request w).1.2 = None ∧ vespa_url (try_block request w).1.2 = None.
Proof.
  intros Hm.
  unfold TenantTracking.try_block, TenantTracking.token_branch,
    TenantTracking.cookie_step, TenantTracking.anonymous_branch,
    TenantTracking.return_default.
  rewrite !(bool_decide_false _ Hm). cbn [andb].
  repeat (case_match; simplify_eq; cbn [fst snd db_url vespa_url]; try done).
Qed.

(** The world after the resolver: as before, or after one lookup. *)
Lemma resolver_world request w :
  (_get_tenant_info_from_request request w).2 = w
  ∨ (TENANT_ISOLATION_MODE = "database"
     ∧ ∃ o, (_get_tenant_info_from_request request w).2
            = (_lookup_tenant_infrastructure o w).2).
Proof.
  destruct (resolver_cases request w) as [(id & _ & ->)|(_ & _ & ->)].
  - destruct (return_identity_cases id w) as [[_ ->]|(Hm & -> & _)]; [by left|].
    right. eauto.
  - unfold TenantTracking.try_statement.
    pose proof (try_block_world request w) as H.
    by destruct (try_block request w) as [[pending l] w'].
Qed.

(** The [try] statement returns the default schema without organization
    and locators, or the value of a well-formed tenant-override cookie. *)
Lemma try_statement_cases request w :
  (try_statement request w).1 = inr (POSTGRES_DEFAULT_SCHEMA, None, None, None)
  ∨ ∃ c db vs,
      cookies request !! TENANT_ID_COOKIE_NAME = Some c
      ∧ c ≠ ""
      ∧ is_valid_schema_name c = true
      ∧ (try_statement request w).1 = inr (c, Some c, db, vs).
Proof.
  unfold TenantTracking.try_statement.
  destruct (try_block request w) as [[pending l] w']. cbn [fst].
  destruct (finally_block_cases request l) as [->|(c & Hc & Hne & Hv & ->)].
  - by left.
  - right. exists c, (db_url l), (vespa_url l). done.
Qed.

(** X15: a request without an accepted trusted header and without a
    credential claim is never refused: whatever the session-token lookup,
    the cookie decoder and the registry do, also when they raise, the
    resolver returns, and what it returns is the default schema with no
    organization and no locators, or the value of a well-formed
    tenant-override cookie as both tenant and organization. *)
Theorem session_paths_never_raise request w :
  no_accepted_header request →
  auth_header_tenant request = None →
  (_get_tenant_info_from_request request w).1
  = inr (POSTGRES_DEFAULT_SCHEMA, None, None, None)
  ∨ ∃ c db vs,
      cookies request !! TENANT_ID_COOKIE_NAME = Some c
      ∧ c ≠ ""
      ∧ is_valid_schema_name c = true
      ∧ (_get_tenant_info_from_request request w).1 = inr (c, Some c, db, vs).
Proof.
  intros Hh Ha. rewrite (resolver_try_statement request w Hh Ha).
  apply try_statement_cases.
Qed.

(** X16: the resolver raises nothing but an [HTTPException], and only in
    database mode, for an identity taken from the trusted header or from the
    credential claim, after one query of the store for that identity: the
    exception is the access-denied error of a suspended organization, or an
    [HTTPException] that the store itself raised. *)
Theorem resolver_raises_only_denials request w e :
  (_get_tenant_info_from_request request w).1 = inl e →
  is_HTTPException e = true
  ∧ TENANT_ISOLATION_MODE = "database"
  ∧ ∃ id, (headers request !! "X-Tenant-Id" = Some id
           ∨ auth_header_tenant request = Some id)
          ∧ log (_get_tenant_info_from_request request w).2 = id :: log w
          ∧ (e = denied ∨ store w id = TenantRegistry.FetchRaises e).
Proof.
  destruct (resolver_cases request w) as [(id & Hid & ->)|(Hh & Ha & ->)].
  - destruct (return_identity_cases id w) as [[_ ->]|(Hm & -> & Hr)]; [done|].
    intros He.
    destruct (_lookup_tenant_infrastructure id w) as [[e0|[db vs]] w'] eqn:El;
      cbn [fst snd] in *; [|congruence].
    assert (e0 = e) as -> by congruence.
    pose proof (lookup_raises id w e) as Hl. rewrite El in Hl. cbn [fst snd] in Hl.
    destruct (Hl eq_refl) as (? & ? & ?).
    split; [done|]. split; [done|]. exists id. split; [|done].
    destruct Hid as [[? _]|[_ ?]]; auto.
  - intros He.
    destruct (try_statement_returns POSTGRES_DEFAULT_SCHEMA TENANT_ISOLATION_MODE
                ANONYMOUS_USER_COOKIE_NAME TENANT_ID_COOKIE_NAME is_valid_schema_name
                decode_anonymous_user_jwt_token request w) as [[res Hres] _].
    congruence.
Qed.

(** X17: outside database mode the resolver does not touch the registry
    or the store, raises nothing and returns no locators. *)
Theorem schema_mode_consults_no_registry request w :
  TENANT_ISOLATION_MODE ≠ "database" →
  (_get_tenant_info_from_request request w).2 = w
  ∧ ∃ t org, (_get_tenant_info_from_request request w).1 = inr (t, org, None, None).
Proof.
  intros Hm. split.
  - destruct (resolver_world request w) as [?|[? _]]; done.
  - destruct (resolver_cases request w) as [(id & _ & ->)|(_ & _ & ->)].
    + destruct (return_identity_cases id w) as [[_ ->]|(? & _)]; [eauto|done].
    + unfold TenantTracking.try_statement.
      pose proof (try_block_schema_mode request w Hm) as [Hdb Hvs].
      destruct (try_block request w) as [[pending l] w']. cbn [fst snd] in *.
      destruct (finally_block_cases request l) as [->|(c & _ & _ & _ & ->)].
      * cbn. eauto.
      * rewrite Hdb, Hvs. cbn. eauto.
Qed.

(** X18: one request costs at most one query of the store: the resolver
    leaves the query log as it was or adds one organization to it, and
    leaves the clock and the store as they are. *)
Theorem resolver_queries_at_most_once request w :
  let w' := (_get_tenant_info_from_request request w).2 in
  (log w' = log w ∨ ∃ o, log w' = o :: log w)
  ∧ store w' = store w
  ∧ now w' = now w.
Proof.
  intros w'. subst w'.
  destruct (resolver_world request w) as [->|(_ & o & ->)]; [auto|].
  destruct (lookup_frame o w) as [Hn Hs].
  split; [|done].
  destruct (lookup_log o w) as [->| ->]; eauto.
Qed.

(** X19: the trusted header, when accepted, decides alone: two requests
    with the same accepted header are resolved alike, whatever their
    credentials, session tokens and cookies; a header that is empty or not a
    valid schema name is ignored, the request being resolved as if it had
    none. *)
Theorem trusted_header_decides_alone request w h :
  headers request !! "X-Tenant-Id" = Some h →
  (truthy (Some h) && is_valid_schema_name h = true →
   ∀ request', headers request' !! "X-Tenant-Id" = Some h →
               _get_tenant_info_from_request request w
               = _get_tenant_info_from_request request' w)
  ∧ (truthy (Some h) && is_valid_schema_name h = false →
     _get_tenant_info_from_request request w
     = _get_tenant_info_from_request (without_header request) w).
Proof.
  intros Hh. split.
  - intros Hv request' Hh'.
    by rewrite (resolver_header request w h), (resolver_header request' w h).
  - intros Hv. unfold TenantTracking._get_tenant_info_from_request.
    rewrite Hh, Hv. cbn [headers without_header]. rewrite lookup_delete_eq.
    unfold TenantTracking.after_header, TenantTracking.try_statement,
      TenantTracking.try_block, TenantTracking.cookie_step,
      TenantTracking.finally_block.
    done.
Qed.

(** X20: in database mode, for an identity taken from the trusted header
    or the credential claim and not cached by the registry, the answer of
    the store decides: a suspended organization is refused with the
    access-denied error; an organization without a row, and a store that
    fails with anything but an [HTTPException], give the identity without
    locators; any other row gives the identity with the locators of the
    row. *)
Theorem trusted_identity_outcomes request w id :
  TENANT_ISOLATION_MODE = "database" →
  accepted_header request id
  ∨ (no_accepted_header request ∧ auth_header_tenant request = Some id) →
  TenantRegistry._cache (registry w) !! id = None →
  let r := (_get_tenant_info_from_request request w).1 in
  (store w id = TenantRegistry.FetchOne None → r = inr (id, Some id, None, None))
  ∧ (∀ msg, store w id = TenantRegistry.FetchRaises (OtherError msg) →
            r = inr (id, Some id, None, None))
  ∧ (∀ row, store w id = TenantRegistry.FetchOne (Some row) →
            TenantRegistry.col_status row = "suspended" → r = inl denied)
  ∧ (∀ row, store w id = TenantRegistry.FetchOne (Some row) →
            TenantRegistry.col_status row ≠ "suspended" →
            r = inr (id, Some id,
                     Some (TenantRegistry.database_url
                             (TenantRegistry.infrastructure_of_row row)),
                     Some (TenantRegistry.vespa_url
                             (TenantRegistry.infrastructure_of_row row)))).
Proof.
  intros Hm Hid Hc r. subst r.
  assert (_get_tenant_info_from_request request w = return_identity id w) as ->.
  { destruct Hid as [?|[? ?]];
      [by apply resolver_header | by apply resolver_credential]. }
  destruct (return_identity_cases id w) as [[? _]|(_ & _ & Hr)]; [done|].
  rewrite (lookup_store id w Hc) in Hr.
  split; [|split; [|split]].
  - intros Hs. by rewrite Hs in Hr.
  - intros msg Hs. by rewrite Hs in Hr.
  - intros row Hs Hst. rewrite Hs, bool_decide_true in Hr by done. done.
  - intros row Hs Hst. rewrite Hs, bool_decide_false in Hr by done. done.
Qed.

(** X21: the middleware hands the request on exactly when the resolver
    does not raise, and then in a context in which
    [get_current_tenant_id] does not raise: with multi-tenancy disabled the
    tenant id is the default schema; with multi-tenancy enabled it is the
    tenant id the resolver returned, and the isolation mode of the context
    is the configured one. *)
Theorem middleware_sets_tenant_id request w ctx :
  match (set_tenant_id request w ctx).1 with
  | inr ctx' =>
      ∃ t, ContextVars.get_current_tenant_id MULTI_TENANT POSTGRES_DEFAULT_SCHEMA ctx'
           = inr t
           ∧ if MULTI_TENANT then
               (∃ org db vs,
                  (_get_tenant_info_from_request request w).1 = inr (t, org, db, vs))
               ∧ ContextVars.get_tenant_isolation_mode ctx' = Some TENANT_ISOLATION_MODE
             else t = POSTGRES_DEFAULT_SCHEMA
  | inl e =>
      MULTI_TENANT = true ∧ (_get_tenant_info_from_request request w).1 = inl e
  end.
Proof.
  unfold TenantTracking.set_tenant_id. destruct MULTI_TENANT eqn:M.
  - destruct (_get_tenant_info_from_request request w)
      as [[e|[[[t org] db] vs]] w']; cbn [fst]; [done|].
    exists t. split.
    + unfold ContextVars.get_current_tenant_id, ContextVars.ContextVar_get.
      cbn [ContextVars.name ContextVars.CURRENT_TENANT_ID_CONTEXTVAR].
      rewrite lookup_set_tenant_context.
      repeat (rewrite decide_False by done). by rewrite decide_True.
    + split; [eauto|]. apply get_tenant_isolation_mode_set.
  - cbn [fst]. exists POSTGRES_DEFAULT_SCHEMA. split; [|done].
    unfold ContextVars.get_current_tenant_id, ContextVars.ContextVar_get,
      ContextVars.ContextVar_set.
    cbn [snd ContextVars.name ContextVars.CURRENT_TENANT_ID_CONTEXTVAR].
    by rewrite lookup_insert_eq.
Qed.

(** X22: the tenant id that the legacy entry point
    [_get_tenant_id_from_request] returns is the default schema, or passes
    [is_valid_schema_name], or is the tenant claim of the credential, which
    the resolver does not check. *)
Theorem resolved_tenant_id_is_checked request w t :
  (_get_tenant_id_from_request request w).1 = inr t →
  t = POSTGRES_DEFAULT_SCHEMA
  ∨ is_valid_schema_name t = true
  ∨ auth_header_tenant request = Some t.
Proof.
  unfold TenantTracking._get_tenant_id_from_request.
  destruct (resolver_cases request w) as [(id & Hid & ->)|(Hh & Ha & Hts)].
  - assert (∀ t' org db vs, (return_identity id w).1 = inr (t', org, db, vs) → t' = id)
      as Hret.
    { intros t' org db vs.
      destruct (return_identity_cases id w) as [[_ ->]|(_ & _ & Hr)].
      - by intros [= <- _ _ _].
      - destruct (_lookup_tenant_infrastructure id w).1 as [e|[db' vs']];
          rewrite Hr; [done|]. by intros [= <- _ _ _]. }
    destruct (return_identity id w) as [[e|[[[t' org] db] vs]] w'] eqn:E;
      cbn [fst]; [done|].
    intros [= <-]. rewrite (Hret t' org db vs eq_refl).
    destruct Hid as [[_ Hv]|[_ Ha]]; [|auto].
    right. left. by apply andb_true_iff in Hv as [_ ?].
  - pose proof (try_statement_cases request w) as Hs. rewrite <- Hts in Hs.
    destruct (_get_tenant_info_from_request request w)
      as [[e|[[[t' org] db] vs]] w'] eqn:E; cbn [fst] in *; [done|].
    intros [= <-].
    destruct Hs as [[= -> _ _ _]|(c & db' & vs' & _ & _ & Hv & [= -> _ _ _])]; auto.
Qed.

(** X23: from the request to the search endpoint.  In a multi-tenant
    deployment in database mode, for a request whose accepted trusted header
    names an organization that the registry has not cached and whose row is
    not suspended, the middleware hands the request on in a context that
    holds the header's value as tenant and organization and the locators of
    the row; in that context the pool resolves to the search URL of the row,
    and the search and document endpoints are built on it. *)
Theorem middleware_routes_to_tenant_search
    request w ctx id (row : TenantRegistry.Row)
    (VESPA_APP_CONTAINER_URL index_name : string) :
  MULTI_TENANT = true →
  TENANT_ISOLATION_MODE = "database" →
  headers request !! "X-Tenant-Id" = Some id →
  truthy (Some id) && is_valid_schema_name id = true →
  TenantRegistry._cache (registry w) !! id = None →
  store w id = TenantRegistry.FetchOne (Some row) →
  TenantRegistry.col_status row ≠ "suspended" →
  let infrastructure := TenantRegistry.infrastructure_of_row row in
  let url := TenantRegistry.vespa_url infrastructure in
  ∃ ctx', (set_tenant_id request w ctx).1 = inr ctx'
    ∧ ContextVars.get_current_tenant_id MULTI_TENANT POSTGRES_DEFAULT_SCHEMA ctx' = inr id
    ∧ ContextVars.get_current_org_id ctx' = Some id
    ∧ ContextVars.get_current_db_url ctx' = Some (TenantRegistry.database_url infrastructure)
    ∧ ContextVars.get_current_vespa_url ctx' = Some url
    ∧ ContextVars.is_full_database_isolation ctx' = true
    ∧ VespaPool._resolve_vespa_url VESPA_APP_CONTAINER_URL None ctx' = url
    ∧ VespaPool.get_tenant_search_endpoint VESPA_APP_CONTAINER_URL ctx'
      = url +:+ "/search/"
    ∧ VespaPool.get_tenant_document_endpoint VESPA_APP_CONTAINER_URL index_name ctx'
      = url +:+ "/document/v1/default/" +:+ index_name +:+ "/docid".
Proof.
  intros HM Hm Hh Hv Hc Hs Hst infrastructure url.
  assert ((_get_tenant_info_from_request request w).1
          = inr (id, Some id, Some (TenantRegistry.database_url infrastructure),
                 Some url)) as Hres.
  { rewrite (resolver_header request w id) by done.
    destruct (return_identity_cases id w) as [[? _]|(_ & _ & Hr)]; [done|].
    rewrite (lookup_store id w Hc), Hs, bool_decide_false in Hr by done. done. }
  unfold TenantTracking.set_tenant_id. rewrite HM.
  destruct (_get_tenant_info_from_request request w) as [res w'].
  cbn [fst] in Hres. subst res. cbn [fst].
  eexists. split; [done|].
  assert (truthy (Some url) = true) as Hurl.
  { subst url. unfold TenantRegistry.vespa_url. cbn.
    by rewrite bool_decide_false. }
  unfold VespaPool.get_tenant_search_endpoint, VespaPool.get_tenant_document_endpoint,
    VespaPool._resolve_vespa_url, VespaPool.get_tenant_vespa_url,
    ContextVars.is_full_database_isolation.
  rewrite get_tenant_isolation_mode_set, Hm.
  rewrite (bool_decide_true (Some "database" = Some "database")) by done.
  unfold ContextVars.get_current_tenant_id, ContextVars.get_current_org_id,
    ContextVars.get_current_db_url, ContextVars.get_current_vespa_url,
    ContextVars.ContextVar_get.
  cbn [ContextVars.name ContextVars.var_default
       ContextVars.CURRENT_TENANT_ID_CONTEXTVAR ContextVars.CURRENT_ORG_ID_CONTEXTVAR
       ContextVars.CURRENT_DB_URL_CONTEXTVAR ContextVars.CURRENT_VESPA_URL_CONTEXTVAR].
  rewrite !lookup_set_tenant_context.
  repeat match goal with
         | |- context [decide (?a = ?b)] =>
             first [ rewrite (decide_True (P := a = b)) by done
                   | rewrite (decide_False (P := a = b)) by done ]
         end.
  rewrite Hurl. done.
Qed.

End ResolverMore.

(** The request of scenario B, which carries no trusted header and no
    credential claim, is not refused while [acct_7] is suspended. *)
Lemma session_paths_never_raise_witness :
  TenantTracking.auth_header_tenant Scenario.request_B = None
  ∧ ((Scenario.resolve "database" Scenario.request_B (Scenario.world "suspended")).1
     = inr (Scenario.POSTGRES_DEFAULT_SCHEMA, None, None, None)
     ∨ ∃ c db vs,
         TenantTracking.cookies Scenario.request_B !! Scenario.TENANT_ID_COOKIE_NAME
         = Some c
         ∧ c ≠ ""
         ∧ Scenario.is_valid_schema_name 63 c = true
         ∧ (Scenario.resolve "database" Scenario.request_B
              (Scenario.world "suspended")).1
           = inr (c, Some c, db, vs)).
Proof.
  split; [reflexivity|].
  apply (session_paths_never_raise Scenario.POSTGRES_DEFAULT_SCHEMA "database"
           Scenario.ANONYMOUS_USER_COOKIE_NAME Scenario.TENANT_ID_COOKIE_NAME
           (Scenario.is_valid_schema_name 63) Scenario.decode_anonymous_user_jwt_token
           Scenario.request_B (Scenario.world "suspended")).
  - intros h Hh. vm_compute in Hh. discriminate Hh.
  - reflexivity.
Defined.

(** The request with the trusted header [acct_7] is refused while [acct_7]
    is suspended, in database mode and after a query for [acct_7]. *)
Lemma resolver_raises_only_denials_witness :
  (Scenario.resolve "database" Scenario.request_header (Scenario.world "suspended")).1
  = inl (HTTPException 403 "Organization access suspended. Please contact support.")
  ∧ ∃ id,
      (TenantTracking.headers Scenario.request_header !! "X-Tenant-Id" = Some id
       ∨ TenantTracking.auth_header_tenant Scenario.request_header = Some id)
      ∧ TenantRegistry.executed
          (TenantTracking.platform_session
             (Scenario.resolve "database" Scenario.request_header
                (Scenario.world "suspended")).2)
        = id :: TenantRegistry.executed
                  (TenantTracking.platform_session (Scenario.world "suspended")).
Proof.
  assert ((Scenario.resolve "database" Scenario.request_header
             (Scenario.world "suspended")).1
          = inl (HTTPException 403
                   "Organization access suspended. Please contact support.")) as Hr.
  { vm_compute. reflexivity. }
  split; [exact Hr|].
  destruct (resolver_raises_only_denials Scenario.POSTGRES_DEFAULT_SCHEMA "database"
              Scenario.ANONYMOUS_USER_COOKIE_NAME Scenario.TENANT_ID_COOKIE_NAME
              (Scenario.is_valid_schema_name 63) Scenario.decode_anonymous_user_jwt_token
              Scenario.request_header (Scenario.world "suspended") _ Hr)
    as (_ & _ & id & Hid & Hlog & _).
  exists id. split; [exact Hid|exact Hlog].
Defined.

(** In schema mode the request with the trusted header [acct_7] leaves
    the registry and the store untouched. *)
Lemma schema_mode_consults_no_registry_witness :
  "schema" ≠ "database"
  ∧ (Scenario.resolve "schema" Scenario.request_header (Scenario.world "active")).2
    = Scenario.world "active".
Proof.
  assert ("schema" ≠ "database") as Hm by discriminate.
  split; [exact Hm|].
  exact (proj1 (schema_mode_consults_no_registry Scenario.POSTGRES_DEFAULT_SCHEMA "schema"
                  Scenario.ANONYMOUS_USER_COOKIE_NAME Scenario.TENANT_ID_COOKIE_NAME
                  (Scenario.is_valid_schema_name 63)
                  Scenario.decode_anonymous_user_jwt_token
                  Scenario.request_header (Scenario.world "active") Hm)).
Defined.

(** The request with the trusted header [acct_7] is resolved alike with
    and without a tenant-override cookie. *)
Lemma trusted_header_decides_alone_witness :
  TenantTracking.headers Scenario.request_header !! "X-Tenant-Id" = Some "acct_7"
  ∧ Scenario.resolve "database" Scenario.request_header (Scenario.world "active")
    = Scenario.resolve "database" (Scenario.with_override Scenario.request_header)
        (Scenario.world "active").
Proof.
  assert (TenantTracking.headers Scenario.request_header !! "X-Tenant-Id"
          = Some "acct_7") as Hh.
  { vm_compute. reflexivity. }
  assert (TenantTracking.headers (Scenario.with_override Scenario.request_header)
            !! "X-Tenant-Id" = Some "acct_7") as Hh'.
  { vm_compute. reflexivity. }
  assert (truthy (Some "acct_7") && Scenario.is_valid_schema_name 63 "acct_7" = true)
    as Hv.
  { vm_compute. reflexivity. }
  split; [exact Hh|].
  exact (proj1 (trusted_header_decides_alone Scenario.POSTGRES_DEFAULT_SCHEMA "database"
                  Scenario.ANONYMOUS_USER_COOKIE_NAME Scenario.TENANT_ID_COOKIE_NAME
                  (Scenario.is_valid_schema_name 63)
                  Scenario.decode_anonymous_user_jwt_token
                  Scenario.request_header (Scenario.world "active") "acct_7" Hh)
           Hv (Scenario.with_override Scenario.request_header) Hh').
Defined.

(** The request with the credential claim [acct_7] is refused while the
    store reports [acct_7] suspended. *)
Lemma trusted_identity_outcomes_witness :
  TenantRegistry.store (TenantTracking.platform_session (Scenario.world "suspended"))
    "acct_7"
  = TenantRegistry.FetchOne (Some (Scenario.row "acct_7" "vespa-7.internal" "suspended"))
  ∧ (Scenario.resolve "database" Scenario.request_credential
       (Scenario.world "suspended")).1
    = inl (HTTPException 403 "Organization access suspended. Please contact support.").
Proof.
  assert (TenantRegistry.store
            (TenantTracking.platform_session (Scenario.world "suspended")) "acct_7"
          = TenantRegistry.FetchOne
              (Some (Scenario.row "acct_7" "vespa-7.internal" "suspended"))) as Hs.
  { vm_compute. reflexivity. }
  split; [exact Hs|].
  destruct (trusted_identity_outcomes Scenario.POSTGRES_DEFAULT_SCHEMA "database"
              Scenario.ANONYMOUS_USER_COOKIE_NAME Scenario.TENANT_ID_COOKIE_NAME
              (Scenario.is_valid_schema_name 63) Scenario.decode_anonymous_user_jwt_token
              Scenario.request_credential (Scenario.world "suspended") "acct_7")
    as (_ & _ & H & _).
  - reflexivity.
  - right. split; [|reflexivity]. intros h Hh. vm_compute in Hh. discriminate Hh.
  - vm_compute. reflexivity.
  - exact (H _ Hs eq_refl).
Defined.

(** The tenant id of the request with the credential claim [acct_7]. *)
Lemma resolved_tenant_id_is_checked_witness :
  (TenantTracking._get_tenant_id_from_request Scenario.POSTGRES_DEFAULT_SCHEMA
     "database" Scenario.ANONYMOUS_USER_COOKIE_NAME Scenario.TENANT_ID_COOKIE_NAME
     (Scenario.is_valid_schema_name 63) Scenario.decode_anonymous_user_jwt_token
     Scenario.request_credential (Scenario.world "active")).1
  = inr "acct_7"
  ∧ ("acct_7" = Scenario.POSTGRES_DEFAULT_SCHEMA
     ∨ Scenario.is_valid_schema_name 63 "acct_7" = true
     ∨ TenantTracking.auth_header_tenant Scenario.request_credential = Some "acct_7").
Proof.
  assert ((TenantTracking._get_tenant_id_from_request Scenario.POSTGRES_DEFAULT_SCHEMA
             "database" Scenario.ANONYMOUS_USER_COOKIE_NAME
             Scenario.TENANT_ID_COOKIE_NAME (Scenario.is_valid_schema_name 63)
             Scenario.decode_anonymous_user_jwt_token
             Scenario.request_credential (Scenario.world "active")).1
          = inr "acct_7") as Hr.
  { vm_compute. reflexivity. }
  split; [exact Hr|].
  exact (resolved_tenant_id_is_checked Scenario.POSTGRES_DEFAULT_SCHEMA "database"
           Scenario.ANONYMOUS_USER_COOKIE_NAME Scenario.TENANT_ID_COOKIE_NAME
           (Scenario.is_valid_schema_name 63) Scenario.decode_anonymous_user_jwt_token
           Scenario.request_credential (Scenario.world "active") "acct_7" Hr).
Defined.

(** The request with the trusted header [acct_7] is handed on in a context
    whose search endpoint is that of the row of [acct_7]. *)
Lemma middleware_routes_to_tenant_search_witness :
  TenantRegistry.store (TenantTracking.platform_session (Scenario.world "active"))
    "acct_7"
  = TenantRegistry.FetchOne (Some (Scenario.row "acct_7" "vespa-7.internal" "active"))
  ∧ ∃ ctx',
      (Scenario.middleware "database" Scenario.request_header
         (Scenario.world "active") ∅).1 = inr ctx'
      ∧ VespaPool.get_tenant_search_endpoint Scenario.VESPA_APP_CONTAINER_URL ctx'
        = "http://vespa-7.internal:8081/search/".
Proof.
  assert (TenantRegistry.store
            (TenantTracking.platform_session (Scenario.world "active")) "acct_7"
          = TenantRegistry.FetchOne
              (Some (Scenario.row "acct_7" "vespa-7.internal" "active"))) as Hs.
  { vm_compute. reflexivity. }
  split; [exact Hs|].
  destruct (middleware_routes_to_tenant_search true Scenario.POSTGRES_DEFAULT_SCHEMA
              "database" Scenario.ANONYMOUS_USER_COOKIE_NAME
              Scenario.TENANT_ID_COOKIE_NAME (Scenario.is_valid_schema_name 63)
              Scenario.decode_anonymous_user_jwt_token
              Scenario.request_header (Scenario.world "active") ∅ "acct_7"
              (Scenario.row "acct_7" "vespa-7.internal" "active")
              Scenario.VESPA_APP_CONTAINER_URL "danswer_chunk")
    as (ctx' & Hctx & _ & _ & _ & _ & _ & _ & Hsearch & _).
  - reflexivity.
  - reflexivity.
  - vm_compute. reflexivity.
  - vm_compute. reflexivity.
  - vm_compute. reflexivity.
  - exact Hs.
  - discriminate.
  - exists ctx'. split; [exact Hctx|]. rewrite Hsearch. vm_compute. reflexivity.
Defined.

(** * Properties of the notification rate limit *)

Section RateLimit.

Variable POSEIDON_MAX_EVENTS_PER_MINUTE : Z.

#[local] Abbreviation check := (PoseidonHooks.check POSEIDON_MAX_EVENTS_PER_MINUTE).
#[local] Abbreviation checks := (PoseidonHooks.run POSEIDON_MAX_EVENTS_PER_MINUTE).

(** The events of [l] younger than a minute at time [now]. *)
#[local] Abbreviation recent now l := (filter (λ t : Z, t > now - 60) l).

Lemma recent_recent (now1 now2 : Z) (l : list Z) :
  now1 ≤ now2 → recent now2 (recent now1 l) = recent now2 l.
Proof.
  intros Hle. induction l as [|t l IH]; [done|].
  rewrite !filter_cons. destruct (decide (t > now1 - 60)) as [H1|H1].
  - rewrite filter_cons. destruct (decide (t > now2 - 60)); by rewrite IH.
  - rewrite IH. destruct (decide (t > now2 - 60)) as [H2|H2]; [lia|done].
Qed.

Lemma recent_snoc (now : Z) (l : list Z) :
  recent now (l ++ [now]) = recent now l ++ [now].
Proof.
  rewrite filter_app. f_equal. rewrite filter_cons.
  destruct (decide (now > now - 60)); [done|lia].
Qed.

(** A clock that does not run backwards, read once more. *)
Lemma Sorted_snoc_inv (times : list Z) (now : Z) :
  Sorted Z.le (times ++ [now]) →
  Sorted Z.le times ∧ (∀ prev, last times = Some prev → prev ≤ now).
Proof.
  induction times as [|t times IH]; cbn [app].
  - intros _. split; [constructor|]. intros prev H. discriminate H.
  - intros Hs. inversion Hs as [|? ? Hs1 Hhd]; subst.
    destruct (IH Hs1) as [Hs2 Hlast]. split.
    + constructor; [done|].
      destruct times; cbn in *; inversion Hhd; subst; by constructor.
    + intros prev. destruct times as [|t' times].
      * cbn. intros [= <-]. cbn in Hhd. by inversion Hhd.
      * intros H. apply Hlast. by rewrite last_cons_cons in H.
Qed.

(** What one check does to the pair of the allowed times and the list. *)
Lemma check_eq (st : list Z * list Z) (now : Z) :
  check st now
  = if bool_decide (Z.of_nat (length (recent now st.2)) < POSEIDON_MAX_EVENTS_PER_MINUTE)
    then (st.1 ++ [now], recent now st.2 ++ [now])
    else (st.1, recent now st.2).
Proof.
  unfold PoseidonHooks.check, PoseidonHooks._check_rate_limit.
  case_bool_decide as E.
  - by rewrite bool_decide_false by lia.
  - by rewrite bool_decide_true by lia.
Qed.

(** On a clock that does not run backwards, the list holds the allowed
    times of the last minute, and never more than the limit. *)
Lemma checks_invariant (times : list Z) :
  0 ≤ POSEIDON_MAX_EVENTS_PER_MINUTE →
  Sorted Z.le times →
  Z.of_nat (length (checks times).2) ≤ POSEIDON_MAX_EVENTS_PER_MINUTE
  ∧ ∀ now, (∀ prev, last times = Some prev → prev ≤ now) →
           recent now (checks times).2 = recent now (checks times).1.
Proof.
  intros Hmax. unfold PoseidonHooks.run.
  induction times as [|t times IH] using rev_ind; intros Hs.
  - cbn. split; [lia|done].
  - destruct (Sorted_snoc_inv _ _ Hs) as [Hs' Hlast].
    destruct (IH Hs') as [Hlen Hrec]. specialize (Hrec t Hlast).
    rewrite foldl_app. cbn [foldl].
    set (p := foldl check ([], []) times) in *.
    rewrite check_eq.
    pose proof (length_filter (λ x : Z, x > t - 60) p.2) as Hf.
    case_bool_decide as E; cbn [fst snd].
    + split; [rewrite length_app; cbn [length]; lia|].
      intros now Hnow. specialize (Hnow t (last_snoc _ _)).
      rewrite !filter_app. f_equal.
      rewrite recent_recent by done. rewrite <- (recent_recent t now p.2) by done.
      rewrite Hrec. by rewrite recent_recent.
    + split; [lia|].
      intros now Hnow. specialize (Hnow t (last_snoc _ _)).
      rewrite recent_recent by done. rewrite <- (recent_recent t now p.2) by done.
      rewrite Hrec. by rewrite recent_recent.
Qed.

(** X24: on a clock that does not run backwards, the rate limit is a
    sliding window over the events it has let through: the check at [now] is
    allowed exactly when fewer than [POSEIDON_MAX_EVENTS_PER_MINUTE] checks
    were allowed at times later than [now - 60]; afterwards the module-level
    list holds the allowed times later than [now - 60], and they number at
    most the limit. *)
Theorem rate_limit_is_sliding_window (times : list Z) (now : Z) :
  0 ≤ POSEIDON_MAX_EVENTS_PER_MINUTE →
  Sorted Z.le (times ++ [now]) →
  let before := (PoseidonHooks.run POSEIDON_MAX_EVENTS_PER_MINUTE times).1 in
  let st := PoseidonHooks.run POSEIDON_MAX_EVENTS_PER_MINUTE (times ++ [now]) in
  st.1 = (if bool_decide (Z.of_nat (length (recent now before))
                          < POSEIDON_MAX_EVENTS_PER_MINUTE)
          then before ++ [now] else before)
  ∧ st.2 = recent now st.1
  ∧ Z.of_nat (length (recent now st.1)) ≤ POSEIDON_MAX_EVENTS_PER_MINUTE.
Proof.
  intros Hmax Hs before st.
  destruct (Sorted_snoc_inv _ _ Hs) as [Hs' Hlast].
  destruct (checks_invariant times Hmax Hs') as [_ Hrec].
  specialize (Hrec now Hlast). fold before in Hrec.
  destruct (checks_invariant (times ++ [now]) Hmax Hs) as [Hlen _]. fold st in Hlen.
  assert (st = check (checks times) now) as Hst.
  { subst st. unfold PoseidonHooks.run. by rewrite foldl_app. }
  rewrite check_eq, Hrec in Hst. fold before in Hst.
  assert (st.2 = recent now st.1) as H2.
  { rewrite Hst. case_bool_decide; cbn [fst snd].
    - by rewrite recent_snoc.
    - done. }
  split; [by rewrite Hst; case_bool_decide|]. split; [done|]. by rewrite <- H2.
Qed.

End RateLimit.

(** With a limit of two events per minute, of the checks at times 0, 10,
    20, 61 and 65 those at 0, 10 and 61 are allowed and those at 20 and 65
    are refused. *)
Lemma rate_limit_is_sliding_window_witness :
  Sorted Z.le ([0; 10; 20; 61] ++ [65])
  ∧ (PoseidonHooks.run 2 [0; 10; 20; 61]).1 = [0; 10; 61]
  ∧ (PoseidonHooks.run 2 ([0; 10; 20; 61] ++ [65])).2
    = filter (λ t : Z, t > 65 - 60) (PoseidonHooks.run 2 ([0; 10; 20; 61] ++ [65])).1.
Proof.
  assert (Sorted Z.le ([0; 10; 20; 61] ++ [65])) as Hs.
  { cbn [app]. repeat constructor; lia. }
  split; [exact Hs|]. split; [vm_compute; reflexivity|].
  apply (rate_limit_is_sliding_window 2 [0; 10; 20; 61] 65); [lia|exact Hs].
Defined.
